(** * Bicycle-counter statistics robot: a shallow embedding of [app_v2.py]

    The development follows the layout of the Python module: the Python
    run-time notions the module relies on (exceptions, [datetime],
    dictionaries, object identity), the [TimeRange] hierarchy, the
    [DailyCountHistory] aggregate, the downloader's ingestion boundary, the
    ranking function, the extraction of relevant facts and the loading of the
    sentence dictionary. Definitions come first, properties afterwards. *)

From Stdlib Require Import ZArith String Ascii Bool Lia Arith List.
From Stdlib Require Import Sorting.Permutation Sorting.Sorted DecimalString.
From Equations Require Import Equations.
Import ListNotations.

Local Open Scope string_scope.
Local Open Scope list_scope.
Local Open Scope Z_scope.

(** ** Python run-time notions *)

Module Py.

(** The exceptions the module raises or lets escape. [ValueError] carries the
    static part of its message. *)
Inductive exn : Type :=
| ValueError (msg : string)
| KeyError
| IndexError
| AttributeError
| OverflowError.

Inductive result (A : Type) : Type :=
| Ok (a : A)
| Raise (e : exn).

Arguments Ok {A} a.
Arguments Raise {A} e.

Definition bind {A B : Type} (m : result A) (k : A -> result B) : result B :=
  match m with
  | Ok a => k a
  | Raise e => Raise e
  end.

Definition is_value_error {A : Type} (m : result A) : bool :=
  match m with Raise (ValueError _) => true | _ => false end.

(** Code that creates objects threads the next free object identity. *)
Definition M (A : Type) : Type := nat -> result (A * nat).

Definition ret {A : Type} (a : A) : M A := fun n => Ok (a, n).

Definition bindM {A B : Type} (m : M A) (k : A -> M B) : M B :=
  fun n => match m n with
           | Ok (a, n') => k a n'
           | Raise e => Raise e
           end.

Definition lift {A : Type} (r : result A) : M A :=
  fun n => match r with
           | Ok a => Ok (a, n)
           | Raise e => Raise e
           end.

(** [id(obj)] of a freshly created object. *)
Definition new_id : M nat := fun n => Ok (n, S n).

(** [[f(x) for x in l]] where [f] creates objects and may raise. *)
Fixpoint comprehension {A B : Type} (f : A -> M B) (l : list A) : M (list B) :=
  match l with
  | [] => ret []
  | x :: l' =>
      bindM (f x) (fun y => bindM (comprehension f l') (fun ys => ret (y :: ys)))
  end.

(** [l[i]] for a non-negative index and [l[:-1]]. *)
Definition index {A : Type} (l : list A) (i : nat) : result A :=
  match nth_error l i with
  | Some x => Ok x
  | None => Raise IndexError
  end.

Definition all_but_last {A : Type} (l : list A) : list A := removelast l.

(** [[x for x in l if cond(x)]] where [cond] may raise. *)
Fixpoint filter_where {A : Type} (cond : A -> result bool) (l : list A)
  : result (list A) :=
  match l with
  | [] => Ok []
  | x :: l' =>
      bind (cond x) (fun keep =>
      bind (filter_where cond l') (fun xs =>
      Ok (if keep then x :: xs else xs)))
  end.

(** [{len(x) for x in a} == set(b)] on lists read as sets. *)
Definition set_eqb (a b : list nat) : bool :=
  forallb (fun x => existsb (Nat.eqb x) b) a
  && forallb (fun x => existsb (Nat.eqb x) a) b.

(** [sum(l)] and [max(l)] on integers. *)
Definition sum (l : list Z) : Z := fold_left Z.add l 0.

Definition max (l : list Z) : result Z :=
  match l with
  | [] => Raise (ValueError "max() arg is an empty sequence")
  | x :: l' => Ok (fold_left Z.max l' x)
  end.

(** [sorted(l, key=...)]: a stable sort, modelled by insertion so that equal
    keys keep their relative order. [leb a b] reads "[a] may stay before
    [b]". *)
Section Sorted.
Context {A : Type} (leb : A -> A -> bool).

Fixpoint insert (x : A) (l : list A) : list A :=
  match l with
  | [] => [x]
  | y :: l' => if leb x y then x :: l else y :: insert x l'
  end.

Fixpoint sorted (l : list A) : list A :=
  match l with
  | [] => []
  | x :: l' => insert x (sorted l')
  end.
End Sorted.

(** A [dict] in insertion order. [key_eqb] is the equality of the keys: object
    identity for instances of classes that define neither [__eq__] nor
    [__hash__], the value for enumeration members and strings. *)
Section Dict.
Context {K V : Type} (key_eqb : K -> K -> bool).

Definition dict : Type := list (K * V).

Fixpoint get (d : dict) (k : K) : option V :=
  match d with
  | [] => None
  | (k', v) :: d' => if key_eqb k' k then Some v else get d' k
  end.

Definition get_default (d : dict) (k : K) (default : V) : V :=
  match get d k with
  | Some v => v
  | None => default
  end.

Definition getitem (d : dict) (k : K) : result V :=
  match get d k with
  | Some v => Ok v
  | None => Raise KeyError
  end.

Fixpoint setitem (d : dict) (k : K) (v : V) : dict :=
  match d with
  | [] => [(k, v)]
  | (k', v') :: d' =>
      if key_eqb k' k then (k', v) :: d' else (k', v') :: setitem d' k v
  end.

(** [dict(pairs)] *)
Definition of_pairs (pairs : list (K * V)) : dict :=
  fold_left (fun d kv => setitem d (fst kv) (snd kv)) pairs [].

Definition items (d : dict) : list (K * V) := d.
Definition keys (d : dict) : list K := map fst d.
Definition values (d : dict) : list V := map snd d.
End Dict.

End Py.

Import Py.

Notation "x <- m ;; k" := (bind m (fun x => k))
  (at level 61, m at next level, right associativity).
Notation "x <~ m ;; k" := (bindM m (fun x => k))
  (at level 61, m at next level, right associativity).

(** ** [datetime]

    Naive [datetime] values of the standard library: seven integer fields,
    compared as the tuple of these fields. *)

Module Datetime.

Record datetime : Type := mk_datetime {
  year : Z;
  month : Z;
  day : Z;
  hour : Z;
  minute : Z;
  second : Z;
  microsecond : Z
}.

Definition is_leap (y : Z) : bool :=
  (y mod 4 =? 0) && (negb (y mod 100 =? 0) || (y mod 400 =? 0)).

Definition days_in_month (y m : Z) : Z :=
  if m =? 2 then (if is_leap y then 29 else 28)
  else if (m =? 4) || (m =? 6) || (m =? 9) || (m =? 11) then 30
  else 31.

(** The values a [datetime] object can hold. *)
Definition valid (d : datetime) : bool :=
  (1 <=? year d) && (year d <=? 9999) &&
  (1 <=? month d) && (month d <=? 12) &&
  (1 <=? day d) && (day d <=? days_in_month (year d) (month d)) &&
  (0 <=? hour d) && (hour d <? 24) &&
  (0 <=? minute d) && (minute d <? 60) &&
  (0 <=? second d) && (second d <? 60) &&
  (0 <=? microsecond d) && (microsecond d <? 1000000).

(** [datetime(year=y, month=m, day=d)] *)
Definition of_ymd (y m d : Z) : result datetime :=
  let date := mk_datetime y m d 0 0 0 0 in
  if valid date then Ok date else Raise (ValueError "date value out of range").

Definition fields (d : datetime) : list Z :=
  [year d; month d; day d; hour d; minute d; second d; microsecond d].

Fixpoint lex_compare (a b : list Z) : comparison :=
  match a, b with
  | [], [] => Eq
  | [], _ :: _ => Lt
  | _ :: _, [] => Gt
  | x :: a', y :: b' =>
      match x ?= y with
      | Eq => lex_compare a' b'
      | c => c
      end
  end.

Definition compare (a b : datetime) : comparison :=
  lex_compare (fields a) (fields b).

Definition ltb (a b : datetime) : bool :=
  match compare a b with Lt => true | _ => false end.

Definition leb (a b : datetime) : bool :=
  match compare a b with Gt => false | _ => true end.

(** [toordinal()] and [weekday()], as the standard library computes them. *)
Definition days_before_year (y : Z) : Z :=
  let y' := y - 1 in
  y' * 365 + y' / 4 - y' / 100 + y' / 400.

Definition days_before_month (y m : Z) : Z :=
  nth (Z.to_nat m) [0; 0; 31; 59; 90; 120; 151; 181; 212; 243; 273; 304; 334] 0
  + (if (2 <? m) && is_leap y then 1 else 0).

Definition toordinal (d : datetime) : Z :=
  days_before_year (year d) + days_before_month (year d) (month d) + day d.

Definition weekday (d : datetime) : Z := (toordinal d + 6) mod 7.

(** [d + timedelta(days=1)]: the same time of day on the next calendar day;
    the standard library raises [OverflowError] past year 9999. *)
Definition add_one_day (d : datetime) : result datetime :=
  let '(y, m, dd) :=
    if day d <? days_in_month (year d) (month d) then (year d, month d, day d + 1)
    else if month d <? 12 then (year d, month d + 1, 1)
    else (year d + 1, 1, 1) in
  if y <=? 9999
  then Ok (mk_datetime y m dd (hour d) (minute d) (second d) (microsecond d))
  else Raise OverflowError.

(** [d + timedelta(hours=1)] *)
Definition add_one_hour (d : datetime) : result datetime :=
  if hour d <? 23
  then Ok (mk_datetime (year d) (month d) (day d) (hour d + 1)
             (minute d) (second d) (microsecond d))
  else add_one_day (mk_datetime (year d) (month d) (day d) 0
                      (minute d) (second d) (microsecond d)).

End Datetime.

Import Datetime.

(** ** Enumerations *)

Module DayOfWeek.

Inductive t : Type :=
| MONDAY | TUESDAY | WEDNESDAY | THURSDAY | FRIDAY | SATURDAY | SUNDAY.

(** [DayOfWeek(value)] *)
Definition of_value (value : Z) : result t :=
  if value =? 0 then Ok MONDAY
  else if value =? 1 then Ok TUESDAY
  else if value =? 2 then Ok WEDNESDAY
  else if value =? 3 then Ok THURSDAY
  else if value =? 4 then Ok FRIDAY
  else if value =? 5 then Ok SATURDAY
  else if value =? 6 then Ok SUNDAY
  else Raise (ValueError "is not a valid DayOfWeek").

Definition value (d : t) : Z :=
  match d with
  | MONDAY => 0 | TUESDAY => 1 | WEDNESDAY => 2 | THURSDAY => 3
  | FRIDAY => 4 | SATURDAY => 5 | SUNDAY => 6
  end.

Definition eqb (a b : t) : bool := value a =? value b.

End DayOfWeek.

(** ** The [TimeRange] hierarchy

    Every instance carries its object identity: the classes define neither
    [__eq__] nor [__hash__], so two ranges are the same dictionary key only
    when they are the same object. *)

Record MonthTimeRange : Type := {
  month_id : nat;
  month_start_date : datetime
}.

Record YearTimeRange : Type := {
  year_id : nat;
  year_start_date : datetime
}.

Record CustomTimeRange : Type := {
  custom_id : nat;
  custom_start_date : datetime;
  custom_end_date : datetime
}.

Record DayTimeRange : Type := {
  day_id : nat;
  day_start_date : datetime;
  day_end_date : datetime
}.

Record HourTimeRange : Type := {
  hour_id : nat;
  hour_start_date : datetime;
  hour_end_date : datetime
}.

(** The variants a [TimeRange] argument can be; [HistoricalTimeRange] is a
    [CustomTimeRange] with another rendering. *)
Inductive TimeRange : Type :=
| Month (r : MonthTimeRange)
| Year (r : YearTimeRange)
| Custom (r : CustomTimeRange)
| Historical (r : CustomTimeRange)
| Day (r : DayTimeRange)
| Hour (r : HourTimeRange).

Definition DayTimeRange_check (date : datetime) : result unit :=
  if negb (hour date =? 0) || negb (minute date =? 0) || negb (second date =? 0)
  then Raise (ValueError "is not a day")
  else Ok tt.

Definition MonthTimeRange_check (date : datetime) : result unit :=
  _ <- DayTimeRange_check date ;;
  if negb (day date =? 1)
  then Raise (ValueError "is not a month")
  else Ok tt.

Definition YearTimeRange_check (date : datetime) : result unit :=
  _ <- MonthTimeRange_check date ;;
  if negb (month date =? 1)
  then Raise (ValueError "is not a year")
  else Ok tt.

Definition CustomTimeRange_check (date : datetime) : result unit := Ok tt.

Definition HourTimeRange_check (date : datetime) : result unit :=
  if negb (minute date =? 0) || negb (second date =? 0)
  then Raise (ValueError "is not an hour")
  else Ok tt.

(** The constructors ([__init__]). *)
Definition MonthTimeRange_init (start_date : datetime) : M MonthTimeRange :=
  id <~ new_id ;;
  _ <~ lift (MonthTimeRange_check start_date) ;;
  ret {| month_id := id; month_start_date := start_date |}.

Definition YearTimeRange_init (start_date : datetime) : M YearTimeRange :=
  id <~ new_id ;;
  _ <~ lift (YearTimeRange_check start_date) ;;
  ret {| year_id := id; year_start_date := start_date |}.

Definition CustomTimeRange_init (start_date end_date : datetime)
  : M CustomTimeRange :=
  id <~ new_id ;;
  ret {| custom_id := id;
         custom_start_date := start_date;
         custom_end_date := end_date |}.

Definition DayTimeRange_init (start_date : datetime) : M DayTimeRange :=
  id <~ new_id ;;
  _ <~ lift (DayTimeRange_check start_date) ;;
  end_date <~ lift (add_one_day start_date) ;;
  ret {| day_id := id; day_start_date := start_date; day_end_date := end_date |}.

Definition HourTimeRange_init (start_date : datetime) : M HourTimeRange :=
  id <~ new_id ;;
  _ <~ lift (HourTimeRange_check start_date) ;;
  end_date <~ lift (add_one_hour start_date) ;;
  ret {| hour_id := id; hour_start_date := start_date; hour_end_date := end_date |}.

(** [contains] *)
Definition MonthTimeRange_contains (self : MonthTimeRange) (date : datetime) : bool :=
  (year (month_start_date self) =? year date)
  && (month (month_start_date self) =? month date).

Definition YearTimeRange_contains (self : YearTimeRange) (date : datetime) : bool :=
  year (year_start_date self) =? year date.

Definition CustomTimeRange_contains (self : CustomTimeRange) (date : datetime) : bool :=
  leb (custom_start_date self) date && ltb date (custom_end_date self).

Definition DayTimeRange_contains (self : DayTimeRange) (date : datetime) : bool :=
  leb (day_start_date self) date && ltb date (day_end_date self).

Definition HourTimeRange_contains (self : HourTimeRange) (date : datetime) : bool :=
  leb (hour_start_date self) date && ltb date (hour_end_date self).

Definition contains (self : TimeRange) (date : datetime) : bool :=
  match self with
  | Month r => MonthTimeRange_contains r date
  | Year r => YearTimeRange_contains r date
  | Custom r => CustomTimeRange_contains r date
  | Historical r => CustomTimeRange_contains r date
  | Day r => DayTimeRange_contains r date
  | Hour r => HourTimeRange_contains r date
  end.

Definition start_date (self : TimeRange) : datetime :=
  match self with
  | Month r => month_start_date r
  | Year r => year_start_date r
  | Custom r => custom_start_date r
  | Historical r => custom_start_date r
  | Day r => day_start_date r
  | Hour r => hour_start_date r
  end.

(** The other methods of [DayTimeRange] and [HourTimeRange]. *)
Definition DayTimeRange_month_time_range (self : DayTimeRange) : M MonthTimeRange :=
  first_day_of_month <~
    lift (of_ymd (year (day_start_date self)) (month (day_start_date self)) 1) ;;
  MonthTimeRange_init first_day_of_month.

Definition DayTimeRange_year_time_range (self : DayTimeRange) : M YearTimeRange :=
  first_day_of_year <~ lift (of_ymd (year (day_start_date self)) 1 1) ;;
  YearTimeRange_init first_day_of_year.

Definition DayTimeRange_day_of_week (self : DayTimeRange) : result DayOfWeek.t :=
  DayOfWeek.of_value (weekday (day_start_date self)).

Definition DayTimeRange_year (self : DayTimeRange) : Z := year (day_start_date self).

Definition DayTimeRange_month (self : DayTimeRange) : Z := month (day_start_date self).

Definition HourTimeRange_hour (self : HourTimeRange) : Z := hour (hour_start_date self).

Definition HourTimeRange_day_time_range (self : HourTimeRange) : M DayTimeRange :=
  day <~ lift (of_ymd (year (hour_start_date self)) (month (hour_start_date self))
                 (day (hour_start_date self))) ;;
  DayTimeRange_init day.

(** Identity of the keys of the dictionaries below. *)
Definition day_is (a b : DayTimeRange) : bool := (day_id a =? day_id b)%nat.
Definition month_is (a b : MonthTimeRange) : bool := (month_id a =? month_id b)%nat.
Definition year_is (a b : YearTimeRange) : bool := (year_id a =? year_id b)%nat.

(** ** [DailyCountHistory] *)

Arguments dict : clear implicits.

Record DailyCountHistory : Type := {
  day_to_count : dict DayTimeRange Z;
  month_to_count : dict MonthTimeRange Z;
  year_to_count : dict YearTimeRange Z;
  total : Z;
  day_to_cumsum : dict DayTimeRange Z;
  month_to_cumsum : dict MonthTimeRange Z;
  day_of_week_to_best_count : dict DayOfWeek.t Z
}.

(** The loop shared by [_group_by_month], [_group_by_year] and
    [_extract_day_of_week_to_best_count]:
    [d[key] = d.get(key, []) + [count]] for every item in turn. *)
Section Grouping.
Context {K : Type} (key_is : K -> K -> bool) (key_of : DayTimeRange -> M K).

Fixpoint group_counts (items : list (DayTimeRange * Z)) (acc : dict K (list Z))
  : M (dict K (list Z)) :=
  match items with
  | [] => ret acc
  | (day, count) :: rest =>
      key <~ key_of day ;;
      group_counts rest
        (setitem key_is acc key (get_default key_is acc key [] ++ [count])%list)
  end.
End Grouping.

Definition _group_by_month (day_to_count : dict DayTimeRange Z)
  : M (dict MonthTimeRange Z) :=
  month_to_day_counts <~
    group_counts month_is DayTimeRange_month_time_range (items day_to_count) [] ;;
  ret (map (fun mc => (fst mc, sum (snd mc))) (items month_to_day_counts)).

Definition _group_by_year (day_to_count : dict DayTimeRange Z)
  : M (dict YearTimeRange Z) :=
  year_to_day_counts <~
    group_counts year_is DayTimeRange_year_time_range (items day_to_count) [] ;;
  ret (map (fun yc => (fst yc, sum (snd yc))) (items year_to_day_counts)).

Section Cumsum.
Context {TP : Type} (key_is : TP -> TP -> bool) (start_date_of : TP -> datetime).

Fixpoint cumsum_loop (items : list (TP * Z)) (cumsum : Z) (acc : dict TP Z)
  : dict TP Z :=
  match items with
  | [] => acc
  | (key, count) :: rest =>
      let cumsum := cumsum + count in
      cumsum_loop rest cumsum (setitem key_is acc key cumsum)
  end.

Definition _time_range_to_cumsum (time_range_to_count : dict TP Z) : dict TP Z :=
  cumsum_loop
    (sorted (fun x y => leb (start_date_of (fst x)) (start_date_of (fst y)))
       (items time_range_to_count))
    0 [].
End Cumsum.

Definition _extract_day_of_week_to_best_count (day_to_count : dict DayTimeRange Z)
  : M (dict DayOfWeek.t Z) :=
  day_of_week_to_day_counts <~
    group_counts DayOfWeek.eqb (fun day => lift (DayTimeRange_day_of_week day))
      (items day_to_count) [] ;;
  comprehension (fun dc => best <~ lift (max (snd dc)) ;; ret (fst dc, best))
    (items day_of_week_to_day_counts).

Definition DailyCountHistory_init (day_to_count : dict DayTimeRange Z)
  : M DailyCountHistory :=
  month_to_count <~ _group_by_month day_to_count ;;
  year_to_count <~ _group_by_year day_to_count ;;
  let total := sum (values day_to_count) in
  let day_to_cumsum := _time_range_to_cumsum day_is day_start_date day_to_count in
  let month_to_cumsum :=
    _time_range_to_cumsum month_is month_start_date month_to_count in
  day_of_week_to_best_count <~ _extract_day_of_week_to_best_count day_to_count ;;
  ret {| day_to_count := day_to_count;
         month_to_count := month_to_count;
         year_to_count := year_to_count;
         total := total;
         day_to_cumsum := day_to_cumsum;
         month_to_cumsum := month_to_cumsum;
         day_of_week_to_best_count := day_of_week_to_best_count |}.

(** ** [EcoCounterDownloader]: the ingestion boundary

    [parse_mdy] comes from [rivoli.utils], which is not part of this module,
    and [int_of_float] stands for the builtin conversion [int(float(s))];
    both are parameters of the embedding. An answer is the decoded JSON list
    of lists of strings. *)

Section EcoCounterDownloader.
Variable parse_mdy : string -> result datetime.
Variable int_of_float : string -> result Z.

(** [isinstance(answer, list)] holds of every answer of this type, so the
    first test of [_check_answer] never fires. *)
Definition _check_answer (answer : list (list string)) : result (bool * string) :=
  first <- index answer 0 ;;
  first_date <- index first 0 ;;
  if negb (negb (first_date =? "09/02/2019")%string)
  then Ok (false, "Expected first day of data: 09/02/2019. Received")
  else
    let pairs := all_but_last answer in
    if negb (set_eqb (map (@List.length string) pairs) [2%nat])
    then Ok (false, "Expecting a list of pairs, lengths received")
    else Ok (true, "").

Definition _format_pair (pair : list string) : M (DayTimeRange * Z) :=
  if negb (List.length pair =? 2)%nat
  then lift (Raise (ValueError "Need a pair as argument, received"))
  else
    date <~ lift (d <- index pair 0 ;; parse_mdy d) ;;
    time_range <~ DayTimeRange_init date ;;
    count <~ lift (c <- index pair 1 ;; int_of_float c) ;;
    ret (time_range, count).

Definition _pad_answer (answer : list (list string)) : list (list string) :=
  ["09/01/2019"; "0"] :: answer.

Definition _format_answer (answer : list (list string)) : M DailyCountHistory :=
  check <~ lift (_check_answer answer) ;;
  let '(is_ok, message) := check in
  if negb is_ok
  then lift (Raise (ValueError
               ("Cannot build count history from url answer, reason: " ++ message)))
  else
    let padded_answer := _pad_answer answer in
    pairs <~ comprehension _format_pair (all_but_last padded_answer) ;;
    DailyCountHistory_init (of_pairs day_is pairs).
End EcoCounterDownloader.

(** ** Ranking *)

Module Number.

(** Elements of [sorted_list]: the integer counts and the two sentinels
    [math.inf] and [-math.inf]. *)
Inductive t : Type :=
| PosInf
| Fin (z : Z)
| NegInf.

(** [a > b] and [a == b] *)
Definition gtb (a b : t) : bool :=
  match a, b with
  | PosInf, PosInf => false
  | PosInf, _ => true
  | Fin _, PosInf => false
  | Fin x, Fin y => y <? x
  | Fin _, NegInf => true
  | NegInf, _ => false
  end.

Definition eqb (a b : t) : bool :=
  match a, b with
  | PosInf, PosInf => true
  | Fin x, Fin y => x =? y
  | NegInf, NegInf => true
  | _, _ => false
  end.

End Number.

(** [sorted(list_, reverse=True)] *)
Definition sorted_reverse (list_ : list Z) : list Z :=
  sorted (fun a b => b <=? a) list_.

(** The first [while] loop of [human_rank_in_list], from the current [left]
    and [right] to the final [right]. The indices are natural numbers: they
    start at 0 and [len(sorted_list) - 1] and stay between the two, and on
    natural numbers [left < right - 1] is false when [right] is 0, as it is on
    integers. *)
Equations? bisect (sorted_list : list Number.t) (quantity : Number.t)
  (left_ right_ : nat) : result nat by wf (right_ - left_)%nat lt :=
  bisect sorted_list quantity left_ right_ with lt_dec left_ (right_ - 1) => {
    | right _ := Ok right_
    | left _ with index sorted_list ((left_ + right_) / 2)%nat => {
        | Raise e := Raise e
        | Ok x with Number.gtb x quantity => {
            | true := bisect sorted_list quantity ((left_ + right_) / 2)%nat right_
            | false := bisect sorted_list quantity left_ ((left_ + right_) / 2)%nat } } }.
Proof.
  all: change (fst (Nat.divmod (left_ + right_) 1 0 1))
         with ((left_ + right_) / 2)%nat;
       pose proof (Nat.div_mod_eq (left_ + right_) 2);
       pose proof (Nat.mod_upper_bound (left_ + right_) 2); lia.
Qed.

(** The second [while] loop, from the current [right] and [nb_ties] to the
    final [nb_ties]. *)
Equations? count_ties (sorted_list : list Number.t) (quantity : Number.t)
  (right_ : nat) (nb_ties : Z) : result Z
  by wf (List.length sorted_list - right_)%nat lt :=
  count_ties sorted_list quantity right_ nb_ties
    with lt_dec right_ (List.length sorted_list) => {
    | right _ := Ok nb_ties
    | left _ with index sorted_list right_ => {
        | Raise e := Raise e
        | Ok x with Number.eqb x quantity => {
            | true := count_ties sorted_list quantity (S right_) (nb_ties + 1)
            | false := Ok nb_ties } } }.
Proof. lia. Qed.

Definition human_rank_in_list (quantity : Z) (list_ : list Z) : result (Z * Z) :=
  let sorted_list :=
    (Number.PosInf :: map Number.Fin (sorted_reverse list_) ++ [Number.NegInf])%list in
  let left_ := 0%nat in
  let right_ := (List.length sorted_list - 1)%nat in
  right_ <- bisect sorted_list (Number.Fin quantity) left_ right_ ;;
  let rank := right_ in
  nb_ties <- count_ties sorted_list (Number.Fin quantity) right_ 0 ;;
  Ok (Z.of_nat rank, nb_ties - 1).

(** ** Relevant facts *)

(** The fact classes that can be instantiated, with the attributes their
    constructors store. *)
Inductive RelevantFact : Type :=
| HistoricalTotalRelevantFact (target_range : TimeRange) (priority total : Z)
| YearTotalRelevantFact (target_range : TimeRange) (priority total : Z)
| MonthTotalRelevantFact (target_range : TimeRange) (priority total : Z)
| DayOfMonthRankOfTotalRelevantFact
    (target_range : TimeRange) (priority total rank ties : Z)
| DayOfYearRankOfTotalRelevantFact
    (target_range : TimeRange) (priority total rank ties : Z)
| DayOfHistoricalRankOfTotalRelevantFact
    (target_range : TimeRange) (priority total rank ties : Z)
| MonthOfYearRankOfTotalRelevantFact
    (target_range : TimeRange) (priority total rank ties : Z)
| MonthOfHistoryRankOfTotalRelevantFact
    (target_range : TimeRange) (priority total rank ties : Z)
| YearOfHistoryRankOfTotalRelevantFact
    (target_range : TimeRange) (priority total rank ties : Z)
| HistoricalDayOfWeekRankRelevantFact
    (target_range : TimeRange) (priority : Z) (day_of_week : DayOfWeek.t)
    (rank ties : Z)
| YearDayOfWeekRankRelevantFact
    (target_range : TimeRange) (priority : Z) (day_of_week : DayOfWeek.t)
    (rank ties : Z)
| MonthDayOfWeekRankRelevantFact
    (target_range : TimeRange) (priority : Z) (day_of_week : DayOfWeek.t)
    (rank ties : Z).

Definition priority (fact : RelevantFact) : Z :=
  match fact with
  | HistoricalTotalRelevantFact _ p _
  | YearTotalRelevantFact _ p _
  | MonthTotalRelevantFact _ p _
  | DayOfMonthRankOfTotalRelevantFact _ p _ _ _
  | DayOfYearRankOfTotalRelevantFact _ p _ _ _
  | DayOfHistoricalRankOfTotalRelevantFact _ p _ _ _
  | MonthOfYearRankOfTotalRelevantFact _ p _ _ _
  | MonthOfHistoryRankOfTotalRelevantFact _ p _ _ _
  | YearOfHistoryRankOfTotalRelevantFact _ p _ _ _
  | HistoricalDayOfWeekRankRelevantFact _ p _ _ _
  | YearDayOfWeekRankRelevantFact _ p _ _ _
  | MonthDayOfWeekRankRelevantFact _ p _ _ _ => p
  end.

Definition extract_total (count_history : DailyCountHistory)
  (target_range : DayTimeRange) : result Z :=
  getitem day_is (day_to_count count_history) target_range.

Definition extract_rank_and_ties_of_day_of_week (count_history : DailyCountHistory)
  (target_range : DayTimeRange) (same_year : bool) : result (Z * Z) :=
  selected <-
    filter_where
      (fun dc =>
         dow <- DayTimeRange_day_of_week (fst dc) ;;
         target_dow <- DayTimeRange_day_of_week target_range ;;
         Ok (DayOfWeek.eqb dow target_dow
             && (negb same_year
                 || (DayTimeRange_year (fst dc) =? DayTimeRange_year target_range))))
      (items (day_to_count count_history)) ;;
  let count_with_same_dow := map snd selected in
  count <- getitem day_is (day_to_count count_history) target_range ;;
  human_rank_in_list count count_with_same_dow.

Definition get_rank_of_day (count_history : DailyCountHistory)
  (target_range : DayTimeRange)
  (comparator : DayTimeRange -> DayTimeRange -> bool) : result (Z * Z) :=
  count <- getitem day_is (day_to_count count_history) target_range ;;
  let counts_in_same_year :=
    map snd (filter (fun dc => comparator (fst dc) target_range)
               (items (day_to_count count_history))) in
  human_rank_in_list count counts_in_same_year.

Definition share_year (range_1 range_2 : DayTimeRange) : bool :=
  DayTimeRange_year range_1 =? DayTimeRange_year range_2.

Definition share_month (range_1 range_2 : DayTimeRange) : bool :=
  DayTimeRange_month range_1 =? DayTimeRange_month range_2.

Definition get_rank_of_day_in_year (count_history : DailyCountHistory)
  (target_range : DayTimeRange) : result (Z * Z) :=
  get_rank_of_day count_history target_range share_year.

Definition get_rank_of_day_in_month (count_history : DailyCountHistory)
  (target_range : DayTimeRange) : result (Z * Z) :=
  get_rank_of_day count_history target_range share_month.

Definition extract_month_total (count_history : DailyCountHistory)
  (target_range : DayTimeRange) : Z :=
  sum (map snd
         (filter (fun dc => DayTimeRange_month (fst dc) =? DayTimeRange_month target_range)
            (items (day_to_count count_history)))).

Definition extract_relevant_facts (count_history : DailyCountHistory)
  (among_range : TimeRange) (target_range : DayTimeRange)
  : result (list RelevantFact) :=
  if negb (contains among_range (day_start_date target_range))
     || negb (contains among_range (day_end_date target_range))
  then Raise (ValueError "Arg among_range must contain arg target_range")
  else
    let facts := [] in
    total <- extract_total count_history target_range ;;
    let facts := (facts ++ [HistoricalTotalRelevantFact (Day target_range) 0 total])%list in
    dow <- DayTimeRange_day_of_week target_range ;;
    rt <- extract_rank_and_ties_of_day_of_week count_history target_range true ;;
    let facts :=
      (facts ++ [YearDayOfWeekRankRelevantFact (Day target_range) 0 dow
                   (fst rt) (snd rt)])%list in
    dow <- DayTimeRange_day_of_week target_range ;;
    rt <- extract_rank_and_ties_of_day_of_week count_history target_range false ;;
    let facts :=
      (facts ++ [HistoricalDayOfWeekRankRelevantFact (Day target_range) 0 dow
                   (fst rt) (snd rt)])%list in
    count <- getitem day_is (day_to_count count_history) target_range ;;
    rt <- get_rank_of_day_in_year count_history target_range ;;
    let facts :=
      (facts ++ [DayOfYearRankOfTotalRelevantFact (Day target_range) 0 count
                   (fst rt) (snd rt)])%list in
    count <- getitem day_is (day_to_count count_history) target_range ;;
    rt <- get_rank_of_day_in_month count_history target_range ;;
    let facts :=
      (facts ++ [DayOfMonthRankOfTotalRelevantFact (Day target_range) 0 count
                   (fst rt) (snd rt)])%list in
    let facts :=
      (facts ++ [MonthTotalRelevantFact (Day target_range) 0
                   (extract_month_total count_history target_range)])%list in
    Ok facts.

(** ** The sentence dictionary *)

Module DictionaryKey.

Inductive t : Type :=
| HISTORICAL_TOTAL | YEAR_TOTAL | MONTH_TOTAL
| FIRST | SECOND | THIRD | ITH
| FEMALE_BEST | MALE_BEST
| MONDAY | TUESDAY | WEDNESDAY | THURSDAY | FRIDAY | SATURDAY | SUNDAY
| SINCE_BEGINING | SINCE_BEGINING_OF_YEAR | SINCE_BEGINING_OF_MONTH
| DAY_OF_MONTH | DAY_OF_YEAR | DAY_OF_HISTORY
| MONTH_OF_YEAR | MONTH_OF_HISTORY | YEAR_OF_HISTORY
| YESTERDAY | TODAY.

Definition value (k : t) : string :=
  match k with
  | HISTORICAL_TOTAL => "HISTORICAL_TOTAL" | YEAR_TOTAL => "YEAR_TOTAL"
  | MONTH_TOTAL => "MONTH_TOTAL" | FIRST => "FIRST" | SECOND => "SECOND"
  | THIRD => "THIRD" | ITH => "ITH" | FEMALE_BEST => "FEMALE_BEST"
  | MALE_BEST => "MALE_BEST" | MONDAY => "MONDAY" | TUESDAY => "TUESDAY"
  | WEDNESDAY => "WEDNESDAY" | THURSDAY => "THURSDAY" | FRIDAY => "FRIDAY"
  | SATURDAY => "SATURDAY" | SUNDAY => "SUNDAY"
  | SINCE_BEGINING => "SINCE_BEGINING"
  | SINCE_BEGINING_OF_YEAR => "SINCE_BEGINING_OF_YEAR"
  | SINCE_BEGINING_OF_MONTH => "SINCE_BEGINING_OF_MONTH"
  | DAY_OF_MONTH => "DAY_OF_MONTH" | DAY_OF_YEAR => "DAY_OF_YEAR"
  | DAY_OF_HISTORY => "DAY_OF_HISTORY" | MONTH_OF_YEAR => "MONTH_OF_YEAR"
  | MONTH_OF_HISTORY => "MONTH_OF_HISTORY" | YEAR_OF_HISTORY => "YEAR_OF_HISTORY"
  | YESTERDAY => "YESTERDAY" | TODAY => "TODAY"
  end.

(** The members, in declaration order. *)
Definition members : list t :=
  [HISTORICAL_TOTAL; YEAR_TOTAL; MONTH_TOTAL; FIRST; SECOND; THIRD; ITH;
   FEMALE_BEST; MALE_BEST; MONDAY; TUESDAY; WEDNESDAY; THURSDAY; FRIDAY;
   SATURDAY; SUNDAY; SINCE_BEGINING; SINCE_BEGINING_OF_YEAR;
   SINCE_BEGINING_OF_MONTH; DAY_OF_MONTH; DAY_OF_YEAR; DAY_OF_HISTORY;
   MONTH_OF_YEAR; MONTH_OF_HISTORY; YEAR_OF_HISTORY; YESTERDAY; TODAY].

(** [DictionaryKey(value)] *)
Definition of_value (v : string) : result t :=
  match find (fun k => String.eqb (value k) v) members with
  | Some k => Ok k
  | None => Raise (ValueError "is not a valid DictionaryKey")
  end.

Definition eqb (a b : t) : bool := String.eqb (value a) (value b).

End DictionaryKey.

Module Language.

Inductive t : Type := FR | EN.

Definition value (l : t) : string :=
  match l with FR => "fr" | EN => "en" end.

(** [Language(value)] *)
Definition of_value (v : string) : result t :=
  if String.eqb v "fr" then Ok FR
  else if String.eqb v "en" then Ok EN
  else Raise (ValueError "is not a valid Language").

Definition eqb (a b : t) : bool := String.eqb (value a) (value b).

End Language.

(** Decoded JSON values, the argument of [Dictionary.from_json]. *)
#[warnings="-register-all"]
Inductive json : Type :=
| JNull
| JBool (b : bool)
| JNumber (z : Z)
| JString (s : string)
| JList (l : list json)
| JDict (members : list (string * json)).

(** [Dictionary.key_to_language_to_sentence] *)
Definition Dictionary : Type := dict DictionaryKey.t (dict Language.t json).

(** [x.items()]: only a [dict] has the attribute. *)
Definition json_items (x : json) : result (list (string * json)) :=
  match x with
  | JDict members => Ok members
  | _ => Raise AttributeError
  end.

Definition check_json (json_dictionary : json) : bool * string :=
  match json_dictionary with
  | JDict _ => (false, "json_dictionary must be of type dict")
  | _ => (true, "")
  end.

(** The two nested dictionary comprehensions of [from_json]. *)
Fixpoint languages_comprehension (items : list (string * json))
  (acc : dict Language.t json) : result (dict Language.t json) :=
  match items with
  | [] => Ok acc
  | (language, sentence) :: rest =>
      l <- Language.of_value language ;;
      languages_comprehension rest (setitem Language.eqb acc l sentence)
  end.

Fixpoint keys_comprehension (items : list (string * json)) (acc : Dictionary)
  : result Dictionary :=
  match items with
  | [] => Ok acc
  | (dict_key, language_to_sentence) :: rest =>
      k <- DictionaryKey.of_value dict_key ;;
      sentences <- json_items language_to_sentence ;;
      inner <- languages_comprehension sentences [] ;;
      keys_comprehension rest (setitem DictionaryKey.eqb acc k inner)
  end.

Definition from_json (json_dictionary : json) : result Dictionary :=
  let '(is_ok, message) := check_json json_dictionary in
  if negb is_ok
  then Raise (ValueError message)
  else
    members <- json_items json_dictionary ;;
    keys_comprehension members [].

(** The inputs [from_json] is meant for: a mapping from the names of
    [DictionaryKey] members to mappings from language codes to strings. *)
Definition well_formed_sentences (x : json) : bool :=
  match x with
  | JDict members =>
      forallb (fun ls => match Language.of_value (fst ls), snd ls with
                         | Ok _, JString _ => true
                         | _, _ => false
                         end) members
  | _ => false
  end.

Definition well_formed_dictionary (x : json) : bool :=
  match x with
  | JDict members =>
      forallb (fun ks => match DictionaryKey.of_value (fst ks) with
                         | Ok _ => well_formed_sentences (snd ks)
                         | Raise _ => false
                         end) members
  | _ => false
  end.

(** ** [HourlyCountHistory] *)

(** The loop of [_group_by_day] and
    [_extract_hour_and_day_of_week_to_best_count], over items of any class:
    [d[key] = d.get(key, []) + [count]] for every item in turn. *)
Section ItemGrouping.
Context {I K : Type} (key_is : K -> K -> bool) (key_of : I -> M K).

Fixpoint group_items (items : list (I * Z)) (acc : dict K (list Z))
  : M (dict K (list Z)) :=
  match items with
  | [] => ret acc
  | (item, count) :: rest =>
      key <~ key_of item ;;
      group_items rest
        (setitem key_is acc key (get_default key_is acc key [] ++ [count]))
  end.
End ItemGrouping.

Definition hour_is (a b : HourTimeRange) : bool := (hour_id a =? hour_id b)%nat.

Definition HourTimeRange_day_of_week (self : HourTimeRange) : result DayOfWeek.t :=
  DayOfWeek.of_value (weekday (hour_start_date self)).

(** Equality of the tuples [(hour, day_of_week)] used as keys. *)
Definition hour_and_day_eqb (a b : Z * DayOfWeek.t) : bool :=
  (fst a =? fst b) && DayOfWeek.eqb (snd a) (snd b).

Record HourlyCountHistory : Type := {
  daily : DailyCountHistory;
  hour_to_count : dict HourTimeRange Z;
  hour_to_cumsum : dict HourTimeRange Z;
  hour_and_day_of_week_to_best_count : dict (Z * DayOfWeek.t) Z
}.

Definition _extract_hour_and_day_of_week_to_best_count
  (hour_to_count : dict HourTimeRange Z) : M (dict (Z * DayOfWeek.t) Z) :=
  hour_and_day_of_week_to_counts <~
    group_items hour_and_day_eqb
      (fun hour => lift (dow <- HourTimeRange_day_of_week hour ;;
                         Ok (HourTimeRange_hour hour, dow)))
      (items hour_to_count) [] ;;
  comprehension (fun kc => best <~ lift (max (snd kc)) ;; ret (fst kc, best))
    (items hour_and_day_of_week_to_counts).

Definition _group_by_day (hour_to_count : dict HourTimeRange Z)
  : M (dict DayTimeRange Z) :=
  day_to_hour_counts <~
    group_items day_is HourTimeRange_day_time_range (items hour_to_count) [] ;;
  ret (map (fun dc => (fst dc, sum (snd dc))) (items day_to_hour_counts)).

Definition HourlyCountHistory_init (hour_to_count : dict HourTimeRange Z)
  : M HourlyCountHistory :=
  day_to_count <~ _group_by_day hour_to_count ;;
  daily <~ DailyCountHistory_init day_to_count ;;
  let hour_to_cumsum := _time_range_to_cumsum hour_is hour_start_date hour_to_count in
  best <~ _extract_hour_and_day_of_week_to_best_count hour_to_count ;;
  ret {| daily := daily;
         hour_to_count := hour_to_count;
         hour_to_cumsum := hour_to_cumsum;
         hour_and_day_of_week_to_best_count := best |}.

Definition extract_total_hourly (count_history : HourlyCountHistory)
  (target_range : HourTimeRange) : result Z :=
  getitem hour_is (hour_to_count count_history) target_range.

(** ** Selection and rendering of facts *)

Definition extract_highest_priority_relevant_facts (facts : list RelevantFact)
  : result (list RelevantFact) :=
  max_priority <- max (map priority facts) ;;
  Ok (filter (fun fact => priority fact =? max_priority) facts).

(** The exceptions of the module that are not [ValueError], [KeyError] and
    the like: [NotImplementedError] of the abstract methods and the error of
    the request to the counter. *)
Inductive raised : Type :=
| Builtin (e : exn)
| NotImplementedError
| FailedRequestingEcoCounterError (content : string).

Inductive outcome (A : Type) : Type :=
| Return (a : A)
| Fail (r : raised).

Arguments Return {A} a.
Arguments Fail {A} r.

Definition of_result {A : Type} (r : result A) : outcome A :=
  match r with
  | Ok a => Return a
  | Raise e => Fail (Builtin e)
  end.

Definition and_then {A B : Type} (m : outcome A) (k : A -> outcome B) : outcome B :=
  match m with
  | Return a => k a
  | Fail r => Fail r
  end.

(** [Dictionary.key_to_language_to_sentence] as its annotation has it, with
    sentences that are strings, and [dictionary[key][language]]. *)
Definition Sentences : Type := dict DictionaryKey.t (dict Language.t string).

Definition sentence (dictionary : Sentences) (key : DictionaryKey.t)
  (language : Language.t) : result string :=
  by_language <- getitem DictionaryKey.eqb dictionary key ;;
  getitem Language.eqb by_language language.

(** [DayOfWeek.name] and [DayOfWeek.to_dictionary_key]. *)
Definition DayOfWeek_name (d : DayOfWeek.t) : string :=
  match d with
  | DayOfWeek.MONDAY => "MONDAY" | DayOfWeek.TUESDAY => "TUESDAY"
  | DayOfWeek.WEDNESDAY => "WEDNESDAY" | DayOfWeek.THURSDAY => "THURSDAY"
  | DayOfWeek.FRIDAY => "FRIDAY" | DayOfWeek.SATURDAY => "SATURDAY"
  | DayOfWeek.SUNDAY => "SUNDAY"
  end.

Definition DayOfWeek_to_dictionary_key (self : DayOfWeek.t) : result DictionaryKey.t :=
  DictionaryKey.of_value (DayOfWeek_name self).

Definition day_of_week_to_name (day_of_week : DayOfWeek.t) (language : Language.t)
  (dictionary : Sentences) : result string :=
  key <- DayOfWeek_to_dictionary_key day_of_week ;;
  sentence dictionary key language.

(** [str(n)] for an integer, as an f-string formats it. *)
Definition str (n : Z) : string := NilZero.string_of_int (Z.to_int n).

Definition rank_to_ordinal (rank : Z) (language : Language.t) (dictionary : Sentences)
  : result string :=
  if rank =? 0 then sentence dictionary DictionaryKey.FIRST language
  else if rank =? 1 then sentence dictionary DictionaryKey.SECOND language
  else if rank =? 2 then sentence dictionary DictionaryKey.THIRD language
  else
    ith <- sentence dictionary DictionaryKey.ITH language ;;
    Ok (str rank ++ ith)%string.

Definition get_male_best (rank : Z) (language : Language.t) (dictionary : Sentences)
  : result string :=
  ordinal <- rank_to_ordinal rank language dictionary ;;
  best <- sentence dictionary DictionaryKey.MALE_BEST language ;;
  let ordinal_best :=
    if negb (rank =? 0) then (ordinal ++ " " ++ best)%string else best in
  Ok ordinal_best.

Definition get_female_best (rank : Z) (language : Language.t) (dictionary : Sentences)
  : result string :=
  ordinal <- rank_to_ordinal rank language dictionary ;;
  best <- sentence dictionary DictionaryKey.FEMALE_BEST language ;;
  let ordinal_best :=
    if negb (rank =? 0) then (ordinal ++ " " ++ best)%string else best in
  Ok ordinal_best.

Definition get_male_best_day_of_week_sentence (rank : Z) (day_of_week : DayOfWeek.t)
  (language : Language.t) (dictionary : Sentences) : result string :=
  day_of_week_name <- day_of_week_to_name day_of_week language dictionary ;;
  male_best <- get_male_best rank language dictionary ;;
  Ok (male_best ++ " " ++ day_of_week_name)%string.

(** [d.date()], compared with [==], and [d - timedelta(days=1)]: the same
    time of day on the previous calendar day; the standard library raises
    [OverflowError] before year 1. *)
Definition same_date (a b : datetime) : bool :=
  (year a =? year b) && (month a =? month b) && (day a =? day b).

Definition sub_one_day (d : datetime) : result datetime :=
  let '(y, m, dd) :=
    if 1 <? day d then (year d, month d, day d - 1)
    else if 1 <? month d
         then (year d, month d - 1, days_in_month (year d) (month d - 1))
         else (year d - 1, 12, 31) in
  if 1 <=? y
  then Ok (mk_datetime y m dd (hour d) (minute d) (second d) (microsecond d))
  else Raise OverflowError.

(** [to_string] of the time ranges: only [DayTimeRange] implements it. *)
Definition DayTimeRange_to_string (self : DayTimeRange) (language : Language.t)
  (day_of_publication : datetime) (dictionary : Sentences) : outcome string :=
  if same_date day_of_publication (day_start_date self)
  then of_result (sentence dictionary DictionaryKey.TODAY language)
  else
    and_then (of_result (sub_one_day day_of_publication)) (fun day_before =>
    if same_date day_before (day_start_date self)
    then of_result (sentence dictionary DictionaryKey.YESTERDAY language)
    else Fail NotImplementedError).

Definition TimeRange_to_string (self : TimeRange) (language : Language.t)
  (day_of_publication : datetime) (dictionary : Sentences) : outcome string :=
  match self with
  | Day r => DayTimeRange_to_string r language day_of_publication dictionary
  | _ => Fail NotImplementedError
  end.

(** [to_string] of the facts. The three families differ by the key of their
    end of sentence and, for the ranks of totals, by the gender of "best". *)
Definition total_to_string (key : DictionaryKey.t) (total : Z) (language : Language.t)
  (dictionary : Sentences) : outcome string :=
  of_result (end_of_sentence <- sentence dictionary key language ;;
             Ok (str total ++ " " ++ end_of_sentence ++ ".")%string).

Definition rank_of_total_to_string
  (_get_best : Z -> Language.t -> Sentences -> result string)
  (key : DictionaryKey.t) (target_range : TimeRange) (rank : Z)
  (language : Language.t) (day_of_publication : datetime) (dictionary : Sentences)
  : outcome string :=
  and_then (of_result (_get_best rank language dictionary)) (fun best =>
  and_then (of_result (sentence dictionary key language)) (fun end_of_sentence =>
  and_then (TimeRange_to_string target_range language day_of_publication dictionary)
    (fun string_time_range =>
  Return (string_time_range ++ ": " ++ best ++ " " ++ end_of_sentence)%string))).

Definition day_of_week_rank_to_string (key : DictionaryKey.t) (rank : Z)
  (day_of_week : DayOfWeek.t) (language : Language.t) (dictionary : Sentences)
  : outcome string :=
  of_result
    (best_day_of_week_sentence <-
       get_male_best_day_of_week_sentence rank day_of_week language dictionary ;;
     end_of_sentence <- sentence dictionary key language ;;
     Ok (best_day_of_week_sentence ++ " " ++ end_of_sentence ++ ".")%string).

Definition RelevantFact_to_string (fact : RelevantFact) (language : Language.t)
  (day_of_publication : datetime) (dictionary : Sentences) : outcome string :=
  match fact with
  | HistoricalTotalRelevantFact _ _ total =>
      total_to_string DictionaryKey.HISTORICAL_TOTAL total language dictionary
  | YearTotalRelevantFact _ _ total =>
      total_to_string DictionaryKey.YEAR_TOTAL total language dictionary
  | MonthTotalRelevantFact _ _ total =>
      total_to_string DictionaryKey.MONTH_TOTAL total language dictionary
  | DayOfMonthRankOfTotalRelevantFact target_range _ _ rank _ =>
      rank_of_total_to_string get_male_best DictionaryKey.DAY_OF_MONTH
        target_range rank language day_of_publication dictionary
  | DayOfYearRankOfTotalRelevantFact target_range _ _ rank _ =>
      rank_of_total_to_string get_male_best DictionaryKey.DAY_OF_YEAR
        target_range rank language day_of_publication dictionary
  | DayOfHistoricalRankOfTotalRelevantFact target_range _ _ rank _ =>
      rank_of_total_to_string get_male_best DictionaryKey.DAY_OF_HISTORY
        target_range rank language day_of_publication dictionary
  | MonthOfYearRankOfTotalRelevantFact target_range _ _ rank _ =>
      rank_of_total_to_string get_male_best DictionaryKey.MONTH_OF_YEAR
        target_range rank language day_of_publication dictionary
  | MonthOfHistoryRankOfTotalRelevantFact target_range _ _ rank _ =>
      rank_of_total_to_string get_female_best DictionaryKey.MONTH_OF_HISTORY
        target_range rank language day_of_publication dictionary
  | YearOfHistoryRankOfTotalRelevantFact target_range _ _ rank _ =>
      rank_of_total_to_string get_male_best DictionaryKey.YEAR_OF_HISTORY
        target_range rank language day_of_publication dictionary
  | HistoricalDayOfWeekRankRelevantFact _ _ day_of_week rank _ =>
      day_of_week_rank_to_string DictionaryKey.SINCE_BEGINING rank day_of_week
        language dictionary
  | YearDayOfWeekRankRelevantFact _ _ day_of_week rank _ =>
      day_of_week_rank_to_string DictionaryKey.SINCE_BEGINING_OF_YEAR rank day_of_week
        language dictionary
  | MonthDayOfWeekRankRelevantFact _ _ day_of_week rank _ =>
      day_of_week_rank_to_string DictionaryKey.SINCE_BEGINING_OF_MONTH rank day_of_week
        language dictionary
  end.

(** [relevant_facts_to_string]. [random.choice(seq)] is
    [seq[randbelow(len(seq))]], where [randbelow] is the draw of the random
    source. *)
Definition relevant_facts_to_string (randbelow : nat -> nat)
  (relevant_facts : list RelevantFact) (language : Language.t)
  (time_of_publication : datetime) (dictionary : Sentences) : outcome string :=
  match relevant_facts with
  | [] => Fail (Builtin (ValueError "Need at least one relevant fact"))
  | _ =>
      and_then (of_result (extract_highest_priority_relevant_facts relevant_facts))
        (fun top_relevant_facts =>
      and_then (of_result (index top_relevant_facts
                             (randbelow (List.length top_relevant_facts))))
        (fun fact =>
      RelevantFact_to_string fact language time_of_publication dictionary))
  end.

(** ** [EcoCounterDownloader.download_count_history]

    The answer of [requests.post] is reduced to what the method reads of it:
    the status code, the decoded JSON body (or the exception decoding it
    raises) and the text of the body. *)
Record Response : Type := {
  status_code : Z;
  json_body : result (list (list string));
  content : string
}.

Definition download_count_history (parse_mdy : string -> result datetime)
  (int_of_float : string -> result Z) (answer : Response) (n : nat)
  : outcome (DailyCountHistory * nat) :=
  if negb (status_code answer =? 200)
  then
    and_then (of_result (json_body answer)) (fun json_answer =>
    of_result (_format_answer parse_mdy int_of_float json_answer n))
  else Fail (FailedRequestingEcoCounterError (content answer)).

(** ** [generate_mock_count_history]

    [d + timedelta(days=k)] and [d - timedelta(days=k)] for a number of days
    that is not negative, day by day. [now] stands for the value of
    [datetime.now()] and [randint i] for the value of the call of
    [random.randint(0, 100)] made for index [i]. *)
Fixpoint add_days (d : datetime) (k : nat) : result datetime :=
  match k with
  | O => Ok d
  | S k' => d' <- add_one_day d ;; add_days d' k'
  end.

Fixpoint sub_days (d : datetime) (k : nat) : result datetime :=
  match k with
  | O => Ok d
  | S k' => d' <- sub_one_day d ;; sub_days d' k'
  end.

Definition generate_mock_count_history (now : datetime) (randint : nat -> Z)
  (nb_days : Z) : M DailyCountHistory :=
  start_date <~ lift (if 0 <=? nb_days
                      then sub_days now (Z.to_nat nb_days)
                      else add_days now (Z.to_nat (- nb_days))) ;;
  pairs <~ comprehension
             (fun i => date <~ lift (add_days start_date i) ;;
                       time_range <~ DayTimeRange_init date ;;
                       ret (time_range, randint i))
             (seq 0 (Z.to_nat nb_days)) ;;
  DailyCountHistory_init (of_pairs day_is pairs).

(** ** Readers for concrete answers

    Stand-ins for the two parameters of the downloader, used to run it on
    concrete answers: dates written [MM/DD/YYYY] and counts written in decimal
    digits. *)

Definition digit_value (c : ascii) : option Z :=
  let n := Z.of_nat (nat_of_ascii c) in
  if (48 <=? n) && (n <=? 57) then Some (n - 48) else None.

Fixpoint digits_value (s : string) (acc : Z) : option Z :=
  match s with
  | EmptyString => Some acc
  | String c s' =>
      match digit_value c with
      | Some d => digits_value s' (10 * acc + d)
      | None => None
      end
  end.

Definition read_digits (s : string) : result Z :=
  match s with
  | EmptyString => Raise (ValueError "invalid literal")
  | _ =>
      match digits_value s 0 with
      | Some z => Ok z
      | None => Raise (ValueError "invalid literal")
      end
  end.

Definition read_mdy (s : string) : result datetime :=
  if negb ((String.length s =? 10)%nat
           && (substring 2 1 s =? "/")%string
           && (substring 5 1 s =? "/")%string)
  then Raise (ValueError "does not match format")
  else
    m <- read_digits (substring 0 2 s) ;;
    d <- read_digits (substring 3 2 s) ;;
    y <- read_digits (substring 6 4 s) ;;
    of_ymd y m d.

(** ** Reference notions used in the statements *)

(** How many elements of [pop] are strictly greater than, or equal to, [v]. *)
Definition count_greater (v : Z) (pop : list Z) : nat :=
  List.length (filter (fun x => v <? x) pop).

Definition count_equal (v : Z) (pop : list Z) : nat :=
  List.length (filter (fun x => x =? v) pop).

(** The explicit end of a range, for the variants that have one. *)
Definition end_date (self : TimeRange) : option datetime :=
  match self with
  | Month _ | Year _ => None
  | Custom r | Historical r => Some (custom_end_date r)
  | Day r => Some (day_end_date r)
  | Hour r => Some (hour_end_date r)
  end.

(** [constructed r]: the object [r] is what its class's constructor returns
    for the attributes it holds. *)
Definition constructed (r : TimeRange) : Prop :=
  match r with
  | Month m => exists n n', MonthTimeRange_init (month_start_date m) n = Ok (m, n')
  | Year y => exists n n', YearTimeRange_init (year_start_date y) n = Ok (y, n')
  | Custom c | Historical c =>
      exists n n',
        CustomTimeRange_init (custom_start_date c) (custom_end_date c) n = Ok (c, n')
  | Day d => exists n n', DayTimeRange_init (day_start_date d) n = Ok (d, n')
  | Hour h => exists n n', HourTimeRange_init (hour_start_date h) n = Ok (h, n')
  end.

(** The padding pair becomes a new Day object for 1 September 2019. *)
Definition padding_day (n : nat) : DayTimeRange :=
  {| day_id := n;
     day_start_date := mk_datetime 2019 9 1 0 0 0 0;
     day_end_date := mk_datetime 2019 9 2 0 0 0 0 |}.

(** The running sums of the counts of [items], from [cumsum], key by key. *)
Fixpoint running_sums {TP : Type} (items : list (TP * Z)) (cumsum : Z)
  : list (TP * Z) :=
  match items with
  | [] => []
  | (key, count) :: rest => (key, cumsum + count) :: running_sums rest (cumsum + count)
  end.

(** What is expected of a cumulative-sum mapping, read in its own order: its
    keys are in ascending order of start date, its values never decrease and
    the last one is [total] (no value at all only when [total] is 0). *)
Definition cumsum_ok {TP : Type} (start_date_of : TP -> datetime)
  (cumsums : dict TP Z) (total : Z) : Prop :=
  Sorted (fun a b => leb (start_date_of a) (start_date_of b) = true) (keys cumsums)
  /\ StronglySorted Z.le (values cumsums)
  /\ last (values cumsums) 0 = total.

(** The day of the week of a Day range, the populations its count is ranked
    in, and the rank and number of ties [human_rank_in_list] gives a count in
    a population. *)
Definition day_of_week_of (day : DayTimeRange) : DayOfWeek.t :=
  match DayTimeRange_day_of_week day with
  | Ok w => w
  | Raise _ => DayOfWeek.MONDAY
  end.

Definition counts_where (keep : DayTimeRange -> bool) (count_history : DailyCountHistory)
  : list Z :=
  map snd (filter (fun dc => keep (fst dc)) (items (day_to_count count_history))).

Definition same_day_of_week (same_year : bool) (target day : DayTimeRange) : bool :=
  DayOfWeek.eqb (day_of_week_of day) (day_of_week_of target)
  && (negb same_year || (DayTimeRange_year day =? DayTimeRange_year target)).

Definition rank_in (count : Z) (pop : list Z) : Z := 1 + Z.of_nat (count_greater count pop).

Definition ties_in (count : Z) (pop : list Z) : Z := Z.of_nat (count_equal count pop) - 1.

(** The facts [extract_relevant_facts] lists for a target day whose count is
    [count]. *)
Definition facts_of (count_history : DailyCountHistory) (target_range : DayTimeRange)
  (count : Z) : list RelevantFact :=
  let in_year_on_weekday := counts_where (same_day_of_week true target_range) count_history in
  let on_weekday := counts_where (same_day_of_week false target_range) count_history in
  let in_year := counts_where (fun day => share_year day target_range) count_history in
  let in_month := counts_where (fun day => share_month day target_range) count_history in
  [HistoricalTotalRelevantFact (Day target_range) 0 count;
   YearDayOfWeekRankRelevantFact (Day target_range) 0 (day_of_week_of target_range)
     (rank_in count in_year_on_weekday) (ties_in count in_year_on_weekday);
   HistoricalDayOfWeekRankRelevantFact (Day target_range) 0 (day_of_week_of target_range)
     (rank_in count on_weekday) (ties_in count on_weekday);
   DayOfYearRankOfTotalRelevantFact (Day target_range) 0 count
     (rank_in count in_year) (ties_in count in_year);
   DayOfMonthRankOfTotalRelevantFact (Day target_range) 0 count
     (rank_in count in_month) (ties_in count in_month);
   MonthTotalRelevantFact (Day target_range) 0
     (extract_month_total count_history target_range)].

(** The history of the four first days of September 2019. *)
Definition september_day (id : nat) (d : Z) : DayTimeRange :=
  {| day_id := id;
     day_start_date := mk_datetime 2019 9 d 0 0 0 0;
     day_end_date := mk_datetime 2019 9 (d + 1) 0 0 0 0 |}.

Definition september_counts : dict DayTimeRange Z :=
  [(september_day 0 1, 0); (september_day 1 2, 5);
   (september_day 2 3, 5); (september_day 3 4, 3)].

(** September 2019 as a Custom range. *)
Definition september_2019 : TimeRange :=
  Custom {| custom_id := 4%nat;
            custom_start_date := mk_datetime 2019 9 1 0 0 0 0;
            custom_end_date := mk_datetime 2019 10 1 0 0 0 0 |}.

(** [day] falls in the calendar month of [target]: the same month of the same
    year, as [MonthTimeRange.contains] reads it. *)
Definition in_calendar_month (target day : DayTimeRange) : bool :=
  (DayTimeRange_year target =? DayTimeRange_year day)
  && (DayTimeRange_month target =? DayTimeRange_month day).

(** A history with one day in September 2019 and one in September 2020. *)
Definition september_2nd (id : nat) (y : Z) : DayTimeRange :=
  {| day_id := id;
     day_start_date := mk_datetime y 9 2 0 0 0 0;
     day_end_date := mk_datetime y 9 3 0 0 0 0 |}.

Definition two_septembers : dict DayTimeRange Z :=
  [(september_2nd 0 2019, 5); (september_2nd 1 2020, 7)].

(** Decides a strict comparison of two instants that differ by a known
    amount in one field and agree on the fields before it. *)
Ltac decide_compare :=
  unfold ltb, compare, fields; simpl;
  repeat match goal with
    | |- context [?a ?= ?b] =>
        first [ rewrite (Z.compare_refl a)
              | replace (a ?= b) with Lt by (symmetry; apply Z.compare_lt_iff; lia) ]
    end;
  reflexivity.

(** The counts of the items whose key is [k], in the order of the items, and
    the list a grouping holds for a key after more counts arrived. *)
Definition counts_of {I K : Type} (key_is : K -> K -> bool) (kf : I -> K) (k : K)
  (items : list (I * Z)) : list Z :=
  map snd (filter (fun ic => key_is (kf (fst ic)) k) items).

Definition extend (old : option (list Z)) (more : list Z) : option (list Z) :=
  match old, more with
  | None, [] => None
  | None, _ => Some more
  | Some l, _ => Some (l ++ more)
  end.

(** Midnight at the start of the day, of the month and of the year of an
    instant. *)
Definition midnight (d : datetime) : datetime :=
  mk_datetime (year d) (month d) (day d) 0 0 0 0.

Definition first_of_month (d : datetime) : datetime :=
  mk_datetime (year d) (month d) 1 0 0 0 0.

Definition first_of_year (d : datetime) : datetime :=
  mk_datetime (year d) 1 1 0 0 0 0.

Definition hour_day_of_week_of (hour : HourTimeRange) : DayOfWeek.t :=
  match HourTimeRange_day_of_week hour with
  | Ok w => w
  | Raise _ => DayOfWeek.MONDAY
  end.

(** Two hours of the morning of 2 September 2019. *)
Definition september_hour (id : nat) (h : Z) : HourTimeRange :=
  {| hour_id := id;
     hour_start_date := mk_datetime 2019 9 2 h 0 0 0;
     hour_end_date := mk_datetime 2019 9 2 (h + 1) 0 0 0 |}.

Definition morning_counts : dict HourTimeRange Z :=
  [(september_hour 0 10, 3); (september_hour 1 11, 4)].

(** What links a pair of the answer and the entry made from it. *)
Definition entry_of_pair (parse_mdy : string -> result datetime)
  (int_of_float : string -> result Z) (pair : list string)
  (entry : DayTimeRange * Z) : Prop :=
  exists date_text count_text,
    pair = [date_text; count_text]
    /\ parse_mdy date_text = Ok (day_start_date (fst entry))
    /\ int_of_float count_text = Ok (snd entry)
    /\ DayTimeRange_check (day_start_date (fst entry)) = Ok tt
    /\ add_one_day (day_start_date (fst entry)) = Ok (day_end_date (fst entry)).

(** An answer of the counter with a status code that is not 200. *)
Definition refused_answer : Response :=
  {| status_code := 500;
     json_body := Ok [["09/03/2019"; "5"]; ["09/04/2019"; "3"]];
     content := "" |}.

(** The last day of September 2019, its month, and an empty history. *)
Definition september_30th : DayTimeRange :=
  {| day_id := 0%nat;
     day_start_date := mk_datetime 2019 9 30 0 0 0 0;
     day_end_date := mk_datetime 2019 10 1 0 0 0 0 |}.

Definition september_month : MonthTimeRange :=
  {| month_id := 1%nat; month_start_date := mk_datetime 2019 9 1 0 0 0 0 |}.

Definition empty_history : DailyCountHistory :=
  {| day_to_count := [];
     month_to_count := [];
     year_to_count := [];
     total := 0;
     day_to_cumsum := [];
     month_to_cumsum := [];
     day_of_week_to_best_count := [] |}.

(** A dictionary with the sentences of today and yesterday in French. *)
Definition today_and_yesterday : Sentences :=
  [(DictionaryKey.TODAY, [(Language.FR, "Aujourd'hui")]);
   (DictionaryKey.YESTERDAY, [(Language.FR, "Hier")])].

(** * Properties *)

(** ** Sums and sorting *)

Lemma fold_add_shift (l : list Z) (a : Z) :
  fold_left Z.add l a = a + fold_left Z.add l 0.
Proof.
  revert a. induction l as [|x l IH]; intros a; simpl.
  - lia.
  - rewrite (IH (a + x)), (IH x). lia.
Qed.

Lemma sum_nil : sum [] = 0.
Proof. reflexivity. Qed.

Lemma sum_cons (x : Z) (l : list Z) : sum (x :: l) = x + sum l.
Proof. unfold sum. simpl. apply fold_add_shift. Qed.

Lemma sum_app (l1 l2 : list Z) : sum (l1 ++ l2) = sum l1 + sum l2.
Proof.
  induction l1 as [|x l1 IH]; simpl app.
  - rewrite sum_nil. lia.
  - rewrite !sum_cons, IH. lia.
Qed.

Lemma sum_permutation (l1 l2 : list Z) : Permutation l1 l2 -> sum l1 = sum l2.
Proof.
  induction 1; rewrite ?sum_cons in *; lia.
Qed.

Section SortedFacts.
Context {A : Type} (leb : A -> A -> bool).
Hypothesis leb_total : forall a b, leb a b = false -> leb b a = true.

Lemma insert_permutation (x : A) (l : list A) :
  Permutation (insert leb x l) (x :: l).
Proof.
  induction l as [|y l IH]; simpl.
  - apply Permutation_refl.
  - destruct (leb x y).
    + apply Permutation_refl.
    + apply perm_trans with (y :: x :: l).
      * apply perm_skip, IH.
      * apply perm_swap.
Qed.

Lemma sorted_permutation (l : list A) : Permutation (sorted leb l) l.
Proof.
  induction l as [|x l IH]; simpl.
  - apply perm_nil.
  - apply perm_trans with (x :: sorted leb l).
    + apply insert_permutation.
    + apply perm_skip, IH.
Qed.

Lemma insert_locally_sorted (x : A) (l : list A) :
  Sorted (fun a b => leb a b = true) l ->
  Sorted (fun a b => leb a b = true) (insert leb x l).
Proof.
  induction 1 as [|y l Hs IH Hhd]; simpl.
  - repeat constructor.
  - destruct (leb x y) eqn:Hxy.
    + constructor; [constructor; assumption | constructor; exact Hxy].
    + constructor; [exact IH|].
      destruct Hhd as [|z l' Hyz]; simpl.
      * constructor. apply leb_total, Hxy.
      * destruct (leb x z); constructor; auto.
Qed.

Lemma sorted_locally_sorted (l : list A) :
  Sorted (fun a b => leb a b = true) (sorted leb l).
Proof.
  induction l as [|x l IH]; simpl.
  - constructor.
  - apply insert_locally_sorted, IH.
Qed.
End SortedFacts.

(** ** Ranking *)

Lemma sorted_reverse_permutation (l : list Z) : Permutation (sorted_reverse l) l.
Proof. apply sorted_permutation. Qed.

Lemma sorted_reverse_descending (l : list Z) :
  StronglySorted (fun a b => b <= a) (sorted_reverse l).
Proof.
  apply Sorted_StronglySorted.
  - intros a b c Hab Hbc. lia.
  - assert (H : Sorted (fun a b => (b <=? a) = true) (sorted_reverse l)).
    { apply sorted_locally_sorted. intros a b Hab.
      apply Z.leb_le. apply Z.leb_gt in Hab. lia. }
    induction H as [|x l' Hs IH Hhd]; constructor; auto.
    destruct Hhd; constructor. apply Z.leb_le. assumption.
Qed.

(** A descending list is its elements above [v], then those equal to [v],
    then those below [v]. *)
Lemma descending_split (v : Z) (l : list Z) :
  StronglySorted (fun a b => b <= a) l ->
  l = (filter (fun x => v <? x) l ++ filter (fun x => x =? v) l
       ++ filter (fun x => x <? v) l)%list.
Proof.
  induction 1 as [|x l Hs IH Hall]; simpl; [reflexivity|].
  destruct (v <? x) eqn:Hgt.
  - assert ((x =? v) = false) as -> by lia.
    assert ((x <? v) = false) as -> by lia.
    simpl. f_equal. exact IH.
  - assert (Hnone : filter (fun y => v <? y) l = []).
    { clear -Hall Hgt. induction Hall as [|y l Hy _ IH']; simpl; [reflexivity|].
      assert ((v <? y) = false) as -> by lia. exact IH'. }
    rewrite Hnone in *. simpl in *.
    destruct (x =? v) eqn:Heq.
    + assert ((x <? v) = false) as -> by lia. simpl. f_equal. exact IH.
    + assert (Hnone' : filter (fun y => y =? v) l = []).
      { clear -Hall Hgt Heq. induction Hall as [|y l Hy _ IH']; simpl; [reflexivity|].
        assert ((y =? v) = false) as -> by lia. exact IH'. }
      rewrite Hnone' in *. simpl in *.
      assert ((x <? v) = true) as -> by lia. f_equal. exact IH.
Qed.

Lemma index_app_left {A : Type} (l1 l2 : list A) (i : nat) :
  (i < List.length l1)%nat -> index (l1 ++ l2) i = index l1 i.
Proof. intros H. unfold index. rewrite nth_error_app1 by exact H. reflexivity. Qed.

Lemma index_app_right {A : Type} (l1 l2 : list A) (i : nat) :
  (List.length l1 <= i)%nat -> index (l1 ++ l2) i = index l2 (i - List.length l1).
Proof. intros H. unfold index. rewrite nth_error_app2 by exact H. reflexivity. Qed.

Lemma index_in {A : Type} (l : list A) (i : nat) (x : A) :
  index l i = Ok x -> In x l.
Proof.
  unfold index. destruct (nth_error l i) eqn:E; intros H; inversion H; subst.
  eapply nth_error_In; eauto.
Qed.

Lemma index_in_range {A : Type} (l : list A) (i : nat) :
  (i < List.length l)%nat -> exists x, index l i = Ok x.
Proof.
  intros H. unfold index. destruct (nth_error l i) eqn:E; eauto.
  apply nth_error_None in E. lia.
Qed.

(** The binary search stops at the boundary between the elements greater
    than [quantity] and the others. *)
Lemma bisect_boundary (sorted_list : list Number.t) (quantity : Number.t)
  (left_ right_ : nat) :
  forall above others,
    sorted_list = (above ++ others)%list ->
    Forall (fun x => Number.gtb x quantity = true) above ->
    Forall (fun x => Number.gtb x quantity = false) others ->
    (left_ < List.length above <= right_)%nat ->
    (right_ < List.length sorted_list)%nat ->
    bisect sorted_list quantity left_ right_ = Ok (List.length above).
Proof.
  funelim (bisect sorted_list quantity left_ right_);
    intros above others Hsl Habove Hothers Hbounds Hright;
    try (assert (Hmid : (left_ < (left_ + right_) / 2 < right_)%nat)
          by (pose proof (Nat.div_mod_eq (left_ + right_) 2);
              pose proof (Nat.mod_upper_bound (left_ + right_) 2); lia)).
  - f_equal. lia.
  - destruct (index_in_range sorted_list ((left_ + right_) / 2)) as [x Hx];
      [lia | congruence].
  - eapply H; eauto. split; [|lia].
    destruct (Nat.lt_ge_cases ((left_ + right_) / 2) (List.length above))
      as [Hlt|Hge]; [exact Hlt|].
    subst sorted_list. rewrite index_app_right in Heq0 by exact Hge.
    apply index_in in Heq0.
    rewrite Forall_forall in Hothers. apply Hothers in Heq0. congruence.
  - eapply H; eauto; [|lia]. split; [lia|].
    destruct (Nat.lt_ge_cases ((left_ + right_) / 2) (List.length above))
      as [Hlt|Hge]; [|exact Hge].
    subst sorted_list. rewrite index_app_left in Heq0 by exact Hlt.
    apply index_in in Heq0.
    rewrite Forall_forall in Habove. apply Habove in Heq0. congruence.
Qed.

(** The scan for ties counts the run of elements equal to [quantity] that
    starts at [right]. *)
Lemma count_ties_run (sorted_list : list Number.t) (quantity : Number.t)
  (right_ : nat) (nb_ties : Z) :
  forall before run after,
    sorted_list = (before ++ run ++ after)%list ->
    List.length before = right_ ->
    Forall (fun x => Number.eqb x quantity = true) run ->
    Forall (fun x => Number.eqb x quantity = false) after ->
    count_ties sorted_list quantity right_ nb_ties
    = Ok (nb_ties + Z.of_nat (List.length run)).
Proof.
  funelim (count_ties sorted_list quantity right_ nb_ties);
    intros before run after Hsl Hlen Hrun Hafter.
  - destruct run as [|x run]; [f_equal; simpl; lia|].
    exfalso. apply n. subst. rewrite !length_app. simpl. lia.
  - destruct (index_in_range sorted_list right_) as [x Hx]; [lia | congruence].
  - subst sorted_list right_.
    rewrite index_app_right, Nat.sub_diag in Heq0 by lia.
    destruct run as [|y run].
    + simpl in Heq0. apply index_in in Heq0.
      rewrite Forall_forall in Hafter. apply Hafter in Heq0. congruence.
    + inversion Hrun; subst.
      rewrite (H (before ++ [y])%list run after).
      * f_equal. simpl List.length. lia.
      * rewrite <- app_assoc. reflexivity.
      * rewrite length_app. simpl. lia.
      * assumption.
      * assumption.
  - subst sorted_list right_.
    rewrite index_app_right, Nat.sub_diag in Heq0 by lia.
    destruct run as [|y run]; [f_equal; simpl; lia|].
    inversion Hrun; subst. simpl in Heq0. unfold index in Heq0. simpl in Heq0.
    congruence.
Qed.

Lemma count_greater_permutation (v : Z) (l1 l2 : list Z) :
  Permutation l1 l2 -> count_greater v l1 = count_greater v l2.
Proof.
  unfold count_greater.
  induction 1 as [|x l1 l2 _ IH|x y l|l1 l2 l3 _ IH1 _ IH2]; simpl.
  - reflexivity.
  - destruct (v <? x); simpl; congruence.
  - destruct (v <? x), (v <? y); reflexivity.
  - congruence.
Qed.

Lemma count_equal_permutation (v : Z) (l1 l2 : list Z) :
  Permutation l1 l2 -> count_equal v l1 = count_equal v l2.
Proof.
  unfold count_equal.
  induction 1 as [|x l1 l2 _ IH|x y l|l1 l2 l3 _ IH1 _ IH2]; simpl.
  - reflexivity.
  - destruct (x =? v); simpl; congruence.
  - destruct (x =? v), (y =? v); reflexivity.
  - congruence.
Qed.

(** What [human_rank_in_list] returns, for every integer and every list of
    integers: it never raises, the rank is one more than the number of
    strictly greater elements and the second component is the number of equal
    elements minus one. *)
Lemma human_rank_in_list_value (quantity : Z) (list_ : list Z) :
  human_rank_in_list quantity list_
  = Ok (1 + Z.of_nat (count_greater quantity list_),
        Z.of_nat (count_equal quantity list_) - 1).
Proof.
  unfold human_rank_in_list.
  set (s := sorted_reverse list_).
  pose proof (descending_split quantity s (sorted_reverse_descending list_)) as Hsplit.
  set (gs := filter (fun x => quantity <? x) s) in *.
  set (es := filter (fun x => x =? quantity) s) in *.
  set (ls := filter (fun x => x <? quantity) s) in *.
  assert (Hgs : Forall (fun x => Number.gtb x (Number.Fin quantity) = true)
                  (Number.PosInf :: map Number.Fin gs)).
  { constructor; [reflexivity|]. apply Forall_map, Forall_forall.
    intros x Hx. apply filter_In in Hx. simpl. tauto. }
  assert (Hes : Forall (fun x => Number.eqb x (Number.Fin quantity) = true)
                  (map Number.Fin es)).
  { apply Forall_map, Forall_forall.
    intros x Hx. apply filter_In in Hx. simpl. tauto. }
  assert (Hes' : Forall (fun x => Number.gtb x (Number.Fin quantity) = false)
                  (map Number.Fin es)).
  { apply Forall_map, Forall_forall.
    intros x Hx. apply filter_In in Hx. simpl. lia. }
  assert (Hls : Forall (fun x => Number.eqb x (Number.Fin quantity) = false)
                  (map Number.Fin ls ++ [Number.NegInf])).
  { apply Forall_app. split; [|repeat constructor].
    apply Forall_map, Forall_forall.
    intros x Hx. apply filter_In in Hx. simpl. lia. }
  assert (Hls' : Forall (fun x => Number.gtb x (Number.Fin quantity) = false)
                  (map Number.Fin ls ++ [Number.NegInf])).
  { apply Forall_app. split; [|repeat constructor].
    apply Forall_map, Forall_forall.
    intros x Hx. apply filter_In in Hx. simpl. lia. }
  assert (Hsl : (Number.PosInf :: map Number.Fin s ++ [Number.NegInf])%list
                = ((Number.PosInf :: map Number.Fin gs)
                   ++ map Number.Fin es
                   ++ (map Number.Fin ls ++ [Number.NegInf]))%list).
  { rewrite Hsplit at 1. rewrite !map_app. simpl. rewrite <- !app_assoc. reflexivity. }
  assert (Hlen : List.length s
                 = (List.length gs + List.length es + List.length ls)%nat).
  { rewrite Hsplit at 1. rewrite !length_app. lia. }
  rewrite (bisect_boundary _ _ _ _ (Number.PosInf :: map Number.Fin gs)
             (map Number.Fin es ++ (map Number.Fin ls ++ [Number.NegInf]))%list).
  - simpl bind.
    rewrite (count_ties_run _ _ _ _ (Number.PosInf :: map Number.Fin gs)
               (map Number.Fin es) (map Number.Fin ls ++ [Number.NegInf])%list);
      try assumption; try reflexivity.
    simpl bind. f_equal. f_equal.
    + simpl List.length. rewrite length_map.
      rewrite <- (count_greater_permutation quantity s list_)
        by apply sorted_reverse_permutation.
      unfold count_greater. fold gs. lia.
    + rewrite length_map.
      rewrite <- (count_equal_permutation quantity s list_)
        by apply sorted_reverse_permutation.
      unfold count_equal. fold es. lia.
  - exact Hsl.
  - exact Hgs.
  - apply Forall_app. split; assumption.
  - simpl List.length. rewrite !length_app, !length_map. simpl. fold s. lia.
  - simpl List.length. rewrite !length_app, !length_map. simpl. fold s. lia.
Qed.

Lemma human_rank_in_list_permutation (v : Z) (pop pop' : list Z) :
  Permutation pop pop' -> human_rank_in_list v pop = human_rank_in_list v pop'.
Proof.
  intros H. rewrite !human_rank_in_list_value.
  rewrite (count_greater_permutation v pop pop' H).
  rewrite (count_equal_permutation v pop pop' H). reflexivity.
Qed.

(** C1. The rank returned by [human_rank_in_list] is not the number of
    elements strictly greater than the value: because of the [math.inf]
    sentinel placed in front of the sorted population it is that number plus
    one, for every value and every population. In particular 5 in
    [[0; 5; 5; 3]] gets rank 1, not rank 0. *)
Theorem human_rank_in_list_rank_counts_the_sentinel :
  human_rank_in_list 5 [0; 5; 5; 3] = Ok (1, 1)
  /\ count_greater 5 [0; 5; 5; 3] = 0%nat
  /\ forall v pop,
       exists ties,
         human_rank_in_list v pop = Ok (1 + Z.of_nat (count_greater v pop), ties).
Proof.
  split; [reflexivity|]. split; [reflexivity|].
  intros v pop. eexists. apply human_rank_in_list_value.
Qed.

(** C2. For every value and every population, the second component returned
    by [human_rank_in_list] is the number of elements of the population equal
    to the value, minus one; it is -1 when no element is equal to the value,
    as for 10 in [[0; 5; 5; 3]]. *)
Theorem human_rank_in_list_tie_count :
  (forall v pop,
     exists rank,
       human_rank_in_list v pop = Ok (rank, Z.of_nat (count_equal v pop) - 1))
  /\ (forall v pop,
        count_equal v pop = 0%nat ->
        exists rank, human_rank_in_list v pop = Ok (rank, -1))
  /\ human_rank_in_list 10 [0; 5; 5; 3] = Ok (1, -1).
Proof.
  split; [|split].
  - intros v pop. eexists. apply human_rank_in_list_value.
  - intros v pop H. eexists. rewrite human_rank_in_list_value, H. reflexivity.
  - reflexivity.
Qed.

Lemma human_rank_in_list_tie_count_witness :
  count_equal 10 [0; 5; 5; 3] = 0%nat
  /\ exists rank, human_rank_in_list 10 [0; 5; 5; 3] = Ok (rank, -1).
Proof.
  split; [reflexivity|].
  apply (proj1 (proj2 human_rank_in_list_tie_count) 10 [0; 5; 5; 3]).
  reflexivity.
Defined.

(** ** [datetime] *)

Lemma lex_compare_refl (l : list Z) : lex_compare l l = Eq.
Proof.
  induction l as [|x l IH]; simpl; [reflexivity|].
  rewrite Z.compare_refl. exact IH.
Qed.

Lemma compare_refl (d : datetime) : compare d d = Eq.
Proof. apply lex_compare_refl. Qed.

Lemma leb_refl (d : datetime) : leb d d = true.
Proof. unfold leb. rewrite compare_refl. reflexivity. Qed.

Lemma ltb_irrefl (d : datetime) : ltb d d = false.
Proof. unfold ltb. rewrite compare_refl. reflexivity. Qed.

Lemma lex_compare_antisym (a b : list Z) :
  lex_compare b a = CompOpp (lex_compare a b).
Proof.
  revert b. induction a as [|x a IH]; intros [|y b]; simpl; try reflexivity.
  rewrite (Z.compare_antisym x y).
  destruct (x ?= y); simpl; auto.
Qed.

Lemma leb_total (a b : datetime) : leb a b = false -> leb b a = true.
Proof.
  unfold leb, compare. rewrite (lex_compare_antisym (fields a) (fields b)).
  destruct (lex_compare (fields a) (fields b)); simpl; congruence.
Qed.

Lemma ltb_leb (a b : datetime) : ltb a b = true -> leb a b = true.
Proof. unfold ltb, leb. destruct (compare a b); congruence. Qed.

(** Adding a day or an hour gives a strictly later instant. *)
Lemma add_one_day_later (d e : datetime) : add_one_day d = Ok e -> ltb d e = true.
Proof.
  unfold add_one_day.
  destruct (day d <? days_in_month (year d) (month d)) eqn:Hd;
    [|destruct (month d <? 12) eqn:Hm];
    match goal with |- context [?y <=? 9999] => destruct (y <=? 9999) end;
    intros H; inversion H; subst; clear H; decide_compare.
Qed.

Lemma add_one_hour_later (d e : datetime) : add_one_hour d = Ok e -> ltb d e = true.
Proof.
  unfold add_one_hour, add_one_day. simpl.
  destruct (hour d <? 23) eqn:Hh;
    [|destruct (day d <? days_in_month (year d) (month d)) eqn:Hd;
      [|destruct (month d <? 12) eqn:Hm];
      match goal with |- context [?y <=? 9999] => destruct (y <=? 9999) end];
    intros H; inversion H; subst; clear H; decide_compare.
Qed.

(** [add_one_day] agrees with the ordinal arithmetic of the standard library:
    the result is the day whose ordinal is one more. *)
Lemma is_leap_spec (y : Z) :
  is_leap y = true <-> (y mod 4 = 0 /\ (y mod 100 <> 0 \/ y mod 400 = 0)).
Proof.
  unfold is_leap.
  rewrite andb_true_iff, orb_true_iff, negb_true_iff, !Z.eqb_eq, Z.eqb_neq. tauto.
Qed.

Lemma days_before_year_succ (y : Z) :
  days_before_year (y + 1) = days_before_year y + (if is_leap y then 366 else 365).
Proof.
  unfold days_before_year. cbv zeta.
  replace (y + 1 - 1) with y by lia.
  destruct (is_leap y) eqn:E.
  - apply is_leap_spec in E.
    Z.to_euclidean_division_equations. lia.
  - assert (~ (y mod 4 = 0 /\ (y mod 100 <> 0 \/ y mod 400 = 0))).
    { intros H. apply is_leap_spec in H. congruence. }
    Z.to_euclidean_division_equations. lia.
Qed.

Lemma add_one_day_toordinal (d e : datetime) :
  valid d = true -> add_one_day d = Ok e -> toordinal e = toordinal d + 1.
Proof.
  intros Hv. unfold valid in Hv.
  repeat (apply andb_prop in Hv; destruct Hv as [Hv ?]).
  assert (Hm : month d = 1 \/ month d = 2 \/ month d = 3 \/ month d = 4
               \/ month d = 5 \/ month d = 6 \/ month d = 7 \/ month d = 8
               \/ month d = 9 \/ month d = 10 \/ month d = 11 \/ month d = 12)
    by lia.
  unfold add_one_day, toordinal.
  destruct (day d <? days_in_month (year d) (month d)) eqn:Hd.
  - destruct (year d <=? 9999); [|discriminate].
    intros E; inversion E; subst; simpl. lia.
  - destruct (month d <? 12) eqn:Hmo.
    + destruct (year d <=? 9999); [|discriminate].
      intros E; inversion E; subst; simpl.
      assert (Hday : day d = days_in_month (year d) (month d)) by lia.
      rewrite Hday. unfold days_in_month, days_before_month.
      destruct Hm as [Hm|[Hm|[Hm|[Hm|[Hm|[Hm|[Hm|[Hm|[Hm|[Hm|[Hm|Hm]]]]]]]]]]];
        rewrite Hm; simpl; try lia; destruct (is_leap (year d)); simpl; lia.
    + destruct (year d + 1 <=? 9999); [|discriminate].
      intros E; inversion E; subst; simpl.
      assert (Hm12 : month d = 12) by lia.
      assert (Hday : day d = 31)
        by (rewrite Hm12 in *; unfold days_in_month in *; simpl in *; lia).
      rewrite days_before_year_succ, Hm12, Hday. unfold days_before_month. simpl.
      destruct (is_leap (year d)); simpl; try lia.
      all: destruct (is_leap (year d + 1)); simpl; lia.
Qed.

(** ** The [TimeRange] hierarchy *)

Lemma DayTimeRange_init_ok (start : datetime) (n n' : nat) (r : DayTimeRange) :
  DayTimeRange_init start n = Ok (r, n') ->
  day_start_date r = start /\ add_one_day start = Ok (day_end_date r)
  /\ DayTimeRange_check start = Ok tt /\ day_id r = n /\ n' = S n.
Proof.
  unfold DayTimeRange_init, bindM, new_id, lift, ret.
  destruct (DayTimeRange_check start) as [[]|e]; [|discriminate].
  destruct (add_one_day start) as [e|]; [|discriminate].
  intros H; inversion H; subst; simpl. auto.
Qed.

Lemma HourTimeRange_init_ok (start : datetime) (n n' : nat) (r : HourTimeRange) :
  HourTimeRange_init start n = Ok (r, n') ->
  hour_start_date r = start /\ add_one_hour start = Ok (hour_end_date r).
Proof.
  unfold HourTimeRange_init, bindM, new_id, lift, ret.
  destruct (HourTimeRange_check start) as [[]|e]; [|discriminate].
  destruct (add_one_hour start) as [e|]; [|discriminate].
  intros H; inversion H; subst; simpl. auto.
Qed.

(** C6, as the code has it. A constructed Hour, Day, Month or Year range
    contains its start; a Custom or Historical range, whose constructor checks
    nothing, contains its start exactly when its start is before its end. Day,
    Hour, Custom and Historical ranges are half-open: they contain [d] exactly
    when [start <= d < end], and never their end. A Month range contains [d]
    exactly when [d] has the year and the month of its start, a Year range
    when [d] has the year of its start. *)
Theorem contains_characterisation (r : TimeRange) (H : constructed r) :
  match r with
  | Custom c | Historical c =>
      contains r (start_date r) = ltb (custom_start_date c) (custom_end_date c)
  | _ => contains r (start_date r) = true
  end
  /\ match end_date r with
     | Some e =>
         (forall d, contains r d = leb (start_date r) d && ltb d e)
         /\ contains r e = false
     | None => True
     end
  /\ match r with
     | Month m =>
         forall d, contains r d = (year (start_date r) =? year d)
                                  && (month (start_date r) =? month d)
     | Year y => forall d, contains r d = (year (start_date r) =? year d)
     | _ => True
     end.
Proof.
  destruct r as [m|y|c|c|d|h]; simpl in *.
  - unfold MonthTimeRange_contains. rewrite !Z.eqb_refl. auto.
  - unfold YearTimeRange_contains. rewrite !Z.eqb_refl. auto.
  - unfold CustomTimeRange_contains. rewrite leb_refl, ltb_irrefl, andb_false_r. auto.
  - unfold CustomTimeRange_contains. rewrite leb_refl, ltb_irrefl, andb_false_r. auto.
  - destruct H as (n & n' & H). apply DayTimeRange_init_ok in H.
    destruct H as (_ & Hend & _). apply add_one_day_later in Hend.
    unfold DayTimeRange_contains.
    rewrite leb_refl, ltb_irrefl, andb_false_r, Hend. auto.
  - destruct H as (n & n' & H). apply HourTimeRange_init_ok in H.
    destruct H as (_ & Hend). apply add_one_hour_later in Hend.
    unfold HourTimeRange_contains.
    rewrite leb_refl, ltb_irrefl, andb_false_r, Hend. auto.
Qed.

(** The day range of 2 September 2019. *)
Lemma contains_characterisation_witness :
  let d := {| day_id := 0%nat;
              day_start_date := mk_datetime 2019 9 2 0 0 0 0;
              day_end_date := mk_datetime 2019 9 3 0 0 0 0 |} in
  constructed (Day d)
  /\ contains (Day d) (day_start_date d) = true
  /\ contains (Day d) (day_end_date d) = false.
Proof.
  intros d.
  assert (Hc : constructed (Day d)) by (exists 0%nat, 1%nat; reflexivity).
  split; [exact Hc|].
  destruct (contains_characterisation (Day d) Hc) as (Hstart & (_ & Hend) & _).
  split; [exact Hstart | exact Hend].
Defined.

(** C6 as stated fails: a Custom range from an instant to the same instant is
    constructed without error and does not contain its start. *)
Lemma custom_range_may_exclude_its_start :
  let d := mk_datetime 2019 9 2 0 0 0 0 in
  let r := {| custom_id := 0%nat; custom_start_date := d; custom_end_date := d |} in
  CustomTimeRange_init d d 0%nat = Ok (r, 1%nat)
  /\ contains (Custom r) (start_date (Custom r)) = false.
Proof. split; reflexivity. Qed.

Lemma add_one_day_no_value_error (d : datetime) :
  is_value_error (add_one_day d) = false.
Proof.
  unfold add_one_day.
  destruct (day d <? days_in_month (year d) (month d));
    [|destruct (month d <? 12)];
    match goal with |- context [?y <=? 9999] => destruct (y <=? 9999) end;
    reflexivity.
Qed.

Lemma add_one_hour_no_value_error (d : datetime) :
  is_value_error (add_one_hour d) = false.
Proof.
  unfold add_one_hour. destruct (hour d <? 23); [reflexivity|].
  apply add_one_day_no_value_error.
Qed.

(** A constructor raises a [ValueError] exactly when its [check] does. *)
Lemma DayTimeRange_init_value_error (date : datetime) (n : nat) :
  is_value_error (DayTimeRange_init date n)
  = is_value_error (DayTimeRange_check date).
Proof.
  unfold DayTimeRange_init, bindM, new_id, lift, ret.
  destruct (DayTimeRange_check date) as [[]|e]; [|reflexivity].
  pose proof (add_one_day_no_value_error date) as H.
  destruct (add_one_day date); [reflexivity | exact H].
Qed.

Lemma HourTimeRange_init_value_error (date : datetime) (n : nat) :
  is_value_error (HourTimeRange_init date n)
  = is_value_error (HourTimeRange_check date).
Proof.
  unfold HourTimeRange_init, bindM, new_id, lift, ret.
  destruct (HourTimeRange_check date) as [[]|e]; [|reflexivity].
  pose proof (add_one_hour_no_value_error date) as H.
  destruct (add_one_hour date); [reflexivity | exact H].
Qed.

Lemma MonthTimeRange_init_value_error (date : datetime) (n : nat) :
  is_value_error (MonthTimeRange_init date n)
  = is_value_error (MonthTimeRange_check date).
Proof.
  unfold MonthTimeRange_init, bindM, new_id, lift, ret.
  destruct (MonthTimeRange_check date) as [[]|e]; reflexivity.
Qed.

Lemma YearTimeRange_init_value_error (date : datetime) (n : nat) :
  is_value_error (YearTimeRange_init date n)
  = is_value_error (YearTimeRange_check date).
Proof.
  unfold YearTimeRange_init, bindM, new_id, lift, ret.
  destruct (YearTimeRange_check date) as [[]|e]; reflexivity.
Qed.

(** C7, as the code has it. Each constructor raises a [ValueError] exactly
    when its [check] does: Day when the hour, the minute or the second is not
    zero (the microsecond is not looked at), Month when the Day check fails or
    the day of the month is not 1, Year when the Month check fails or the
    month is not 1, Hour when the minute or the second is not zero. *)
Theorem constructors_validate_alignment (date : datetime) (n : nat) :
  (is_value_error (DayTimeRange_init date n) = true
   <-> hour date <> 0 \/ minute date <> 0 \/ second date <> 0)
  /\ (is_value_error (MonthTimeRange_init date n) = true
      <-> is_value_error (DayTimeRange_check date) = true \/ day date <> 1)
  /\ (is_value_error (YearTimeRange_init date n) = true
      <-> is_value_error (MonthTimeRange_check date) = true \/ month date <> 1)
  /\ (is_value_error (HourTimeRange_init date n) = true
      <-> minute date <> 0 \/ second date <> 0)
  /\ (is_value_error (DayTimeRange_check date) = true
      <-> hour date <> 0 \/ minute date <> 0 \/ second date <> 0)
  /\ (is_value_error (MonthTimeRange_check date) = true
      <-> is_value_error (DayTimeRange_check date) = true \/ day date <> 1).
Proof.
  rewrite DayTimeRange_init_value_error, MonthTimeRange_init_value_error,
    YearTimeRange_init_value_error, HourTimeRange_init_value_error.
  unfold YearTimeRange_check, MonthTimeRange_check, DayTimeRange_check,
    HourTimeRange_check, bind.
  destruct (hour date =? 0) eqn:Hh, (minute date =? 0) eqn:Hm,
    (second date =? 0) eqn:Hs, (day date =? 1) eqn:Hd, (month date =? 1) eqn:Hmo;
    simpl; repeat split; intros; try discriminate; try lia;
    try (exfalso; lia).
Qed.

(** C7 as stated fails: an instant one microsecond after midnight has a
    non-zero time-of-day field, and the Day constructor accepts it. *)
Lemma day_range_accepts_microseconds :
  let date := mk_datetime 2019 9 1 0 0 0 1 in
  valid date = true
  /\ microsecond date = 1
  /\ DayTimeRange_init date 0%nat
     = Ok ({| day_id := 0%nat;
              day_start_date := date;
              day_end_date := mk_datetime 2019 9 2 0 0 0 1 |}, 1%nat).
Proof. repeat split. Qed.

(** ** The sentence dictionary *)

(** C9. [check_json] answers "not ok" exactly for the values that are a
    [dict], so [from_json] raises a [ValueError] for every well-formed
    dictionary, among them a dictionary with the sentences of one key in both
    languages. *)
Theorem from_json_rejects_every_dict :
  (forall members,
     from_json (JDict members)
     = Raise (ValueError "json_dictionary must be of type dict"))
  /\ (forall j,
        well_formed_dictionary j = true ->
        from_json j = Raise (ValueError "json_dictionary must be of type dict"))
  /\ (let j := JDict [("FIRST", JDict [("fr", JString "premier");
                                        ("en", JString "first")])] in
      well_formed_dictionary j = true
      /\ from_json j = Raise (ValueError "json_dictionary must be of type dict")).
Proof.
  split; [|split].
  - reflexivity.
  - intros [| | | | |members] H; try discriminate. reflexivity.
  - split; reflexivity.
Qed.

(** ** Dictionaries keyed by object identity *)

Section IdentityKeys.
Context {K V : Type} (id_of : K -> nat) (key_is : K -> K -> bool).
Hypothesis key_is_id : forall a b, key_is a b = (id_of a =? id_of b)%nat.

Lemma get_fresh (d : dict K V) (k : K) :
  ~ In (id_of k) (map id_of (keys d)) -> get key_is d k = None.
Proof.
  induction d as [|[k' v'] d IH]; simpl; intros H; [reflexivity|].
  rewrite key_is_id.
  destruct (Nat.eqb_spec (id_of k') (id_of k)) as [E|E]; [tauto|].
  apply IH. tauto.
Qed.

Lemma setitem_fresh (d : dict K V) (k : K) (v : V) :
  ~ In (id_of k) (map id_of (keys d)) -> setitem key_is d k v = (d ++ [(k, v)])%list.
Proof.
  induction d as [|[k' v'] d IH]; simpl; intros H; [reflexivity|].
  rewrite key_is_id.
  destruct (Nat.eqb_spec (id_of k') (id_of k)) as [E|E]; [tauto|].
  rewrite IH by tauto. reflexivity.
Qed.

Lemma of_pairs_loop_fresh (pairs acc : list (K * V)) :
  NoDup (map id_of (keys (acc ++ pairs))) ->
  fold_left (fun d kv => setitem key_is d (fst kv) (snd kv)) pairs acc
  = (acc ++ pairs)%list.
Proof.
  revert acc. induction pairs as [|[k v] pairs IH]; intros acc H; simpl.
  - rewrite app_nil_r. reflexivity.
  - assert (Hsplit : (acc ++ (k, v) :: pairs = (acc ++ [(k, v)]) ++ pairs)%list)
      by (rewrite <- app_assoc; reflexivity).
    rewrite setitem_fresh.
    + rewrite IH; [symmetry; exact Hsplit|]. rewrite <- Hsplit. exact H.
    + unfold keys in H. rewrite !map_app in H. simpl in H.
      apply NoDup_remove_2 in H. intros Hin. apply H.
      apply in_or_app. left. exact Hin.
Qed.

Lemma of_pairs_fresh (pairs : list (K * V)) :
  NoDup (map id_of (keys pairs)) -> of_pairs key_is pairs = pairs.
Proof. intros H. unfold of_pairs. rewrite of_pairs_loop_fresh; auto. Qed.
End IdentityKeys.

Lemma day_is_id (a b : DayTimeRange) : day_is a b = (day_id a =? day_id b)%nat.
Proof. reflexivity. Qed.

Lemma month_is_id (a b : MonthTimeRange) :
  month_is a b = (month_id a =? month_id b)%nat.
Proof. reflexivity. Qed.

Lemma year_is_id (a b : YearTimeRange) : year_is a b = (year_id a =? year_id b)%nat.
Proof. reflexivity. Qed.

(** ** Ingestion *)

Section Ingestion.
Variable parse_mdy : string -> result datetime.
Variable int_of_float : string -> result Z.

Lemma _format_pair_ok (pair : list string) (n n' : nat) (r : DayTimeRange) (c : Z) :
  _format_pair parse_mdy int_of_float pair n = Ok ((r, c), n') ->
  day_id r = n /\ n' = S n
  /\ (d <- index pair 0 ;; parse_mdy d) = Ok (day_start_date r)
  /\ (c' <- index pair 1 ;; int_of_float c') = Ok c.
Proof.
  unfold _format_pair.
  destruct (negb (List.length pair =? 2)%nat); [discriminate|].
  unfold bindM at 1. unfold lift at 1.
  destruct (d <- index pair 0 ;; parse_mdy d) as [date|e]; [|discriminate].
  unfold bindM at 1.
  destruct (DayTimeRange_init date n) as [[r' n1]|e] eqn:Hinit; [|discriminate].
  apply DayTimeRange_init_ok in Hinit.
  destruct Hinit as (Hstart & _ & _ & Hid & Hn1).
  unfold bindM, lift, ret.
  destruct (c' <- index pair 1 ;; int_of_float c') as [count|e]; [|discriminate].
  intros H; inversion H; subst. auto.
Qed.

(** The objects a comprehension of [_format_pair] creates have consecutive
    identities, starting from the next free one. *)
Lemma _format_pair_comprehension_ids (pairs : list (list string)) :
  forall n n' entries,
    comprehension (_format_pair parse_mdy int_of_float) pairs n = Ok (entries, n') ->
    map day_id (keys entries) = seq n (List.length pairs)
    /\ n' = (n + List.length pairs)%nat.
Proof.
  induction pairs as [|pair pairs IH]; intros n n' entries; simpl.
  - unfold ret. intros H; inversion H; subst. simpl. split; [reflexivity | lia].
  - unfold bindM at 1.
    destruct (_format_pair parse_mdy int_of_float pair n) as [[[r c] n1]|e] eqn:Hp;
      [|discriminate].
    apply _format_pair_ok in Hp. destruct Hp as (Hid & Hn1 & _).
    unfold bindM at 1.
    destruct (comprehension (_format_pair parse_mdy int_of_float) pairs n1)
      as [[rest n2]|e] eqn:Hrest; [|discriminate].
    apply IH in Hrest. destruct Hrest as (Hids & Hn2).
    unfold ret. intros H; inversion H; subst. simpl.
    split; [f_equal; exact Hids | lia].
Qed.

Lemma DailyCountHistory_init_day_to_count (d : dict DayTimeRange Z) (n n' : nat)
  (h : DailyCountHistory) :
  DailyCountHistory_init d n = Ok (h, n') -> day_to_count h = d.
Proof.
  unfold DailyCountHistory_init, bindM, ret.
  destruct (_group_by_month d n) as [[m n1]|e]; [|discriminate].
  destruct (_group_by_year d n1) as [[y n2]|e]; [|discriminate].
  destruct (_extract_day_of_week_to_best_count d n2) as [[b n3]|e]; [|discriminate].
  intros H; inversion H; subst. reflexivity.
Qed.
End Ingestion.

Lemma _check_answer_accepts (answer : list (list string)) (message : string) :
  _check_answer answer = Ok (true, message) ->
  exists first rest, answer = first :: rest.
Proof.
  destruct answer as [|first rest]; [discriminate|]. eauto.
Qed.

Lemma all_but_last_cons {A : Type} (x y : A) (l : list A) :
  all_but_last (x :: y :: l) = x :: all_but_last (y :: l).
Proof. reflexivity. Qed.

Lemma comprehension_cons {A B : Type} (f : A -> M B) (x : A) (l : list A) (n : nat) :
  comprehension f (x :: l) n
  = match f x n with
    | Ok (y, n1) =>
        match comprehension f l n1 with
        | Ok (ys, n2) => Ok (y :: ys, n2)
        | Raise e => Raise e
        end
    | Raise e => Raise e
    end.
Proof.
  simpl. unfold bindM, ret. destruct (f x n) as [[y n1]|e]; [|reflexivity].
  destruct (comprehension f l n1) as [[ys n2]|e]; reflexivity.
Qed.

Lemma _format_answer_eq (parse_mdy : string -> result datetime)
  (int_of_float : string -> result Z) (answer : list (list string)) (n : nat) :
  _format_answer parse_mdy int_of_float answer n
  = match _check_answer answer with
    | Raise e => Raise e
    | Ok (false, message) =>
        Raise (ValueError
                 ("Cannot build count history from url answer, reason: "
                  ++ message)%string)
    | Ok (true, _) =>
        match comprehension (_format_pair parse_mdy int_of_float)
                (all_but_last (_pad_answer answer)) n with
        | Ok (pairs, n1) => DailyCountHistory_init (of_pairs day_is pairs) n1
        | Raise e => Raise e
        end
    end.
Proof.
  unfold _format_answer, bindM, lift.
  destruct (_check_answer answer) as [[[|] message]|e]; reflexivity.
Qed.

Lemma _format_pair_padding (parse_mdy : string -> result datetime)
  (int_of_float : string -> result Z) (n : nat) :
  parse_mdy "09/01/2019" = Ok (mk_datetime 2019 9 1 0 0 0 0) ->
  int_of_float "0" = Ok 0 ->
  _format_pair parse_mdy int_of_float ["09/01/2019"; "0"] n
  = Ok ((padding_day n, 0), S n).
Proof.
  intros Hdate Hcount. unfold _format_pair, bindM, lift. simpl.
  rewrite Hdate. simpl. rewrite Hcount. reflexivity.
Qed.

Lemma all_but_last_length {A : Type} (x : A) (l : list A) :
  S (List.length (all_but_last (x :: l))) = List.length (x :: l).
Proof.
  revert x. induction l as [|y l IH]; intros x; [reflexivity|].
  rewrite all_but_last_cons.
  change (S (S (List.length (all_but_last (y :: l)))) = S (List.length (y :: l))).
  rewrite IH. reflexivity.
Qed.

(** C10. When ingestion accepts an answer, the daily history starts with an
    entry created for the padding pair, a new Day object for 1 September 2019
    with count 0, followed by the entries parsed from the answer without its
    last pair, and by nothing else: the last pair of the answer is left out,
    so the history has as many entries as the answer has pairs, and (for an
    answer of two pairs or more) putting any other pair in the last position
    gives the same history. [parse_mdy] and [int_of_float] are only assumed to
    read the padding pair as that date and as 0. *)
Theorem _format_answer_pads_and_drops_last
  (parse_mdy : string -> result datetime) (int_of_float : string -> result Z)
  (answer : list (list string)) (n n' : nat) (h : DailyCountHistory)
  (Hpad_date : parse_mdy "09/01/2019" = Ok (mk_datetime 2019 9 1 0 0 0 0))
  (Hpad_count : int_of_float "0" = Ok 0)
  (Haccepted : _format_answer parse_mdy int_of_float answer n = Ok (h, n')) :
  exists pad entries n'',
    day_to_count h = (pad, 0) :: entries
    /\ day_id pad = n
    /\ day_start_date pad = mk_datetime 2019 9 1 0 0 0 0
    /\ comprehension (_format_pair parse_mdy int_of_float) (all_but_last answer) (S n)
       = Ok (entries, n'')
    /\ Forall (fun e => day_is (fst e) pad = false) entries
    /\ List.length (day_to_count h) = List.length answer
    /\ (forall other,
          (2 <= List.length answer)%nat ->
          _format_answer parse_mdy int_of_float (all_but_last answer ++ [other]) n
          = Ok (h, n')).
Proof.
  assert (Hsame : forall other,
             (2 <= List.length answer)%nat ->
             _format_answer parse_mdy int_of_float (all_but_last answer ++ [other]) n
             = _format_answer parse_mdy int_of_float answer n).
  { intros other Hlen. unfold _format_answer, _check_answer, _pad_answer.
    assert (Hlast : all_but_last (all_but_last answer ++ [other]) = all_but_last answer)
      by apply removelast_last.
    assert (Hfirst : index (all_but_last answer ++ [other]) 0 = index answer 0).
    { destruct answer as [|a [|b rest]]; simpl in Hlen; try lia. reflexivity. }
    assert (Hpadded : all_but_last (["09/01/2019"; "0"] :: all_but_last answer ++ [other])
                      = all_but_last (["09/01/2019"; "0"] :: answer)).
    { destruct answer as [|a [|b rest]]; simpl in Hlen; try lia.
      change (["09/01/2019"; "0"] :: all_but_last (a :: b :: rest) ++ [other])
        with ((["09/01/2019"; "0"] :: all_but_last (a :: b :: rest)) ++ [other]).
      unfold all_but_last at 1. rewrite removelast_last. reflexivity. }
    rewrite Hlast, Hfirst, Hpadded. reflexivity. }
  revert Haccepted. rewrite _format_answer_eq.
  destruct (_check_answer answer) as [[is_ok message]|e] eqn:Hcheck; [|discriminate].
  destruct is_ok; [|discriminate].
  destruct (_check_answer_accepts _ _ Hcheck) as (first & rest & Hanswer).
  assert (Hpadded : all_but_last (_pad_answer answer)
                    = ["09/01/2019"; "0"] :: all_but_last answer).
  { rewrite Hanswer. reflexivity. }
  rewrite Hpadded, comprehension_cons.
  rewrite (_format_pair_padding _ _ n Hpad_date Hpad_count).
  destruct (comprehension (_format_pair parse_mdy int_of_float)
              (all_but_last answer) (S n)) as [[entries n'']|e] eqn:Hrest;
    [|discriminate].
  destruct (_format_pair_comprehension_ids _ _ _ _ _ _ Hrest) as (Hids & Hn'').
  assert (Hnodup : NoDup (map day_id (keys ((padding_day n, 0) :: entries)))).
  { simpl. rewrite Hids. change (n :: seq (S n) ?k) with (seq n (S k)).
    apply seq_NoDup. }
  rewrite (of_pairs_fresh day_id day_is day_is_id _ Hnodup).
  intros Hinit. pose proof (DailyCountHistory_init_day_to_count _ _ _ _ Hinit) as Hd.
  exists (padding_day n), entries, n''. repeat split.
  - exact Hd.
  - apply Forall_forall. intros e He. rewrite day_is_id.
    apply Nat.eqb_neq. intros Heq.
    assert (Hin : In (day_id (fst e)) (map day_id (keys entries))).
    { unfold keys. rewrite map_map. apply in_map_iff. eauto. }
    rewrite Hids in Hin. apply in_seq in Hin. simpl in Heq. lia.
  - rewrite Hd. simpl. f_equal.
    apply (f_equal (@List.length nat)) in Hids.
    unfold keys in Hids. rewrite !length_map, length_seq in Hids.
    rewrite Hids, Hanswer. apply all_but_last_length.
  - intros other Hlen. rewrite (Hsame other Hlen).
    rewrite _format_answer_eq, Hcheck, Hpadded, comprehension_cons.
    rewrite (_format_pair_padding _ _ n Hpad_date Hpad_count), Hrest.
    rewrite (of_pairs_fresh day_id day_is day_is_id _ Hnodup). exact Hinit.
Qed.

Lemma _format_answer_pads_and_drops_last_witness :
  let answer := [["09/03/2019"; "5"]; ["09/04/2019"; "3"]] in
  exists h n',
    _format_answer read_mdy read_digits answer 0%nat = Ok (h, n')
    /\ exists pad entries,
         day_to_count h = (pad, 0) :: entries
         /\ day_start_date pad = mk_datetime 2019 9 1 0 0 0 0
         /\ List.length (day_to_count h) = 2%nat.
Proof.
  intros answer.
  destruct (_format_answer read_mdy read_digits answer 0%nat) as [[h n']|e] eqn:H.
  - exists h, n'. split; [reflexivity|].
    destruct (_format_answer_pads_and_drops_last read_mdy read_digits answer
                0%nat n' h eq_refl eq_refl H)
      as (pad & entries & n'' & Hd & _ & Hs & _ & _ & Hl & _).
    exists pad, entries. auto.
  - vm_compute in H. discriminate.
Defined.

Lemma lengths_not_all_two (pairs : list (list string)) :
  Exists (fun pair => List.length pair <> 2%nat) pairs ->
  set_eqb (map (@List.length string) pairs) [2%nat] = false.
Proof.
  intros H. unfold set_eqb.
  assert (Hf : forallb (fun x => existsb (Nat.eqb x) [2%nat])
                 (map (@List.length string) pairs) = false).
  { induction H as [pair pairs Hbad|pair pairs _ IH]; cbn [map forallb].
    - apply Nat.eqb_neq in Hbad. cbn [existsb]. rewrite Hbad. reflexivity.
    - rewrite IH. apply andb_false_r. }
  rewrite Hf. reflexivity.
Qed.

(** C8, as the code has it. When the first entry of the answer has a first
    component and some pair other than the last one does not have exactly two
    components, the check of the answer fails and ingestion raises a
    [ValueError] with the message of that check: nothing is parsed and no
    history is built. The last pair of the answer is not examined. *)
Theorem _format_answer_rejects_malformed_pairs
  (parse_mdy : string -> result datetime) (int_of_float : string -> result Z)
  (answer : list (list string)) (n : nat) (first : list string) (first_date : string)
  (Hfirst : index answer 0 = Ok first)
  (Hdate : index first 0 = Ok first_date)
  (Hbad : Exists (fun pair => List.length pair <> 2%nat) (all_but_last answer)) :
  exists message,
    _check_answer answer = Ok (false, message)
    /\ _format_answer parse_mdy int_of_float answer n
       = Raise (ValueError
                  ("Cannot build count history from url answer, reason: "
                   ++ message)%string).
Proof.
  assert (Hcheck : exists message, _check_answer answer = Ok (false, message)).
  { unfold _check_answer. rewrite Hfirst. simpl bind. rewrite Hdate. simpl bind.
    destruct (first_date =? "09/02/2019")%string; simpl negb; cbv iota.
    - eauto.
    - rewrite (lengths_not_all_two _ Hbad). simpl negb. cbv iota. eauto. }
  destruct Hcheck as (message & Hcheck). exists message. split; [exact Hcheck|].
  rewrite _format_answer_eq, Hcheck. reflexivity.
Qed.

Lemma _format_answer_rejects_malformed_pairs_witness :
  let answer := [["09/03/2019"; "5"; "7"]; ["09/04/2019"; "3"]] in
  exists message,
    _check_answer answer = Ok (false, message)
    /\ _format_answer read_mdy read_digits answer 0%nat
       = Raise (ValueError
                  ("Cannot build count history from url answer, reason: "
                   ++ message)%string).
Proof.
  intros answer.
  apply (_format_answer_rejects_malformed_pairs read_mdy read_digits answer 0%nat
           ["09/03/2019"; "5"; "7"] "09/03/2019" eq_refl eq_refl).
  apply Exists_cons_hd. simpl. lia.
Defined.

(** C8 as stated fails on both counts: an answer whose last pair has three
    components is accepted, and a history with the padding entry and the first
    pair is built; an answer whose first entry carries the date 09/02/2019 is
    rejected by the start-date test. *)
Lemma ingestion_skips_last_pair_and_rejects_expected_start :
  (exists h n',
     _format_answer read_mdy read_digits
       [["09/03/2019"; "5"]; ["09/04/2019"; "3"; "7"]] 0%nat = Ok (h, n')
     /\ values (day_to_count h) = [0; 5])
  /\ _format_answer read_mdy read_digits
       [["09/02/2019"; "5"]; ["09/03/2019"; "3"]] 0%nat
     = Raise (ValueError
                "Cannot build count history from url answer, reason: Expected first day of data: 09/02/2019. Received").
Proof.
  split.
  - destruct (_format_answer read_mdy read_digits
                [["09/03/2019"; "5"]; ["09/04/2019"; "3"; "7"]] 0%nat)
      as [[h n']|e] eqn:H; vm_compute in H; [|discriminate].
    exists h, n'. split; [reflexivity|].
    inversion H; subst. reflexivity.
  - reflexivity.
Qed.

(** ** [DailyCountHistory] *)

Section CumsumFacts.
Context {TP : Type} (id_of : TP -> nat) (key_is : TP -> TP -> bool).
Context (start_date_of : TP -> datetime).
Hypothesis key_is_id : forall a b, key_is a b = (id_of a =? id_of b)%nat.

Lemma cumsum_loop_fresh (items : list (TP * Z)) :
  forall cumsum acc,
    NoDup (map id_of (keys (acc ++ items))) ->
    cumsum_loop key_is items cumsum acc = acc ++ running_sums items cumsum.
Proof.
  induction items as [|[key count] items IH]; intros cumsum acc H; simpl.
  - rewrite app_nil_r. reflexivity.
  - assert (Hsplit : acc ++ (key, count) :: items = (acc ++ [(key, count)]) ++ items)
      by (rewrite <- app_assoc; reflexivity).
    rewrite (setitem_fresh id_of key_is key_is_id).
    + rewrite IH.
      * rewrite <- app_assoc. reflexivity.
      * rewrite Hsplit in H. unfold keys in *. rewrite !map_app in *. exact H.
    + unfold keys in H. rewrite !map_app in H. simpl in H.
      apply NoDup_remove_2 in H. intros Hin. apply H.
      apply in_or_app. left. exact Hin.
Qed.

Lemma running_sums_keys (items : list (TP * Z)) (cumsum : Z) :
  keys (running_sums items cumsum) = keys items.
Proof.
  revert cumsum. induction items as [|[key count] items IH]; intros cumsum; simpl.
  - reflexivity.
  - f_equal. apply IH.
Qed.

Lemma running_sums_bounds (items : list (TP * Z)) :
  forall cumsum,
    Forall (fun c => 0 <= c) (values items) ->
    Forall (fun v => cumsum <= v) (values (running_sums items cumsum))
    /\ StronglySorted Z.le (values (running_sums items cumsum)).
Proof.
  induction items as [|[key count] items IH]; intros cumsum H; simpl.
  - split; constructor.
  - inversion H as [|c cs Hc Hcs]; subst. simpl in Hc.
    destruct (IH (cumsum + count) Hcs) as (Hlow & Hsorted).
    split.
    + constructor; [simpl; lia|].
      eapply Forall_impl; [|exact Hlow]. simpl. intros; lia.
    + constructor; assumption.
Qed.

Lemma last_cons_default (x d : Z) (l : list Z) : last (x :: l) d = last l x.
Proof.
  revert x d. induction l as [|y l IH]; intros x d; [reflexivity|].
  change (last (x :: y :: l) d) with (last (y :: l) d).
  rewrite (IH y d). symmetry. apply (IH y x).
Qed.

Lemma running_sums_last (items : list (TP * Z)) :
  forall cumsum,
    last (values (running_sums items cumsum)) cumsum = cumsum + sum (values items).
Proof.
  induction items as [|[key count] items IH]; intros cumsum.
  - simpl. rewrite sum_nil. lia.
  - change (values ((key, count) :: items)) with (count :: values items).
    rewrite sum_cons.
    change (values (running_sums ((key, count) :: items) cumsum))
      with ((cumsum + count) :: values (running_sums items (cumsum + count))).
    rewrite last_cons_default, IH. lia.
Qed.

(** The cumulative sums of a dictionary of non-negative counts. *)
Lemma _time_range_to_cumsum_ok (time_range_to_count : dict TP Z) :
  NoDup (map id_of (keys time_range_to_count)) ->
  Forall (fun c => 0 <= c) (values time_range_to_count) ->
  cumsum_ok start_date_of
    (_time_range_to_cumsum key_is start_date_of time_range_to_count)
    (sum (values time_range_to_count))
  /\ Permutation (keys (_time_range_to_cumsum key_is start_date_of time_range_to_count))
       (keys time_range_to_count).
Proof.
  intros Hnodup Hcounts. unfold _time_range_to_cumsum, items.
  set (leb' := fun x y : TP * Z => leb (start_date_of (fst x)) (start_date_of (fst y))).
  pose proof (sorted_permutation leb' time_range_to_count) as Hperm.
  assert (Hnodup' : NoDup (map id_of (keys (sorted leb' time_range_to_count)))).
  { eapply Permutation_NoDup; [|exact Hnodup].
    unfold keys. apply Permutation_map, Permutation_map, Permutation_sym, Hperm. }
  assert (Hcounts' : Forall (fun c => 0 <= c) (values (sorted leb' time_range_to_count))).
  { eapply Permutation_Forall; [|exact Hcounts].
    unfold values. apply Permutation_map, Permutation_sym, Hperm. }
  rewrite cumsum_loop_fresh by exact Hnodup'. simpl app.
  destruct (running_sums_bounds _ 0 Hcounts') as (_ & Hsorted).
  split; [split; [|split]|].
  - rewrite running_sums_keys.
    assert (Hs : Sorted (fun a b => leb' a b = true) (sorted leb' time_range_to_count)).
    { apply sorted_locally_sorted. intros a b. apply leb_total. }
    clear -Hs. induction Hs as [|x l Hs IH Hhd]; simpl; constructor; auto.
    destruct Hhd; simpl; constructor. assumption.
  - exact Hsorted.
  - rewrite running_sums_last. simpl.
    apply sum_permutation. unfold values. apply Permutation_map, Hperm.
  - rewrite running_sums_keys. unfold keys. apply Permutation_map, Hperm.
Qed.
End CumsumFacts.

(** Grouping when every key is a newly created object: no two days share a
    key, so each day gets its own entry. *)
Section AllocatingKeys.
Context {K : Type} (id_of : K -> nat) (key_is : K -> K -> bool).
Context (key_of : DayTimeRange -> M K) (good : DayTimeRange -> Prop).
Hypothesis key_is_id : forall a b, key_is a b = (id_of a =? id_of b)%nat.
Hypothesis key_of_allocates :
  forall day n, good day -> exists k, key_of day n = Ok (k, S n) /\ id_of k = n.

Lemma group_counts_allocating (items : list (DayTimeRange * Z)) :
  forall acc n,
    Forall good (keys items) ->
    Forall (fun k => (id_of k < n)%nat) (keys acc) ->
    exists g,
      group_counts key_is key_of items acc n = Ok (acc ++ g, (n + List.length items)%nat)
      /\ map (fun kc => sum (snd kc)) g = values items
      /\ map id_of (keys g) = seq n (List.length items).
Proof.
  induction items as [|[day count] items IH]; intros acc n Hgood Hacc.
  - exists []. simpl. unfold ret. rewrite app_nil_r, Nat.add_0_r. auto.
  - inversion Hgood as [|d ds Hday Hrest]; subst.
    destruct (key_of_allocates day n Hday) as (k & Hk & Hid).
    assert (Hfresh : ~ In (id_of k) (map id_of (keys acc))).
    { intros Hin. apply in_map_iff in Hin. destruct Hin as (k' & Heq & Hin).
      rewrite Forall_forall in Hacc. apply Hacc in Hin. lia. }
    destruct (IH (acc ++ [(k, [count])]) (S n) Hrest) as (g & Hg & Hsums & Hids).
    { unfold keys. rewrite map_app. apply Forall_app. split.
      - eapply Forall_impl; [|exact Hacc]. simpl. intros; lia.
      - constructor; [simpl; lia | constructor]. }
    exists ((k, [count]) :: g). split; [|split].
    + simpl group_counts. unfold bindM. rewrite Hk.
      unfold get_default. rewrite (get_fresh id_of key_is key_is_id _ _ Hfresh).
      rewrite (setitem_fresh id_of key_is key_is_id _ _ _ Hfresh).
      simpl app at 1. rewrite Hg. rewrite <- app_assoc. simpl.
      rewrite Nat.add_succ_r. reflexivity.
    + cbn [map snd values]. rewrite Hsums. reflexivity.
    + simpl. rewrite Hid, Hids. reflexivity.
Qed.
End AllocatingKeys.

(** Grouping by a key that is computed without creating an object. *)
Section ComputedKeys.
Context {K : Type} (key_is : K -> K -> bool) (key_of : DayTimeRange -> result K).
Hypothesis key_of_total : forall day, exists k, key_of day = Ok k.

Lemma setitem_values_nonempty (acc : dict K (list Z)) (k : K) (v : list Z) :
  Forall (fun kc => snd kc <> []) acc -> v <> [] ->
  Forall (fun kc => snd kc <> []) (setitem key_is acc k v).
Proof.
  intros Hacc Hv. induction Hacc as [|[k' v'] acc Hk' Htail IH]; simpl.
  - repeat constructor. exact Hv.
  - destruct (key_is k' k); constructor; auto.
Qed.

Lemma group_counts_computed (items : list (DayTimeRange * Z)) :
  forall acc n,
    Forall (fun kc => snd kc <> []) acc ->
    exists g,
      group_counts key_is (fun day => lift (key_of day)) items acc n = Ok (g, n)
      /\ Forall (fun kc => snd kc <> []) g.
Proof.
  induction items as [|[day count] items IH]; intros acc n Hacc.
  - exists acc. split; [reflexivity | exact Hacc].
  - destruct (key_of_total day) as (k & Hk).
    simpl group_counts. unfold bindM, lift. rewrite Hk.
    apply IH. apply setitem_values_nonempty; [exact Hacc|].
    intros H. apply app_eq_nil in H. destruct H; discriminate.
Qed.

Lemma best_counts_ok (g : dict K (list Z)) (n : nat) :
  Forall (fun kc => snd kc <> []) g ->
  exists b,
    comprehension (fun dc => best <~ lift (max (snd dc)) ;; ret (fst dc, best)) g n
    = Ok (b, n).
Proof.
  induction 1 as [|[k v] g Hv _ IH].
  - exists []. reflexivity.
  - destruct IH as (b & Hb). rewrite comprehension_cons.
    simpl in Hv. destruct v as [|x v]; [congruence|].
    change ((best <~ lift (max (snd (k, x :: v))) ;; ret (fst (k, x :: v), best)) n)
      with (@Ok ((K * Z) * nat) ((k, fold_left Z.max v x), n)).
    cbv iota beta. rewrite Hb. eauto.
Qed.
End ComputedKeys.

Lemma DayTimeRange_day_of_week_total (day : DayTimeRange) :
  exists w, DayTimeRange_day_of_week day = Ok w.
Proof.
  unfold DayTimeRange_day_of_week, weekday.
  pose proof (Z.mod_pos_bound (toordinal (day_start_date day) + 6) 7 ltac:(lia)) as H.
  set (w := (toordinal (day_start_date day) + 6) mod 7) in *.
  assert (Hw : w = 0 \/ w = 1 \/ w = 2 \/ w = 3 \/ w = 4 \/ w = 5 \/ w = 6) by lia.
  destruct Hw as [->|[->|[->|[->|[->|[->| ->]]]]]]; eexists; reflexivity.
Qed.

Lemma valid_first_day_of_month (d : datetime) :
  valid d = true -> of_ymd (year d) (month d) 1 = Ok (mk_datetime (year d) (month d) 1 0 0 0 0).
Proof.
  intros H. unfold of_ymd.
  assert (Hv : valid (mk_datetime (year d) (month d) 1 0 0 0 0) = true).
  { unfold valid in *. simpl.
    repeat (apply andb_prop in H; destruct H as [H ?]).
    assert (1 <= days_in_month (year d) (month d)).
    { unfold days_in_month.
      destruct (month d =? 2); [destruct (is_leap (year d)); lia|].
      destruct ((month d =? 4) || (month d =? 6) || (month d =? 9) || (month d =? 11));
        lia. }
    repeat (apply andb_true_intro; split); try assumption; lia. }
  rewrite Hv. reflexivity.
Qed.

Lemma valid_first_day_of_year (d : datetime) :
  valid d = true -> of_ymd (year d) 1 1 = Ok (mk_datetime (year d) 1 1 0 0 0 0).
Proof.
  intros H. unfold of_ymd.
  assert (Hv : valid (mk_datetime (year d) 1 1 0 0 0 0) = true).
  { unfold valid in *. simpl.
    repeat (apply andb_prop in H; destruct H as [H ?]).
    repeat (apply andb_true_intro; split); try assumption; try lia.
    unfold days_in_month. simpl. lia. }
  rewrite Hv. reflexivity.
Qed.

Lemma DayTimeRange_month_time_range_allocates (day : DayTimeRange) (n : nat) :
  valid (day_start_date day) = true ->
  exists k, DayTimeRange_month_time_range day n = Ok (k, S n) /\ month_id k = n.
Proof.
  intros H. unfold DayTimeRange_month_time_range, bindM, lift.
  rewrite (valid_first_day_of_month _ H). eexists. split; reflexivity.
Qed.

Lemma DayTimeRange_year_time_range_allocates (day : DayTimeRange) (n : nat) :
  valid (day_start_date day) = true ->
  exists k, DayTimeRange_year_time_range day n = Ok (k, S n) /\ year_id k = n.
Proof.
  intros H. unfold DayTimeRange_year_time_range, bindM, lift.
  rewrite (valid_first_day_of_year _ H). eexists. split; reflexivity.
Qed.

Lemma _group_by_month_ok (day_to_count : dict DayTimeRange Z) (n : nat) :
  Forall (fun day => valid (day_start_date day) = true) (keys day_to_count) ->
  exists m,
    _group_by_month day_to_count n = Ok (m, (n + List.length day_to_count)%nat)
    /\ values m = values day_to_count
    /\ map month_id (keys m) = seq n (List.length day_to_count).
Proof.
  intros Hvalid.
  destruct (group_counts_allocating month_id month_is DayTimeRange_month_time_range
              (fun day => valid (day_start_date day) = true) month_is_id
              DayTimeRange_month_time_range_allocates day_to_count [] n Hvalid)
    as (g & Hg & Hsums & Hids); [constructor|].
  exists (map (fun mc => (fst mc, sum (snd mc))) g). split; [|split].
  - unfold _group_by_month, bindM, items. rewrite Hg. reflexivity.
  - unfold values. rewrite map_map. exact Hsums.
  - unfold keys in *. rewrite <- Hids, !map_map. reflexivity.
Qed.

Lemma _group_by_year_ok (day_to_count : dict DayTimeRange Z) (n : nat) :
  Forall (fun day => valid (day_start_date day) = true) (keys day_to_count) ->
  exists y,
    _group_by_year day_to_count n = Ok (y, (n + List.length day_to_count)%nat).
Proof.
  intros Hvalid.
  destruct (group_counts_allocating year_id year_is DayTimeRange_year_time_range
              (fun day => valid (day_start_date day) = true) year_is_id
              DayTimeRange_year_time_range_allocates day_to_count [] n Hvalid)
    as (g & Hg & _); [constructor|].
  eexists. unfold _group_by_year, bindM, items. rewrite Hg. reflexivity.
Qed.

Lemma _extract_day_of_week_to_best_count_ok (day_to_count : dict DayTimeRange Z)
  (n : nat) :
  exists b, _extract_day_of_week_to_best_count day_to_count n = Ok (b, n).
Proof.
  destruct (group_counts_computed DayOfWeek.eqb DayTimeRange_day_of_week
              DayTimeRange_day_of_week_total day_to_count [] n (Forall_nil _))
    as (g & Hg & Hnonempty).
  destruct (best_counts_ok g n Hnonempty) as (b & Hb).
  exists b. unfold _extract_day_of_week_to_best_count, items.
  unfold bindM at 1. rewrite Hg. exact Hb.
Qed.

(** C3. From a dictionary of non-negative counts whose keys are distinct Day
    objects holding valid dates, the constructor builds a history whose
    [total] is the sum of the counts (0 when there is none), and whose two
    cumulative-sum dictionaries have the keys of the dictionary they are
    computed from, in ascending order of start date, with values that never
    decrease and end on [total]. *)
Theorem DailyCountHistory_total_and_cumsums
  (day_to_count : dict DayTimeRange Z) (n : nat)
  (Hkeys : NoDup (map day_id (keys day_to_count)))
  (Hvalid : Forall (fun day => valid (day_start_date day) = true) (keys day_to_count))
  (Hcounts : Forall (fun c => 0 <= c) (values day_to_count)) :
  exists h n',
    DailyCountHistory_init day_to_count n = Ok (h, n')
    /\ total h = sum (values day_to_count)
    /\ (day_to_count = [] -> total h = 0)
    /\ cumsum_ok day_start_date (day_to_cumsum h) (total h)
    /\ Permutation (keys (day_to_cumsum h)) (keys day_to_count)
    /\ cumsum_ok month_start_date (month_to_cumsum h) (total h)
    /\ Permutation (keys (month_to_cumsum h)) (keys (month_to_count h)).
Proof.
  destruct (_group_by_month_ok day_to_count n Hvalid) as (m & Hm & Hmvalues & Hmids).
  destruct (_group_by_year_ok day_to_count (n + List.length day_to_count) Hvalid)
    as (y & Hy).
  destruct (_extract_day_of_week_to_best_count_ok day_to_count
              (n + List.length day_to_count + List.length day_to_count))
    as (b & Hb).
  eexists. eexists. split.
  { unfold DailyCountHistory_init, bindM. rewrite Hm, Hy, Hb. reflexivity. }
  simpl.
  destruct (_time_range_to_cumsum_ok day_id day_is day_start_date day_is_id
              day_to_count Hkeys Hcounts) as (Hday & Hdaykeys).
  assert (Hmnodup : NoDup (map month_id (keys m))) by (rewrite Hmids; apply seq_NoDup).
  assert (Hmcounts : Forall (fun c => 0 <= c) (values m)) by (rewrite Hmvalues; exact Hcounts).
  destruct (_time_range_to_cumsum_ok month_id month_is month_start_date month_is_id
              m Hmnodup Hmcounts) as (Hmonth & Hmonthkeys).
  rewrite Hmvalues in Hmonth.
  repeat split; try assumption; try apply Hday; try apply Hmonth.
  intros ->. reflexivity.
Qed.

Lemma DailyCountHistory_total_and_cumsums_witness :
  exists h n',
    DailyCountHistory_init september_counts 4%nat = Ok (h, n')
    /\ total h = 13
    /\ cumsum_ok day_start_date (day_to_cumsum h) 13
    /\ cumsum_ok month_start_date (month_to_cumsum h) 13.
Proof.
  assert (Hkeys : NoDup (map day_id (keys september_counts))).
  { simpl. repeat constructor; simpl; intuition discriminate. }
  assert (Hvalid : Forall (fun day => valid (day_start_date day) = true)
                     (keys september_counts)).
  { repeat constructor. }
  assert (Hcounts : Forall (fun c => 0 <= c) (values september_counts)).
  { simpl. repeat constructor; lia. }
  destruct (DailyCountHistory_total_and_cumsums september_counts 4%nat
              Hkeys Hvalid Hcounts)
    as (h & n' & Hinit & Htotal & _ & Hday & _ & Hmonth & _).
  change (sum (values september_counts)) with 13 in Htotal.
  rewrite Htotal in Hday, Hmonth.
  exists h, n'. auto.
Defined.

(** ** Fact extraction *)

Lemma filter_where_total {A : Type} (cond : A -> result bool) (keep : A -> bool)
  (l : list A) :
  (forall x, cond x = Ok (keep x)) -> filter_where cond l = Ok (filter keep l).
Proof.
  intros H. induction l as [|x l IH]; simpl; [reflexivity|].
  rewrite H, IH. simpl. destruct (keep x); reflexivity.
Qed.

Lemma DayTimeRange_day_of_week_of (day : DayTimeRange) :
  DayTimeRange_day_of_week day = Ok (day_of_week_of day).
Proof.
  unfold day_of_week_of.
  destruct (DayTimeRange_day_of_week_total day) as (w & ->). reflexivity.
Qed.

Lemma extract_rank_and_ties_of_day_of_week_value (count_history : DailyCountHistory)
  (target_range : DayTimeRange) (same_year : bool) (count : Z) :
  get day_is (day_to_count count_history) target_range = Some count ->
  extract_rank_and_ties_of_day_of_week count_history target_range same_year
  = Ok (rank_in count (counts_where (same_day_of_week same_year target_range) count_history),
        ties_in count (counts_where (same_day_of_week same_year target_range) count_history)).
Proof.
  intros Hget. unfold extract_rank_and_ties_of_day_of_week.
  rewrite (filter_where_total _
             (fun dc => same_day_of_week same_year target_range (fst dc))).
  - simpl bind. unfold getitem. rewrite Hget. simpl bind.
    apply human_rank_in_list_value.
  - intros dc. rewrite !DayTimeRange_day_of_week_of. reflexivity.
Qed.

Lemma get_rank_of_day_value (count_history : DailyCountHistory)
  (target_range : DayTimeRange) (comparator : DayTimeRange -> DayTimeRange -> bool)
  (count : Z) :
  get day_is (day_to_count count_history) target_range = Some count ->
  get_rank_of_day count_history target_range comparator
  = Ok (rank_in count (counts_where (fun day => comparator day target_range) count_history),
        ties_in count (counts_where (fun day => comparator day target_range) count_history)).
Proof.
  intros Hget. unfold get_rank_of_day, getitem. rewrite Hget. simpl bind.
  apply human_rank_in_list_value.
Qed.

(** What [extract_relevant_facts] does on every input. *)
Lemma extract_relevant_facts_eq (count_history : DailyCountHistory)
  (among_range : TimeRange) (target_range : DayTimeRange) :
  extract_relevant_facts count_history among_range target_range
  = if negb (contains among_range (day_start_date target_range))
       || negb (contains among_range (day_end_date target_range))
    then Raise (ValueError "Arg among_range must contain arg target_range")
    else match get day_is (day_to_count count_history) target_range with
         | None => Raise KeyError
         | Some count => Ok (facts_of count_history target_range count)
         end.
Proof.
  unfold extract_relevant_facts.
  destruct (negb (contains among_range (day_start_date target_range))
            || negb (contains among_range (day_end_date target_range)));
    [reflexivity|].
  unfold extract_total, getitem.
  destruct (get day_is (day_to_count count_history) target_range) as [count|] eqn:Hget;
    [|reflexivity].
  simpl bind. rewrite DayTimeRange_day_of_week_of. simpl bind.
  rewrite !(extract_rank_and_ties_of_day_of_week_value _ _ _ _ Hget). simpl bind.
  unfold get_rank_of_day_in_year, get_rank_of_day_in_month.
  rewrite !(get_rank_of_day_value _ _ _ _ Hget). simpl bind.
  reflexivity.
Qed.

(** C4. [extract_relevant_facts] raises a [ValueError] exactly when
    [among_range] does not contain the start or does not contain the end of
    the target day. Otherwise, when the target day is a key of the daily
    history, it returns six facts, in this order: the historical total, the
    rank among the same days of the week of the year, the rank among the same
    days of the week of the whole history, the rank in the year, the rank in
    the month and the month total; each has priority 0. *)
Theorem extract_relevant_facts_contract (count_history : DailyCountHistory)
  (among_range : TimeRange) (target_range : DayTimeRange) :
  (is_value_error (extract_relevant_facts count_history among_range target_range) = true
   <-> contains among_range (day_start_date target_range) = false
       \/ contains among_range (day_end_date target_range) = false)
  /\ (forall count,
        contains among_range (day_start_date target_range) = true ->
        contains among_range (day_end_date target_range) = true ->
        get day_is (day_to_count count_history) target_range = Some count ->
        exists total dow r1 t1 r2 t2 r3 t3 r4 t4 month_total,
          extract_relevant_facts count_history among_range target_range
          = Ok [HistoricalTotalRelevantFact (Day target_range) 0 total;
                YearDayOfWeekRankRelevantFact (Day target_range) 0 dow r1 t1;
                HistoricalDayOfWeekRankRelevantFact (Day target_range) 0 dow r2 t2;
                DayOfYearRankOfTotalRelevantFact (Day target_range) 0 count r3 t3;
                DayOfMonthRankOfTotalRelevantFact (Day target_range) 0 count r4 t4;
                MonthTotalRelevantFact (Day target_range) 0 month_total]
          /\ total = count
          /\ month_total = extract_month_total count_history target_range
          /\ extract_rank_and_ties_of_day_of_week count_history target_range true
             = Ok (r1, t1)
          /\ extract_rank_and_ties_of_day_of_week count_history target_range false
             = Ok (r2, t2)
          /\ get_rank_of_day_in_year count_history target_range = Ok (r3, t3)
          /\ get_rank_of_day_in_month count_history target_range = Ok (r4, t4))
  /\ (forall facts,
        extract_relevant_facts count_history among_range target_range = Ok facts ->
        List.length facts = 6%nat /\ Forall (fun fact => priority fact = 0) facts).
Proof.
  rewrite extract_relevant_facts_eq.
  destruct (contains among_range (day_start_date target_range)) eqn:Hs;
    destruct (contains among_range (day_end_date target_range)) eqn:He; simpl;
    split; try split; try split; intros; try discriminate; auto;
    try (destruct (get day_is (day_to_count count_history) target_range) eqn:Hget;
         simpl in *; try discriminate).
  all: try (destruct H; discriminate).
  - inversion H1; subst. do 11 eexists.
    split; [reflexivity|]. split; [reflexivity|]. split; [reflexivity|].
    unfold get_rank_of_day_in_year, get_rank_of_day_in_month.
    rewrite !(extract_rank_and_ties_of_day_of_week_value _ _ _ _ Hget).
    rewrite !(get_rank_of_day_value _ _ _ _ Hget). auto.
  - inversion H; subst. reflexivity.
  - inversion H; subst. repeat constructor.
Qed.

Lemma extract_relevant_facts_contract_witness :
  exists h n' facts,
    DailyCountHistory_init september_counts 4%nat = Ok (h, n')
    /\ extract_relevant_facts h september_2019 (september_day 2 3) = Ok facts
    /\ List.length facts = 6%nat
    /\ Forall (fun fact => priority fact = 0) facts.
Proof.
  destruct (DailyCountHistory_init september_counts 4%nat) as [[h n']|e] eqn:Hinit;
    [|vm_compute in Hinit; discriminate].
  pose proof (DailyCountHistory_init_day_to_count _ _ _ _ Hinit) as Hd.
  destruct (extract_relevant_facts_contract h september_2019 (september_day 2 3))
    as (_ & Hfacts & Hshape).
  destruct (Hfacts 5) as (t & dow & r1 & t1 & r2 & t2 & r3 & t3 & r4 & t4 & mt & Hok & _).
  - reflexivity.
  - reflexivity.
  - rewrite Hd. reflexivity.
  - destruct (Hshape _ Hok) as (Hlen & Hprio).
    exists h, n'. eexists. repeat split; eauto.
Defined.

(** C5. The month total and the population of the rank in the month are
    taken over the days whose month number is that of the target day, whatever
    their year. With one day in September 2019 (count 5) and the target day in
    September 2020 (count 7), the month total is 12 and the population is
    [[5; 7]], where the days of the target's calendar month sum to 7 and are
    [[7]]. *)
Theorem extract_month_total_mixes_years :
  exists h n',
    DailyCountHistory_init two_septembers 2%nat = Ok (h, n')
    /\ extract_month_total h (september_2nd 1 2020) = 12
    /\ sum (counts_where (in_calendar_month (september_2nd 1 2020)) h) = 7
    /\ counts_where (fun day => share_month day (september_2nd 1 2020)) h = [5; 7]
    /\ counts_where (in_calendar_month (september_2nd 1 2020)) h = [7]
    /\ get_rank_of_day_in_month h (september_2nd 1 2020) = Ok (1, 0)
    /\ get_rank_of_day_in_month h (september_2nd 0 2019) = Ok (2, 0).
Proof.
  destruct (DailyCountHistory_init two_septembers 2%nat) as [[h n']|e] eqn:Hinit;
    [|vm_compute in Hinit; discriminate].
  pose proof (DailyCountHistory_init_day_to_count _ _ _ _ Hinit) as Hd.
  exists h, n'. split; [reflexivity|].
  unfold extract_month_total, counts_where, get_rank_of_day_in_month,
    get_rank_of_day, getitem.
  rewrite Hd. repeat split; reflexivity.
Qed.

(** The code's month total is the sum over the days that share the month
    number of the target day. *)
Lemma extract_month_total_value (count_history : DailyCountHistory)
  (target_range : DayTimeRange) :
  extract_month_total count_history target_range
  = sum (counts_where (fun day => share_month day target_range) count_history).
Proof. reflexivity. Qed.

(** * Further properties *)

(** ** Ranking *)

Lemma count_greater_equal_length (v : Z) (pop : list Z) :
  (count_greater v pop + count_equal v pop <= List.length pop)%nat.
Proof.
  unfold count_greater, count_equal.
  induction pop as [|x pop IH]; simpl; [lia|].
  destruct (v <? x) eqn:Hgt; destruct (x =? v) eqn:Heq; simpl; lia.
Qed.

Lemma count_equal_in (v : Z) (pop : list Z) :
  In v pop -> (1 <= count_equal v pop)%nat.
Proof.
  unfold count_equal. intros H.
  assert (Hin : In v (filter (fun x => x =? v) pop)).
  { apply filter_In. split; [exact H | apply Z.eqb_refl]. }
  destruct (filter (fun x => x =? v) pop); [destruct Hin | simpl; lia].
Qed.

(** X1. The pair returned by [human_rank_in_list] does not depend on the
    order of the population. *)
Theorem human_rank_in_list_order_invariant (v : Z) (pop pop' : list Z)
  (H : Permutation pop pop') :
  human_rank_in_list v pop = human_rank_in_list v pop'.
Proof. apply human_rank_in_list_permutation, H. Qed.

Lemma human_rank_in_list_order_invariant_witness :
  human_rank_in_list 5 [0; 5; 5; 3] = human_rank_in_list 5 [5; 5; 3; 0].
Proof.
  apply (human_rank_in_list_order_invariant 5 [0; 5; 5; 3] [5; 5; 3; 0]).
  apply Permutation_sym. exact (sorted_reverse_permutation [0; 5; 5; 3]).
Defined.

(** X2. [human_rank_in_list] never raises; its rank lies between 1 and the
    size of the population plus one (it is never 0), its number of ties is at
    least -1, and rank plus ties is at most the size of the population. When
    the value occurs in the population the number of ties is not negative and
    the rank is at most the size of the population. *)
Theorem human_rank_in_list_bounds (v : Z) (pop : list Z) :
  exists rank ties,
    human_rank_in_list v pop = Ok (rank, ties)
    /\ 1 <= rank <= Z.of_nat (List.length pop) + 1
    /\ -1 <= ties
    /\ rank + ties <= Z.of_nat (List.length pop)
    /\ (In v pop -> 0 <= ties /\ rank <= Z.of_nat (List.length pop)).
Proof.
  do 2 eexists. split; [apply human_rank_in_list_value|].
  pose proof (count_greater_equal_length v pop) as Hlen.
  repeat split; try lia.
  - apply count_equal_in in H. lia.
  - apply count_equal_in in H. lia.
Qed.

(** ** Grouping *)

Lemma group_counts_group_items {K : Type} (key_is : K -> K -> bool)
  (key_of : DayTimeRange -> M K) (items : list (DayTimeRange * Z)) :
  forall acc n,
    group_counts key_is key_of items acc n = group_items key_is key_of items acc n.
Proof.
  induction items as [|[day count] items IH]; intros acc n; simpl; [reflexivity|].
  unfold bindM. destruct (key_of day n) as [[k n1]|e]; [|reflexivity].
  apply IH.
Qed.

Lemma fold_left_max_spec (l : list Z) :
  forall x,
    In (fold_left Z.max l x) (x :: l)
    /\ Forall (fun y => y <= fold_left Z.max l x) (x :: l).
Proof.
  induction l as [|y l IH]; intros x; simpl.
  - split; [auto | repeat constructor; lia].
  - destruct (IH (Z.max x y)) as (Hin & Hall).
    inversion Hall as [|z zs Hz Hzs]; subst.
    split.
    + destruct Hin as [Hin|Hin]; [|auto].
      destruct (Z.max_spec x y) as [[_ E]|[_ E]];
        [right; left; congruence | left; congruence].
    + constructor; [lia|]. constructor; [lia | exact Hzs].
Qed.

Lemma max_spec (l : list Z) (m : Z) :
  max l = Ok m -> In m l /\ Forall (fun y => y <= m) l.
Proof.
  destruct l as [|x l]; [discriminate|].
  unfold max. intros H; inversion H; subst. apply fold_left_max_spec.
Qed.

(** Dictionaries whose keys are compared by value. *)
Section ValueKeys.
Context {K V : Type} (key_is : K -> K -> bool).
Hypothesis key_is_eq : forall a b, key_is a b = true <-> a = b.

Lemma key_is_refl (k : K) : key_is k k = true.
Proof. apply key_is_eq. reflexivity. Qed.

Lemma key_is_neq (a b : K) : a <> b -> key_is a b = false.
Proof.
  intros H. destruct (key_is a b) eqn:E; [|reflexivity].
  apply key_is_eq in E. contradiction.
Qed.

Lemma get_setitem_same (d : dict K V) (k : K) (v : V) :
  get key_is (setitem key_is d k v) k = Some v.
Proof.
  induction d as [|[k' v'] d IH]; simpl.
  - rewrite key_is_refl. reflexivity.
  - destruct (key_is k' k) eqn:E; simpl; rewrite E; [reflexivity | exact IH].
Qed.

Lemma get_setitem_other (d : dict K V) (k k' : K) (v : V) :
  k <> k' -> get key_is (setitem key_is d k v) k' = get key_is d k'.
Proof.
  intros Hneq. induction d as [|[k0 v0] d IH]; simpl.
  - rewrite key_is_neq by exact Hneq. reflexivity.
  - destruct (key_is k0 k) eqn:E; simpl.
    + apply key_is_eq in E. subst k0. rewrite key_is_neq by exact Hneq. reflexivity.
    + destruct (key_is k0 k'); [reflexivity | exact IH].
Qed.

Lemma get_some_in (d : dict K V) (k : K) (v : V) :
  get key_is d k = Some v -> In (k, v) d.
Proof.
  induction d as [|[k' v'] d IH]; simpl; [discriminate|].
  destruct (key_is k' k) eqn:E.
  - apply key_is_eq in E. intros H; inversion H; subst. auto.
  - auto.
Qed.

Lemma get_none_not_in (d : dict K V) (k : K) :
  get key_is d k = None -> ~ In k (keys d).
Proof.
  induction d as [|[k' v'] d IH]; simpl; [tauto|].
  destruct (key_is k' k) eqn:E; [discriminate|].
  intros H [Heq|Hin]; [|exact (IH H Hin)].
  subst k'. rewrite key_is_refl in E. discriminate.
Qed.

Lemma in_nodup_get (d : dict K V) (k : K) (v : V) :
  NoDup (keys d) -> In (k, v) d -> get key_is d k = Some v.
Proof.
  induction d as [|[k' v'] d IH]; simpl; intros Hnd Hin; [destruct Hin|].
  inversion Hnd as [|x xs Hnotin Hnd']; subst.
  destruct Hin as [Heq|Hin].
  - inversion Heq; subst. rewrite key_is_refl. reflexivity.
  - destruct (key_is k' k) eqn:E.
    + apply key_is_eq in E. subst k'. exfalso. apply Hnotin.
      unfold keys. apply in_map_iff. exists (k, v). auto.
    + apply IH; assumption.
Qed.

Lemma setitem_keys_nodup (d : dict K V) (k : K) (v : V) :
  NoDup (keys d) -> NoDup (keys (setitem key_is d k v)).
Proof.
  induction d as [|[k' v'] d IH]; simpl; intros Hnd.
  - repeat constructor. simpl. tauto.
  - inversion Hnd as [|x xs Hnotin Hnd']; subst.
    destruct (key_is k' k) eqn:E; simpl.
    + constructor; assumption.
    + constructor; [|apply IH; exact Hnd'].
      intros Hin. apply in_map_iff in Hin. destruct Hin as ([k0 v0] & Hk0 & Hin).
      simpl in Hk0. subst k0.
      assert (Hget : exists w, get key_is (setitem key_is d k v) k' = Some w).
      { destruct (get key_is (setitem key_is d k v) k') eqn:G; [eauto|].
        apply get_none_not_in in G. exfalso. apply G.
        unfold keys. apply in_map_iff. exists (k', v0). auto. }
      destruct Hget as (w & Hget).
      rewrite get_setitem_other in Hget
        by (intros Heq; subst; rewrite key_is_refl in E; discriminate).
      apply get_some_in in Hget. apply Hnotin.
      unfold keys. apply in_map_iff. exists (k', w). auto.
Qed.
End ValueKeys.

(** Grouping by a key that is computed from the item and compared by value. *)
Section ComputedValueKeys.
Context {I K : Type} (key_is : K -> K -> bool) (key_of : I -> result K) (kf : I -> K).
Hypothesis key_is_eq : forall a b, key_is a b = true <-> a = b.
Hypothesis key_of_kf : forall i, key_of i = Ok (kf i).

Lemma group_items_computed (items : list (I * Z)) :
  forall acc n,
    NoDup (keys acc) ->
    exists g,
      group_items key_is (fun i => lift (key_of i)) items acc n = Ok (g, n)
      /\ NoDup (keys g)
      /\ forall k, get key_is g k = extend (get key_is acc k) (counts_of key_is kf k items).
Proof.
  induction items as [|[i c] items IH]; intros acc n Hnd.
  - exists acc. split; [reflexivity|]. split; [exact Hnd|].
    intros k. simpl. destruct (get key_is acc k); simpl; [rewrite app_nil_r|]; reflexivity.
  - simpl group_items. unfold bindM, lift. rewrite key_of_kf.
    set (acc' := setitem key_is acc (kf i) (get_default key_is acc (kf i) [] ++ [c])).
    destruct (IH acc' n) as (g & Hg & Hgnd & Hget).
    { apply setitem_keys_nodup; assumption. }
    exists g. split; [exact Hg|]. split; [exact Hgnd|].
    intros k. rewrite Hget. unfold counts_of. simpl filter.
    destruct (key_is (kf i) k) eqn:E.
    + apply key_is_eq in E. subst k. unfold acc'.
      rewrite (get_setitem_same key_is key_is_eq). unfold get_default.
      destruct (get key_is acc (kf i)) as [l|]; simpl.
      * rewrite <- app_assoc. reflexivity.
      * reflexivity.
    + unfold acc'. rewrite (get_setitem_other key_is key_is_eq).
      * reflexivity.
      * intros Heq. rewrite Heq, (key_is_refl key_is key_is_eq) in E. discriminate.
Qed.

Lemma counts_of_in (items : list (I * Z)) (i : I) (c : Z) :
  In (i, c) items -> In c (counts_of key_is kf (kf i) items).
Proof.
  intros H. unfold counts_of. apply in_map_iff. exists (i, c). split; [reflexivity|].
  apply filter_In. split; [exact H|]. simpl. apply (key_is_refl key_is key_is_eq).
Qed.

Lemma in_counts_of (items : list (I * Z)) (k : K) (c : Z) :
  In c (counts_of key_is kf k items) -> exists i, In (i, c) items /\ kf i = k.
Proof.
  unfold counts_of. intros H. apply in_map_iff in H.
  destruct H as ([i c'] & Hc & Hin). simpl in Hc. subst c'.
  apply filter_In in Hin. destruct Hin as (Hin & Hk). simpl in Hk.
  apply key_is_eq in Hk. eauto.
Qed.

Lemma best_counts_spec (g : dict K (list Z)) (n : nat) :
  Forall (fun kc => snd kc <> []) g ->
  exists b,
    comprehension (fun kc => best <~ lift (max (snd kc)) ;; ret (fst kc, best)) g n
    = Ok (b, n)
    /\ Forall2 (fun kc kb => fst kb = fst kc /\ max (snd kc) = Ok (snd kb)) g b.
Proof.
  induction 1 as [|[k v] g Hv _ IH].
  - exists []. split; [reflexivity | constructor].
  - destruct IH as (b & Hb & Hall). rewrite comprehension_cons.
    simpl in Hv. destruct v as [|x v]; [congruence|].
    change ((best <~ lift (max (snd (k, x :: v))) ;; ret (fst (k, x :: v), best)) n)
      with (@Ok ((K * Z) * nat) ((k, fold_left Z.max v x), n)).
    cbv iota beta. rewrite Hb. eexists. split; [reflexivity|].
    constructor; [split; reflexivity | exact Hall].
Qed.

(** Grouping then taking the maximum of each group: every key of the result
    is the key of an item whose count is the value, and the value is at least
    the count of every item with that key. *)
Lemma best_by_key (items : list (I * Z)) (n : nat) :
  exists b,
    (g <~ group_items key_is (fun i => lift (key_of i)) items [] ;;
     comprehension (fun kc => best <~ lift (max (snd kc)) ;; ret (fst kc, best)) g) n
    = Ok (b, n)
    /\ NoDup (keys b)
    /\ (forall i c, In (i, c) items ->
                    exists best, get key_is b (kf i) = Some best /\ c <= best)
    /\ (forall k best, In (k, best) b -> exists i, In (i, best) items /\ kf i = k).
Proof.
  destruct (group_items_computed items [] n (NoDup_nil _)) as (g & Hg & Hgnd & Hget).
  assert (Hgroups : forall k v, In (k, v) g -> v = counts_of key_is kf k items /\ v <> []).
  { intros k v Hin. pose proof (in_nodup_get key_is key_is_eq g k v Hgnd Hin) as Hk.
    rewrite Hget in Hk. simpl in Hk.
    destruct (counts_of key_is kf k items) eqn:E; [discriminate|].
    inversion Hk; subst. split; [reflexivity | discriminate]. }
  assert (Hnonempty : Forall (fun kc => snd kc <> []) g).
  { apply Forall_forall. intros [k v] Hin. simpl. apply (Hgroups k v Hin). }
  destruct (best_counts_spec g n Hnonempty) as (b & Hb & Hall).
  exists b. split; [unfold bindM; rewrite Hg; exact Hb|].
  assert (Hkeys : keys b = keys g).
  { clear -Hall. induction Hall as [|kc kb g b (Hk & _) _ IH]; simpl; [reflexivity|].
    rewrite Hk. f_equal. exact IH. }
  assert (Hin_b : forall k best,
             In (k, best) b -> exists v, In (k, v) g /\ max v = Ok best).
  { clear -Hall. induction Hall as [|[k0 v0] [k1 m1] g b (Hk & Hm) _ IH];
      intros k best Hin; [destruct Hin|].
    simpl in Hk, Hm. subst k1. destruct Hin as [Heq|Hin].
    - inversion Heq; subst. exists v0. split; [left; reflexivity | exact Hm].
    - destruct (IH k best Hin) as (v & Hv & Hmax). exists v. split; [right|]; assumption. }
  assert (Hin_g : forall k v,
             In (k, v) g -> exists best, In (k, best) b /\ max v = Ok best).
  { clear -Hall. induction Hall as [|[k0 v0] [k1 m1] g b (Hk & Hm) _ IH];
      intros k v Hin; [destruct Hin|].
    simpl in Hk, Hm. subst k1. destruct Hin as [Heq|Hin].
    - inversion Heq; subst. exists m1. split; [left; reflexivity | exact Hm].
    - destruct (IH k v Hin) as (m & Hb' & Hmax). exists m. split; [right|]; assumption. }
  assert (Hbnd : NoDup (keys b)) by (rewrite Hkeys; exact Hgnd).
  split; [exact Hbnd|]. split.
  - intros i c Hin. pose proof (counts_of_in items i c Hin) as Hc.
    specialize (Hget (kf i)). simpl in Hget.
    destruct (counts_of key_is kf (kf i) items) as [|x l] eqn:E; [destruct Hc|].
    apply (get_some_in key_is key_is_eq) in Hget.
    destruct (Hin_g _ _ Hget) as (best & Hbest & Hmax).
    exists best. split; [apply (in_nodup_get key_is key_is_eq); assumption|].
    apply max_spec in Hmax. destruct Hmax as (_ & Hall').
    rewrite Forall_forall in Hall'. apply Hall'. exact Hc.
  - intros k best Hin. destruct (Hin_b k best Hin) as (v & Hv & Hmax).
    destruct (Hgroups k v Hv) as (-> & _).
    apply max_spec in Hmax. destruct Hmax as (Hmem & _).
    apply in_counts_of. exact Hmem.
Qed.
End ComputedValueKeys.

Lemma DayOfWeek_eqb_eq (a b : DayOfWeek.t) : DayOfWeek.eqb a b = true <-> a = b.
Proof. destruct a, b; split; intros H; try reflexivity; discriminate. Qed.

Lemma hour_and_day_eqb_eq (a b : Z * DayOfWeek.t) :
  hour_and_day_eqb a b = true <-> a = b.
Proof.
  destruct a as [h d], b as [h' d']. unfold hour_and_day_eqb. simpl.
  rewrite andb_true_iff, Z.eqb_eq, DayOfWeek_eqb_eq.
  split; [intros [-> ->]; reflexivity | intros H; inversion H; auto].
Qed.

(** X3. [_extract_day_of_week_to_best_count] never raises and creates no
    object. Its keys are distinct days of the week; every day of the history
    finds its day of the week among them, with a value at least its count;
    and every value is the count of a day of the history that falls on that
    day of the week. *)
Theorem _extract_day_of_week_to_best_count_spec
  (day_to_count : dict DayTimeRange Z) (n : nat) :
  exists b,
    _extract_day_of_week_to_best_count day_to_count n = Ok (b, n)
    /\ NoDup (keys b)
    /\ (forall day count,
          In (day, count) day_to_count ->
          exists best,
            get DayOfWeek.eqb b (day_of_week_of day) = Some best /\ count <= best)
    /\ (forall w best,
          In (w, best) b ->
          exists day, In (day, best) day_to_count /\ day_of_week_of day = w).
Proof.
  destruct (best_by_key DayOfWeek.eqb DayTimeRange_day_of_week day_of_week_of
              DayOfWeek_eqb_eq DayTimeRange_day_of_week_of day_to_count n)
    as (b & Hb & Hrest).
  exists b. split; [|exact Hrest].
  unfold _extract_day_of_week_to_best_count, items. unfold bindM at 1.
  rewrite group_counts_group_items. exact Hb.
Qed.

(** Grouping items when every key is a newly created object. *)
Section ItemsAllocating.
Context {I K : Type} (id_of : K -> nat) (key_is : K -> K -> bool).
Context (key_of : I -> M K) (good : I -> Prop) (post : I -> K -> Prop).
Hypothesis key_is_id : forall a b, key_is a b = (id_of a =? id_of b)%nat.
Hypothesis key_of_allocates :
  forall i n, good i -> exists k, key_of i n = Ok (k, S n) /\ id_of k = n /\ post i k.

Lemma group_items_allocating (items : list (I * Z)) :
  forall acc n,
    Forall good (keys items) ->
    Forall (fun k => (id_of k < n)%nat) (keys acc) ->
    exists g,
      group_items key_is key_of items acc n = Ok (acc ++ g, (n + List.length items)%nat)
      /\ Forall2 (fun ic kc => post (fst ic) (fst kc) /\ snd kc = [snd ic]) items g
      /\ map id_of (keys g) = seq n (List.length items).
Proof.
  induction items as [|[i c] items IH]; intros acc n Hgood Hacc.
  - exists []. simpl. unfold ret. rewrite app_nil_r, Nat.add_0_r.
    split; [reflexivity|]. split; [constructor | reflexivity].
  - inversion Hgood as [|x xs Hi Hrest]; subst.
    destruct (key_of_allocates i n Hi) as (k & Hk & Hid & Hpost).
    assert (Hfresh : ~ In (id_of k) (map id_of (keys acc))).
    { intros Hin. apply in_map_iff in Hin. destruct Hin as (k' & Heq & Hin).
      rewrite Forall_forall in Hacc. apply Hacc in Hin. lia. }
    destruct (IH (acc ++ [(k, [c])]) (S n) Hrest) as (g & Hg & Hshape & Hids).
    { unfold keys. rewrite map_app. apply Forall_app. split.
      - eapply Forall_impl; [|exact Hacc]. simpl. intros; lia.
      - constructor; [simpl; lia | constructor]. }
    exists ((k, [c]) :: g). split; [|split].
    + simpl group_items. unfold bindM. rewrite Hk.
      unfold get_default. rewrite (get_fresh id_of key_is key_is_id _ _ Hfresh).
      rewrite (setitem_fresh id_of key_is key_is_id _ _ _ Hfresh).
      simpl app at 1. rewrite Hg. rewrite <- app_assoc. simpl.
      rewrite Nat.add_succ_r. reflexivity.
    + constructor; [split; [exact Hpost | reflexivity] | exact Hshape].
    + simpl. rewrite Hid, Hids. reflexivity.
Qed.

Lemma singleton_groups_sums (items : list (I * Z)) (g : dict K (list Z)) :
  Forall2 (fun ic kc => post (fst ic) (fst kc) /\ snd kc = [snd ic]) items g ->
  values (map (fun kc => (fst kc, sum (snd kc))) g) = values items
  /\ Forall2 (fun ic kc => post (fst ic) (fst kc) /\ snd kc = snd ic) items
       (map (fun kc => (fst kc, sum (snd kc))) g).
Proof.
  induction 1 as [|[i c] [k v] items g (Hpost & Hv) _ (IHv & IHs)]; simpl.
  - split; constructor.
  - simpl in Hv. subst v. split.
    + unfold values in *. simpl. rewrite IHv. reflexivity.
    + constructor; [split; [exact Hpost | reflexivity] | exact IHs].
Qed.
End ItemsAllocating.

Lemma valid_midnight (d : datetime) : valid d = true -> valid (midnight d) = true.
Proof.
  unfold valid, midnight. simpl. intros H.
  repeat (apply andb_prop in H; destruct H as [H ?]).
  repeat (apply andb_true_intro; split); assumption || reflexivity.
Qed.

Lemma DayTimeRange_month_time_range_value (day : DayTimeRange) (n : nat) :
  valid (day_start_date day) = true ->
  DayTimeRange_month_time_range day n
  = Ok ({| month_id := n; month_start_date := first_of_month (day_start_date day) |},
        S n).
Proof.
  intros H. unfold DayTimeRange_month_time_range, bindM, lift.
  rewrite (valid_first_day_of_month _ H). reflexivity.
Qed.

Lemma DayTimeRange_year_time_range_value (day : DayTimeRange) (n : nat) :
  valid (day_start_date day) = true ->
  DayTimeRange_year_time_range day n
  = Ok ({| year_id := n; year_start_date := first_of_year (day_start_date day) |},
        S n).
Proof.
  intros H. unfold DayTimeRange_year_time_range, bindM, lift.
  rewrite (valid_first_day_of_year _ H). reflexivity.
Qed.

(** X4. [_group_by_month] and [_group_by_year] never merge two days: the month
    (or year) of each day is a new object, and a new object is never found as
    a key. From distinct Day objects holding valid dates they return one entry
    per day, in the order of the days, whose key starts on the first day of
    the day's month (or year) and whose value is the count of that day alone. *)
Theorem _group_by_month_and_year_keep_days_apart
  (day_to_count : dict DayTimeRange Z) (n : nat)
  (Hvalid : Forall (fun day => valid (day_start_date day) = true) (keys day_to_count)) :
  (exists m,
     _group_by_month day_to_count n = Ok (m, (n + List.length day_to_count)%nat)
     /\ Forall2 (fun dc mc =>
                   month_start_date (fst mc) = first_of_month (day_start_date (fst dc))
                   /\ snd mc = snd dc) day_to_count m
     /\ NoDup (map month_id (keys m)))
  /\ (exists y,
        _group_by_year day_to_count n = Ok (y, (n + List.length day_to_count)%nat)
        /\ Forall2 (fun dc yc =>
                      year_start_date (fst yc) = first_of_year (day_start_date (fst dc))
                      /\ snd yc = snd dc) day_to_count y
        /\ NoDup (map year_id (keys y))).
Proof.
  split.
  - destruct (group_items_allocating month_id month_is DayTimeRange_month_time_range
                (fun day => valid (day_start_date day) = true)
                (fun day m => month_start_date m = first_of_month (day_start_date day))
                month_is_id) with (items := day_to_count) (acc := @nil (MonthTimeRange * list Z))
                                  (n := n)
      as (g & Hg & Hshape & Hids).
    + intros day k Hday. rewrite (DayTimeRange_month_time_range_value _ _ Hday).
      eexists. repeat split.
    + exact Hvalid.
    + constructor.
    + eexists. split; [|split].
      * unfold _group_by_month, items. unfold bindM.
        rewrite group_counts_group_items, Hg. reflexivity.
      * simpl app.
        apply (proj2 (singleton_groups_sums
                        (fun day m => month_start_date m
                                      = first_of_month (day_start_date day))
                        _ _ Hshape)).
      * simpl app. unfold keys in *.
        replace (map month_id (map fst (map (fun kc => (fst kc, sum (snd kc))) g)))
          with (map month_id (map fst g)) by (rewrite !map_map; reflexivity).
        rewrite Hids. apply seq_NoDup.
  - destruct (group_items_allocating year_id year_is DayTimeRange_year_time_range
                (fun day => valid (day_start_date day) = true)
                (fun day y => year_start_date y = first_of_year (day_start_date day))
                year_is_id) with (items := day_to_count) (acc := @nil (YearTimeRange * list Z))
                                 (n := n)
      as (g & Hg & Hshape & Hids).
    + intros day k Hday. rewrite (DayTimeRange_year_time_range_value _ _ Hday).
      eexists. repeat split.
    + exact Hvalid.
    + constructor.
    + eexists. split; [|split].
      * unfold _group_by_year, items. unfold bindM.
        rewrite group_counts_group_items, Hg. reflexivity.
      * simpl app.
        apply (proj2 (singleton_groups_sums
                        (fun day y => year_start_date y
                                      = first_of_year (day_start_date day))
                        _ _ Hshape)).
      * simpl app. unfold keys in *.
        replace (map year_id (map fst (map (fun kc => (fst kc, sum (snd kc))) g)))
          with (map year_id (map fst g)) by (rewrite !map_map; reflexivity).
        rewrite Hids. apply seq_NoDup.
Qed.

Lemma _group_by_month_and_year_keep_days_apart_witness :
  exists m,
    _group_by_month september_counts 4%nat = Ok (m, 8%nat)
    /\ values m = [0; 5; 5; 3].
Proof.
  assert (Hvalid : Forall (fun day => valid (day_start_date day) = true)
                     (keys september_counts)) by (repeat constructor).
  destruct (_group_by_month_and_year_keep_days_apart september_counts 4%nat Hvalid)
    as ((m & Hm & Hshape & _) & _).
  exists m. split; [exact Hm|].
  inversion Hshape as [|? [k1 c1] ? ? (_ & E1) H1]; subst.
  inversion H1 as [|? [k2 c2] ? ? (_ & E2) H2]; subst.
  inversion H2 as [|? [k3 c3] ? ? (_ & E3) H3]; subst.
  inversion H3 as [|? [k4 c4] ? ? (_ & E4) H4]; subst.
  inversion H4; subst. simpl in *. subst. reflexivity.
Defined.

(** ** [HourlyCountHistory] *)

Lemma add_one_day_ok (d : datetime) :
  year d < 9999 -> exists e, add_one_day d = Ok e.
Proof.
  intros H. unfold add_one_day.
  destruct (day d <? days_in_month (year d) (month d));
    [|destruct (month d <? 12)];
    match goal with
    | |- context [?y <=? 9999] =>
        assert ((y <=? 9999) = true) as -> by (apply Z.leb_le; lia)
    end; eauto.
Qed.

Lemma HourTimeRange_day_time_range_value (hour : HourTimeRange) (n : nat) :
  valid (hour_start_date hour) = true ->
  year (hour_start_date hour) < 9999 ->
  exists end_date,
    add_one_day (midnight (hour_start_date hour)) = Ok end_date
    /\ HourTimeRange_day_time_range hour n
       = Ok ({| day_id := n;
                day_start_date := midnight (hour_start_date hour);
                day_end_date := end_date |}, S n).
Proof.
  intros Hv Hy.
  destruct (add_one_day_ok (midnight (hour_start_date hour)) Hy) as (e & He).
  exists e. split; [exact He|].
  unfold HourTimeRange_day_time_range, bindM, lift, of_ymd.
  change (mk_datetime (year (hour_start_date hour)) (month (hour_start_date hour))
            (day (hour_start_date hour)) 0 0 0 0)
    with (midnight (hour_start_date hour)).
  rewrite (valid_midnight _ Hv).
  unfold DayTimeRange_init, bindM, new_id, lift, ret. simpl DayTimeRange_check.
  rewrite He. reflexivity.
Qed.

Lemma DailyCountHistory_init_ok (days : dict DayTimeRange Z) (n : nat) :
  Forall (fun day => valid (day_start_date day) = true) (keys days) ->
  exists h,
    DailyCountHistory_init days n
    = Ok (h, (n + List.length days + List.length days)%nat)
    /\ day_to_count h = days
    /\ total h = sum (values days).
Proof.
  intros Hvalid.
  destruct (_group_by_month_ok days n Hvalid) as (m & Hm & _).
  destruct (_group_by_year_ok days (n + List.length days) Hvalid) as (y & Hy).
  destruct (_extract_day_of_week_to_best_count_ok days
              (n + List.length days + List.length days))
    as (b & Hb).
  eexists. split.
  - unfold DailyCountHistory_init, bindM. rewrite Hm, Hy, Hb. reflexivity.
  - split; reflexivity.
Qed.

Lemma HourTimeRange_day_of_week_of (hour : HourTimeRange) :
  HourTimeRange_day_of_week hour = Ok (hour_day_of_week_of hour).
Proof.
  unfold hour_day_of_week_of, HourTimeRange_day_of_week.
  pose proof (DayTimeRange_day_of_week_total
                {| day_id := 0%nat;
                   day_start_date := hour_start_date hour;
                   day_end_date := hour_start_date hour |}) as (w & Hw).
  unfold DayTimeRange_day_of_week in Hw. simpl in Hw. rewrite Hw. reflexivity.
Qed.

Lemma hour_is_id (a b : HourTimeRange) : hour_is a b = (hour_id a =? hour_id b)%nat.
Proof. reflexivity. Qed.

Lemma _extract_hour_and_day_of_week_to_best_count_ok
  (hours : dict HourTimeRange Z) (n : nat) :
  exists b, _extract_hour_and_day_of_week_to_best_count hours n = Ok (b, n).
Proof.
  destruct (best_by_key hour_and_day_eqb
              (fun hour => dow <- HourTimeRange_day_of_week hour ;;
                           Ok (HourTimeRange_hour hour, dow))
              (fun hour => (HourTimeRange_hour hour, hour_day_of_week_of hour))
              hour_and_day_eqb_eq) with (items := hours) (n := n) as (b & Hb & _).
  { intros hour. rewrite HourTimeRange_day_of_week_of. reflexivity. }
  exists b. exact Hb.
Qed.

(** X5. [_extract_hour_and_day_of_week_to_best_count] never raises and
    creates no object. Its keys are distinct pairs of an hour of the day and a
    day of the week; every hour range of the history finds its pair among
    them, with a value at least its count; and every value is the count of an
    hour range of the history with that hour and that day of the week. *)
Theorem _extract_hour_and_day_of_week_to_best_count_spec
  (hour_to_count : dict HourTimeRange Z) (n : nat) :
  exists b,
    _extract_hour_and_day_of_week_to_best_count hour_to_count n = Ok (b, n)
    /\ NoDup (keys b)
    /\ (forall hour count,
          In (hour, count) hour_to_count ->
          exists best,
            get hour_and_day_eqb b (HourTimeRange_hour hour, hour_day_of_week_of hour)
            = Some best
            /\ count <= best)
    /\ (forall k best,
          In (k, best) b ->
          exists hour,
            In (hour, best) hour_to_count
            /\ (HourTimeRange_hour hour, hour_day_of_week_of hour) = k).
Proof.
  apply (best_by_key hour_and_day_eqb
           (fun hour => dow <- HourTimeRange_day_of_week hour ;;
                        Ok (HourTimeRange_hour hour, dow))
           (fun hour => (HourTimeRange_hour hour, hour_day_of_week_of hour))
           hour_and_day_eqb_eq).
  intros hour. rewrite HourTimeRange_day_of_week_of. reflexivity.
Qed.

(** X6. From distinct Hour objects holding valid instants before year 9999
    and non-negative counts, the constructor of [HourlyCountHistory] builds a
    history. Its daily part has one day entry per hour range, never merged
    with another: the key is a new Day object starting at midnight of the
    hour's date and the value is the count of that hour alone. Its total is
    the sum of the hourly counts, and its hourly cumulative sums are in
    ascending order of start, never decrease and end on the total. *)
Theorem HourlyCountHistory_init_spec
  (hours : dict HourTimeRange Z) (n : nat)
  (Hkeys : NoDup (map hour_id (keys hours)))
  (Hvalid : Forall (fun hour => valid (hour_start_date hour) = true
                                /\ year (hour_start_date hour) < 9999) (keys hours))
  (Hcounts : Forall (fun c => 0 <= c) (values hours)) :
  exists h n',
    HourlyCountHistory_init hours n = Ok (h, n')
    /\ hour_to_count h = hours
    /\ Forall2 (fun hc dc =>
                  day_start_date (fst dc) = midnight (hour_start_date (fst hc))
                  /\ snd dc = snd hc) hours (day_to_count (daily h))
    /\ NoDup (map day_id (keys (day_to_count (daily h))))
    /\ total (daily h) = sum (values hours)
    /\ cumsum_ok hour_start_date (hour_to_cumsum h) (total (daily h))
    /\ Permutation (keys (hour_to_cumsum h)) (keys hours).
Proof.
  destruct (group_items_allocating day_id day_is HourTimeRange_day_time_range
              (fun hour => valid (hour_start_date hour) = true
                           /\ year (hour_start_date hour) < 9999)
              (fun hour d => day_start_date d = midnight (hour_start_date hour))
              day_is_id) with (items := hours) (acc := @nil (DayTimeRange * list Z))
                               (n := n)
    as (g & Hg & Hshape & Hids).
  { intros hour k (Hv & Hy).
    destruct (HourTimeRange_day_time_range_value hour k Hv Hy) as (e & _ & He).
    rewrite He. eexists. repeat split. }
  { exact Hvalid. }
  { constructor. }
  simpl app in Hg.
  set (days := map (fun dc => (fst dc, sum (snd dc))) g).
  destruct (singleton_groups_sums
              (fun hour d => day_start_date d = midnight (hour_start_date hour))
              _ _ Hshape) as (Hvalues & Hdays).
  fold days in Hvalues, Hdays.
  assert (Hdays_valid : Forall (fun day => valid (day_start_date day) = true) (keys days)).
  { clear -Hdays Hvalid. unfold keys in *.
    induction Hdays as [|[hour c] [d c'] hs ds (Hstart & _) _ IH]; simpl; [constructor|].
    inversion Hvalid as [|x xs (Hv & _) Hrest]; subst. simpl in *.
    constructor; [rewrite Hstart; apply valid_midnight, Hv | apply IH, Hrest]. }
  destruct (DailyCountHistory_init_ok days (n + List.length hours) Hdays_valid)
    as (d & Hd & Hdd & Hdt).
  destruct (_extract_hour_and_day_of_week_to_best_count_ok hours
              (n + List.length hours + List.length days + List.length days))
    as (b & Hb).
  eexists. eexists. split.
  { unfold HourlyCountHistory_init, _group_by_day, items. unfold bindM.
    rewrite Hg. unfold ret at 1. fold days. rewrite Hd, Hb. reflexivity. }
  simpl. rewrite Hdd, Hdt, Hvalues.
  destruct (_time_range_to_cumsum_ok hour_id hour_is hour_start_date hour_is_id
              hours Hkeys Hcounts) as (Hcum & Hperm).
  repeat split; try assumption; try apply Hcum.
  unfold days, keys.
  replace (map day_id (map fst (map (fun dc => (fst dc, sum (snd dc))) g)))
    with (map day_id (map fst g)) by (rewrite !map_map; reflexivity).
  unfold keys in Hids. rewrite Hids. apply seq_NoDup.
Qed.

Lemma HourlyCountHistory_init_spec_witness :
  exists h n',
    HourlyCountHistory_init morning_counts 2%nat = Ok (h, n')
    /\ values (day_to_count (daily h)) = [3; 4]
    /\ total (daily h) = 7.
Proof.
  assert (Hkeys : NoDup (map hour_id (keys morning_counts))).
  { simpl. repeat constructor; simpl; intuition discriminate. }
  assert (Hvalid : Forall (fun hour => valid (hour_start_date hour) = true
                                      /\ year (hour_start_date hour) < 9999)
                     (keys morning_counts)).
  { repeat constructor. }
  assert (Hcounts : Forall (fun c => 0 <= c) (values morning_counts)).
  { simpl. repeat constructor; lia. }
  destruct (HourlyCountHistory_init_spec morning_counts 2%nat Hkeys Hvalid Hcounts)
    as (h & n' & Hinit & _ & Hshape & _ & Htotal & _).
  exists h, n'. split; [exact Hinit|]. split; [|exact Htotal].
  remember (day_to_count (daily h)) as ds eqn:Eds. clear Eds.
  inversion Hshape as [|? [k1 c1] ? ds1 (_ & E1) Hs1]; subst.
  inversion Hs1 as [|? [k2 c2] ? ds2 (_ & E2) Hs2]; subst.
  inversion Hs2; subst. simpl in *. subst. reflexivity.
Defined.

(** ** Ingestion *)

Lemma lengths_all_two (pairs : list (list string)) :
  set_eqb (map (@List.length string) pairs) [2%nat] = true
  <-> pairs <> [] /\ Forall (fun pair => List.length pair = 2%nat) pairs.
Proof.
  unfold set_eqb. rewrite andb_true_iff. split.
  - intros (Hall & Hsome). split.
    + intros ->. simpl in Hsome. discriminate.
    + clear Hsome. induction pairs as [|pair pairs IH]; [constructor|].
      cbn [map forallb existsb] in Hall. apply andb_prop in Hall.
      destruct Hall as (Hp & Hrest). constructor; [|apply IH, Hrest].
      rewrite orb_false_r in Hp. apply Nat.eqb_eq, Hp.
  - intros (Hne & Hall). split.
    + induction Hall as [|pair pairs Hp _ IH]; [reflexivity|].
      cbn [map forallb existsb]. rewrite Hp. simpl.
      destruct pairs; [reflexivity|]. apply IH. discriminate.
    + destruct Hall as [|pair pairs Hp _]; [congruence|].
      cbn [map forallb existsb]. rewrite Hp. reflexivity.
Qed.

Lemma all_but_last_snoc {A : Type} (l : list A) (x : A) : all_but_last (l ++ [x]) = l.
Proof. apply removelast_last. Qed.

Lemma _check_answer_eq (answer : list (list string)) :
  _check_answer answer
  = match answer with
    | [] | [] :: _ => Raise IndexError
    | (first_date :: _) :: _ =>
        if (first_date =? "09/02/2019")%string
        then Ok (false, "Expected first day of data: 09/02/2019. Received")
        else if set_eqb (map (@List.length string) (all_but_last answer)) [2%nat]
             then Ok (true, "")
             else Ok (false, "Expecting a list of pairs, lengths received")
    end.
Proof.
  unfold _check_answer.
  destruct answer as [|[|first_date first_rest] rest]; try reflexivity.
  simpl index. simpl bind.
  destruct (first_date =? "09/02/2019")%string; [reflexivity|].
  simpl negb. cbv iota.
  destruct (set_eqb _ _); reflexivity.
Qed.

Lemma _check_answer_accepted_shape (answer : list (list string)) (message : string) :
  _check_answer answer = Ok (true, message) ->
  message = ""
  /\ exists first_date count pairs last,
        answer = [first_date; count] :: pairs ++ [last]
        /\ first_date <> "09/02/2019"
        /\ Forall (fun pair => List.length pair = 2%nat) pairs.
Proof.
  rewrite _check_answer_eq.
  destruct answer as [|[|first_date first_rest] rest]; try discriminate.
  destruct (first_date =? "09/02/2019")%string eqn:Hdate; [discriminate|].
  destruct (set_eqb _ _) eqn:Hset; [|discriminate].
  intros H. split; [inversion H; reflexivity|]. clear H.
  apply lengths_all_two in Hset. destruct Hset as (Hne & Hall).
  destruct rest as [|second rest']; [exfalso; apply Hne; reflexivity|].
  destruct (@exists_last _ (second :: rest') ltac:(discriminate))
    as (pairs & last & Hrest).
  rewrite Hrest in *.
  change ((first_date :: first_rest) :: pairs ++ [last])
    with (((first_date :: first_rest) :: pairs) ++ [last]) in Hall.
  rewrite all_but_last_snoc in Hall.
  inversion Hall as [|p ps Hfirst Hpairs]; subst.
  destruct first_rest as [|count [|]]; try discriminate.
  exists first_date, count, pairs, last.
  split; [reflexivity|]. split; [apply String.eqb_neq, Hdate | exact Hpairs].
Qed.

Lemma _check_answer_shape_accepted (first_date count : string)
  (pairs : list (list string)) (last : list string) :
  first_date <> "09/02/2019" ->
  Forall (fun pair => List.length pair = 2%nat) pairs ->
  _check_answer ([first_date; count] :: pairs ++ [last]) = Ok (true, "").
Proof.
  intros Hdate Hpairs. rewrite _check_answer_eq.
  apply String.eqb_neq in Hdate. rewrite Hdate.
  change ([first_date; count] :: pairs ++ [last])
    with (([first_date; count] :: pairs) ++ [last]).
  rewrite all_but_last_snoc.
  assert (Hset : set_eqb (map (@List.length string) ([first_date; count] :: pairs))
                   [2%nat] = true).
  { apply lengths_all_two. split; [discriminate|]. constructor; [reflexivity|assumption]. }
  rewrite Hset. reflexivity.
Qed.


Section IngestionEntries.
Variable parse_mdy : string -> result datetime.
Variable int_of_float : string -> result Z.

Lemma _format_pair_entry (pair : list string) (n n' : nat) (entry : DayTimeRange * Z) :
  _format_pair parse_mdy int_of_float pair n = Ok (entry, n') ->
  entry_of_pair parse_mdy int_of_float pair entry
  /\ day_id (fst entry) = n /\ n' = S n.
Proof.
  unfold _format_pair.
  destruct (negb (List.length pair =? 2)%nat) eqn:Hlen; [discriminate|].
  apply negb_false_iff, Nat.eqb_eq in Hlen.
  destruct pair as [|date_text [|count_text [|]]]; try discriminate.
  unfold bindM at 1. unfold lift at 1. simpl index. simpl bind.
  destruct (parse_mdy date_text) as [date|e] eqn:Hparse; [|discriminate].
  unfold bindM at 1.
  destruct (DayTimeRange_init date n) as [[r n1]|e] eqn:Hinit; [|discriminate].
  apply DayTimeRange_init_ok in Hinit.
  destruct Hinit as (Hstart & Hend & Hcheck & Hid & Hn1).
  unfold bindM, lift, ret.
  destruct (int_of_float count_text) as [count|e] eqn:Hcount; [|discriminate].
  intros H; inversion H; subst. simpl.
  split; [|auto]. exists date_text, count_text. simpl. auto.
Qed.

Lemma _format_pair_comprehension_entries (pairs : list (list string)) :
  forall n n' entries,
    comprehension (_format_pair parse_mdy int_of_float) pairs n = Ok (entries, n') ->
    Forall2 (entry_of_pair parse_mdy int_of_float) pairs entries.
Proof.
  induction pairs as [|pair pairs IH]; intros n n' entries; rewrite ?comprehension_cons.
  - simpl. unfold ret. intros H; inversion H; subst. constructor.
  - destruct (_format_pair parse_mdy int_of_float pair n) as [[entry n1]|e] eqn:Hp;
      [|discriminate].
    destruct (comprehension (_format_pair parse_mdy int_of_float) pairs n1)
      as [[rest n2]|e] eqn:Hrest; [|discriminate].
    intros H; inversion H; subst.
    constructor; [apply (_format_pair_entry _ _ _ _ Hp) | eapply IH; eauto].
Qed.
End IngestionEntries.

(** X8. Every history that ingestion returns has one entry for the padding
    pair and one for each pair of the answer but the last, in that order. Each
    entry was read from its pair, a date text and a count text, by [parse_mdy]
    and [int_of_float]; its key is a Day object whose start passes the Day
    check and whose end is the start plus one day; and the keys are new
    objects with consecutive identities. *)
Theorem _format_answer_entries
  (parse_mdy : string -> result datetime) (int_of_float : string -> result Z)
  (answer : list (list string)) (n n' : nat) (h : DailyCountHistory)
  (Haccepted : _format_answer parse_mdy int_of_float answer n = Ok (h, n')) :
  Forall2 (entry_of_pair parse_mdy int_of_float)
    (["09/01/2019"; "0"] :: all_but_last answer) (day_to_count h)
  /\ map day_id (keys (day_to_count h)) = seq n (List.length answer).
Proof.
  revert Haccepted. rewrite _format_answer_eq.
  destruct (_check_answer answer) as [[is_ok message]|e] eqn:Hcheck; [|discriminate].
  destruct is_ok; [|discriminate].
  destruct (_check_answer_accepts _ _ Hcheck) as (first & rest & Hanswer).
  assert (Hpadded : all_but_last (_pad_answer answer)
                    = ["09/01/2019"; "0"] :: all_but_last answer).
  { rewrite Hanswer. reflexivity. }
  rewrite Hpadded.
  destruct (comprehension (_format_pair parse_mdy int_of_float)
              (["09/01/2019"; "0"] :: all_but_last answer) n)
    as [[entries n1]|e] eqn:Hentries; [|discriminate].
  pose proof (_format_pair_comprehension_entries _ _ _ _ _ _ Hentries) as Hshape.
  destruct (_format_pair_comprehension_ids _ _ _ _ _ _ Hentries) as (Hids & _).
  assert (Hlen : List.length (["09/01/2019"; "0"] :: all_but_last answer)
                 = List.length answer).
  { rewrite Hanswer. apply all_but_last_length. }
  rewrite Hlen in Hids.
  assert (Hnodup : NoDup (map day_id (keys entries))) by (rewrite Hids; apply seq_NoDup).
  rewrite (of_pairs_fresh day_id day_is day_is_id _ Hnodup).
  intros Hinit. rewrite (DailyCountHistory_init_day_to_count _ _ _ _ Hinit).
  split; assumption.
Qed.

Lemma _format_answer_entries_witness :
  exists h n',
    _format_answer read_mdy read_digits
      [["09/03/2019"; "5"]; ["09/04/2019"; "3"]] 0%nat = Ok (h, n')
    /\ map day_id (keys (day_to_count h)) = [0%nat; 1%nat].
Proof.
  destruct (_format_answer read_mdy read_digits
              [["09/03/2019"; "5"]; ["09/04/2019"; "3"]] 0%nat)
    as [[h n']|e] eqn:H.
  - exists h, n'. split; [reflexivity|].
    apply (_format_answer_entries read_mdy read_digits _ _ _ _ H).
  - vm_compute in H. discriminate.
Defined.



(** ** Lookups and ranks of the target day *)

Section IdentityLookup.
Context {K V : Type} (id_of : K -> nat) (key_is : K -> K -> bool).
Hypothesis key_is_id : forall a b, key_is a b = (id_of a =? id_of b)%nat.

Lemma get_in_ids (d : dict K V) (k : K) (v : V) :
  NoDup (map id_of (keys d)) -> In (k, v) d -> get key_is d k = Some v.
Proof.
  induction d as [|[k' v'] d IH]; simpl; intros Hnd Hin; [destruct Hin|].
  inversion Hnd as [|x xs Hnotin Hnd']; subst.
  rewrite key_is_id. destruct Hin as [Heq|Hin].
  - inversion Heq; subst. rewrite Nat.eqb_refl. reflexivity.
  - destruct (Nat.eqb_spec (id_of k') (id_of k)) as [E|E].
    + exfalso. apply Hnotin. rewrite E. apply in_map.
      unfold keys. apply in_map_iff. exists (k, v). auto.
    + apply IH; assumption.
Qed.
End IdentityLookup.

(** X10. In a history whose keys are distinct objects, [extract_total]
    returns the count stored for a Day that is a key, and raises [KeyError]
    for a Day object that is not one of the keys, even when a key holds the
    same date; [extract_total_hourly] does the same with Hour objects. *)
Theorem extract_total_lookup (count_history : DailyCountHistory)
  (hourly : HourlyCountHistory)
  (Hdays : NoDup (map day_id (keys (day_to_count count_history))))
  (Hhours : NoDup (map hour_id (keys (hour_to_count hourly)))) :
  (forall day count,
     In (day, count) (day_to_count count_history) ->
     extract_total count_history day = Ok count)
  /\ (forall day,
        ~ In (day_id day) (map day_id (keys (day_to_count count_history))) ->
        extract_total count_history day = Raise KeyError)
  /\ (forall hour count,
        In (hour, count) (hour_to_count hourly) ->
        extract_total_hourly hourly hour = Ok count)
  /\ (forall hour,
        ~ In (hour_id hour) (map hour_id (keys (hour_to_count hourly))) ->
        extract_total_hourly hourly hour = Raise KeyError).
Proof.
  unfold extract_total, extract_total_hourly, getitem. repeat split.
  - intros day count Hin. rewrite (get_in_ids day_id day_is day_is_id _ _ _ Hdays Hin).
    reflexivity.
  - intros day Hnotin. rewrite (get_fresh day_id day_is day_is_id _ _ Hnotin).
    reflexivity.
  - intros hour count Hin.
    rewrite (get_in_ids hour_id hour_is hour_is_id _ _ _ Hhours Hin). reflexivity.
  - intros hour Hnotin. rewrite (get_fresh hour_id hour_is hour_is_id _ _ Hnotin).
    reflexivity.
Qed.

Lemma counts_where_target (keep : DayTimeRange -> bool)
  (count_history : DailyCountHistory) (target : DayTimeRange) (count : Z) :
  keep target = true ->
  In (target, count) (day_to_count count_history) ->
  let pop := counts_where keep count_history in
  1 <= rank_in count pop
  /\ 0 <= ties_in count pop
  /\ rank_in count pop + ties_in count pop
     <= Z.of_nat (List.length (day_to_count count_history)).
Proof.
  intros Hkeep Hin pop. unfold rank_in, ties_in.
  assert (Hmem : In count pop).
  { unfold pop, counts_where, items. apply in_map_iff. exists (target, count).
    split; [reflexivity|]. apply filter_In. auto. }
  apply count_equal_in in Hmem.
  pose proof (count_greater_equal_length count pop) as Hlen.
  assert (Hpop : (List.length pop <= List.length (day_to_count count_history))%nat).
  { unfold pop, counts_where, items. rewrite length_map. apply filter_length_le. }
  lia.
Qed.

(** X11. For a target day that is a key of a history with distinct keys,
    the four rank computations of the fact extraction return, and the target
    counts in its own population: the rank is at least 1, the number of ties
    is never negative (the -1 of [human_rank_in_list] does not occur), and
    rank plus ties is at most the number of days of the history. *)
Theorem target_ranks_within_history (count_history : DailyCountHistory)
  (target : DayTimeRange) (count : Z)
  (Hkeys : NoDup (map day_id (keys (day_to_count count_history))))
  (Hin : In (target, count) (day_to_count count_history)) :
  Forall (fun computed =>
            exists rank ties,
              computed = Ok (rank, ties)
              /\ 1 <= rank /\ 0 <= ties
              /\ rank + ties <= Z.of_nat (List.length (day_to_count count_history)))
    [extract_rank_and_ties_of_day_of_week count_history target true;
     extract_rank_and_ties_of_day_of_week count_history target false;
     get_rank_of_day_in_year count_history target;
     get_rank_of_day_in_month count_history target].
Proof.
  pose proof (get_in_ids day_id day_is day_is_id _ _ _ Hkeys Hin) as Hget.
  assert (Hdow : forall same_year, same_day_of_week same_year target target = true).
  { intros same_year. unfold same_day_of_week.
    rewrite (proj2 (DayOfWeek_eqb_eq _ _) eq_refl), Z.eqb_refl, orb_true_r.
    reflexivity. }
  unfold get_rank_of_day_in_year, get_rank_of_day_in_month.
  rewrite !(extract_rank_and_ties_of_day_of_week_value _ _ _ _ Hget).
  rewrite !(get_rank_of_day_value _ _ _ _ Hget).
  repeat constructor; do 2 eexists; (split; [reflexivity|]).
  - apply (counts_where_target _ _ target); [apply Hdow | exact Hin].
  - apply (counts_where_target _ _ target); [apply Hdow | exact Hin].
  - apply (counts_where_target (fun day => share_year day target) _ target);
      [apply Z.eqb_refl | exact Hin].
  - apply (counts_where_target (fun day => share_month day target) _ target);
      [apply Z.eqb_refl | exact Hin].
Qed.

Lemma extract_total_lookup_witness :
  exists h n',
    DailyCountHistory_init september_counts 4%nat = Ok (h, n')
    /\ extract_total h (september_day 2 3) = Ok 5
    /\ extract_total h (september_day 9 3) = Raise KeyError.
Proof.
  destruct (DailyCountHistory_init september_counts 4%nat) as [[h n']|e] eqn:Hinit;
    [|vm_compute in Hinit; discriminate].
  pose proof (DailyCountHistory_init_day_to_count _ _ _ _ Hinit) as Hd.
  set (hourly := {| daily := h;
                    hour_to_count := morning_counts;
                    hour_to_cumsum := [];
                    hour_and_day_of_week_to_best_count := [] |}).
  assert (Hdays : NoDup (map day_id (keys (day_to_count h)))).
  { rewrite Hd. simpl. repeat constructor; simpl; intuition discriminate. }
  assert (Hhours : NoDup (map hour_id (keys (hour_to_count hourly)))).
  { simpl. repeat constructor; simpl; intuition discriminate. }
  destruct (extract_total_lookup h hourly Hdays Hhours) as (Hfound & Hmissing & _).
  exists h, n'. split; [reflexivity|]. split.
  - apply Hfound. rewrite Hd. simpl. auto.
  - apply Hmissing. rewrite Hd. simpl. intuition discriminate.
Defined.

Lemma target_ranks_within_history_witness :
  exists h n',
    DailyCountHistory_init september_counts 4%nat = Ok (h, n')
    /\ exists rank ties,
         get_rank_of_day_in_month h (september_day 2 3) = Ok (rank, ties)
         /\ 1 <= rank /\ 0 <= ties.
Proof.
  destruct (DailyCountHistory_init september_counts 4%nat) as [[h n']|e] eqn:Hinit;
    [|vm_compute in Hinit; discriminate].
  pose proof (DailyCountHistory_init_day_to_count _ _ _ _ Hinit) as Hd.
  assert (Hkeys : NoDup (map day_id (keys (day_to_count h)))).
  { rewrite Hd. simpl. repeat constructor; simpl; intuition discriminate. }
  assert (Hin : In (september_day 2 3, 5) (day_to_count h)).
  { rewrite Hd. simpl. auto. }
  pose proof (target_ranks_within_history h (september_day 2 3) 5 Hkeys Hin) as Hall.
  rewrite Forall_forall in Hall.
  destruct (Hall (get_rank_of_day_in_month h (september_day 2 3)))
    as (rank & ties & Hrank & Hlow & Hties & _).
  { simpl. auto. }
  exists h, n'. split; [reflexivity|]. exists rank, ties. auto.
Defined.

(** ** The window of the fact extraction *)

(** X12. A Day range does not contain its own end, so asking for the facts
    of a day within that same day always raises the [ValueError] of the
    window test, whatever the history. *)
Theorem extract_relevant_facts_within_own_day (count_history : DailyCountHistory)
  (target_range : DayTimeRange) :
  extract_relevant_facts count_history (Day target_range) target_range
  = Raise (ValueError "Arg among_range must contain arg target_range").
Proof.
  rewrite extract_relevant_facts_eq. simpl contains. unfold DayTimeRange_contains.
  rewrite ltb_irrefl, andb_false_r, orb_true_r. reflexivity.
Qed.

Lemma add_one_day_same_month (d e : datetime) :
  valid d = true -> add_one_day d = Ok e ->
  ((year d =? year e) && (month d =? month e)
   = (day d <? days_in_month (year d) (month d))).
Proof.
  intros Hv. unfold valid in Hv.
  repeat (apply andb_prop in Hv; destruct Hv as [Hv ?]).
  unfold add_one_day.
  destruct (day d <? days_in_month (year d) (month d)) eqn:Hd;
    [|destruct (month d <? 12) eqn:Hm];
    match goal with |- context [?y <=? 9999] => destruct (y <=? 9999) end;
    intros H'; inversion H'; subst; simpl.
  - rewrite !Z.eqb_refl. reflexivity.
  - assert ((month d =? month d + 1) = false) as -> by lia. apply andb_false_r.
  - assert ((year d =? year d + 1) = false) as -> by lia. reflexivity.
Qed.

(** X13. With the month of the target day as the window, the fact extraction
    raises the [ValueError] of the window test exactly when the target is the
    last day of its month: the end of that day is in the next month. Here the
    target is a Day holding a valid date, whose end is its start plus one day,
    and the window is a Month range starting on the first day of the target's
    month. *)
Theorem extract_relevant_facts_within_own_month (count_history : DailyCountHistory)
  (window : MonthTimeRange) (target_range : DayTimeRange)
  (Hvalid : valid (day_start_date target_range) = true)
  (Hend : add_one_day (day_start_date target_range) = Ok (day_end_date target_range))
  (Hwindow : month_start_date window = first_of_month (day_start_date target_range)) :
  is_value_error (extract_relevant_facts count_history (Month window) target_range) = true
  <-> day (day_start_date target_range)
      = days_in_month (year (day_start_date target_range))
          (month (day_start_date target_range)).
Proof.
  rewrite extract_relevant_facts_eq. simpl contains. unfold MonthTimeRange_contains.
  rewrite Hwindow. simpl year. simpl month. rewrite !Z.eqb_refl. simpl negb. simpl orb.
  rewrite (add_one_day_same_month _ _ Hvalid Hend).
  assert (Hday : day (day_start_date target_range)
                 <= days_in_month (year (day_start_date target_range))
                      (month (day_start_date target_range))).
  { unfold valid in Hvalid.
    repeat (apply andb_prop in Hvalid; destruct Hvalid as [Hvalid ?]). lia. }
  destruct (day (day_start_date target_range)
            <? days_in_month (year (day_start_date target_range))
                 (month (day_start_date target_range))) eqn:Hlt; simpl.
  - destruct (get day_is (day_to_count count_history) target_range); simpl;
      split; intros; try discriminate; lia.
  - split; intros; [lia | reflexivity].
Qed.

(** ** Selection of facts *)

Lemma filter_max_priority (facts : list RelevantFact) (m : Z) :
  max (map priority facts) = Ok m ->
  filter (fun fact => priority fact =? m) facts <> []
  /\ Forall (fun fact => priority fact <= m) facts.
Proof.
  intros H. apply max_spec in H. destruct H as (Hin & Hall). split.
  - apply in_map_iff in Hin. destruct Hin as (fact & Hp & Hfact).
    assert (Hf : In fact (filter (fun fact => priority fact =? m) facts)).
    { apply filter_In. split; [exact Hfact | apply Z.eqb_eq, Hp]. }
    intros E. rewrite E in Hf. destruct Hf.
  - rewrite Forall_forall in *. intros fact Hfact. apply Hall, in_map, Hfact.
Qed.

Lemma max_of_constant (l : list Z) (m : Z) :
  l <> [] -> Forall (fun x => x = m) l -> max l = Ok m.
Proof.
  intros Hne Hall. destruct l as [|x l]; [congruence|].
  inversion Hall as [|y ys Hx Hrest]; subst. unfold max. f_equal.
  clear Hne Hall. induction Hrest as [|y l Hy _ IH]; simpl; [reflexivity|].
  subst y. rewrite Z.max_id. exact IH.
Qed.

(** X14. [extract_highest_priority_relevant_facts] raises a [ValueError] on
    the empty list. On any other list it returns the facts whose priority is
    the greatest of the list, in their order: the result is not empty, all its
    facts have one priority, no fact of the list has a greater one, and
    selecting again from the result returns the result. *)
Theorem extract_highest_priority_relevant_facts_spec (facts : list RelevantFact) :
  match facts with
  | [] => is_value_error (extract_highest_priority_relevant_facts facts) = true
  | _ =>
      exists top m,
        extract_highest_priority_relevant_facts facts = Ok top
        /\ top = filter (fun fact => priority fact =? m) facts
        /\ top <> []
        /\ Forall (fun fact => priority fact = m) top
        /\ Forall (fun fact => priority fact <= m) facts
        /\ extract_highest_priority_relevant_facts top = Ok top
  end.
Proof.
  destruct facts as [|fact facts]; [reflexivity|].
  set (all := fact :: facts).
  unfold extract_highest_priority_relevant_facts.
  destruct (max (map priority all)) as [m|e] eqn:Hmax; [|discriminate].
  destruct (filter_max_priority all m Hmax) as (Hne & Hall).
  set (top := filter (fun fact => priority fact =? m) all) in *.
  assert (Htop : Forall (fun fact => priority fact = m) top).
  { apply Forall_forall. intros f Hf. apply filter_In in Hf. apply Z.eqb_eq, Hf. }
  exists top, m. simpl bind. repeat split; try assumption.
  rewrite (max_of_constant (map priority top) m).
  - simpl bind. f_equal. apply forallb_filter_id.
    apply forallb_forall. intros f Hf. rewrite Forall_forall in Htop.
    apply Z.eqb_eq, Htop, Hf.
  - intros E. apply map_eq_nil in E. contradiction.
  - apply Forall_map. exact Htop.
Qed.

(** X15. The facts that [extract_relevant_facts] returns all have priority
    0, so [extract_highest_priority_relevant_facts] returns all of them, in
    the same order. *)
Theorem highest_priority_of_extracted_facts (count_history : DailyCountHistory)
  (among_range : TimeRange) (target_range : DayTimeRange) (facts : list RelevantFact)
  (H : extract_relevant_facts count_history among_range target_range = Ok facts) :
  extract_highest_priority_relevant_facts facts = Ok facts.
Proof.
  rewrite extract_relevant_facts_eq in H.
  destruct (negb (contains among_range (day_start_date target_range))
            || negb (contains among_range (day_end_date target_range)));
    [discriminate|].
  destruct (get day_is (day_to_count count_history) target_range) as [count|];
    [|discriminate].
  inversion H; subst. reflexivity.
Qed.

Lemma highest_priority_of_extracted_facts_witness :
  exists h n' facts,
    DailyCountHistory_init september_counts 4%nat = Ok (h, n')
    /\ extract_relevant_facts h september_2019 (september_day 2 3) = Ok facts
    /\ extract_highest_priority_relevant_facts facts = Ok facts.
Proof.
  destruct (DailyCountHistory_init september_counts 4%nat) as [[h n']|e] eqn:Hinit;
    [|vm_compute in Hinit; discriminate].
  pose proof (DailyCountHistory_init_day_to_count _ _ _ _ Hinit) as Hd.
  destruct (extract_relevant_facts h september_2019 (september_day 2 3))
    as [facts|e] eqn:Hfacts.
  - exists h, n', facts. split; [reflexivity|]. split; [exact Hfacts|].
    apply (highest_priority_of_extracted_facts h september_2019
             (september_day 2 3) facts Hfacts).
  - rewrite extract_relevant_facts_eq, Hd in Hfacts. simpl in Hfacts. discriminate.
Defined.

Lemma extract_relevant_facts_within_own_month_witness :
  is_value_error
    (extract_relevant_facts empty_history (Month september_month) september_30th) = true.
Proof.
  apply (extract_relevant_facts_within_own_month empty_history september_month
           september_30th eq_refl eq_refl eq_refl).
  reflexivity.
Defined.

(** ** Rendering *)

(** X16. [relevant_facts_to_string] raises a [ValueError] on the empty list;
    on a list of one fact it returns what that fact renders to, whatever the
    draw; on any other list it returns what one of the facts of greatest
    priority renders to. The draw of the random source is any function that
    returns a number below its argument. *)
Theorem relevant_facts_to_string_spec (randbelow : nat -> nat)
  (relevant_facts : list RelevantFact) (language : Language.t)
  (time_of_publication : datetime) (dictionary : Sentences)
  (Hdraw : forall n, (0 < n)%nat -> (randbelow n < n)%nat) :
  match relevant_facts with
  | [] =>
      relevant_facts_to_string randbelow relevant_facts language time_of_publication
        dictionary
      = Fail (Builtin (ValueError "Need at least one relevant fact"))
  | [fact] =>
      relevant_facts_to_string randbelow relevant_facts language time_of_publication
        dictionary
      = RelevantFact_to_string fact language time_of_publication dictionary
  | _ =>
      exists fact,
        In fact relevant_facts
        /\ Forall (fun other => priority other <= priority fact) relevant_facts
        /\ relevant_facts_to_string randbelow relevant_facts language
             time_of_publication dictionary
           = RelevantFact_to_string fact language time_of_publication dictionary
  end.
Proof.
  assert (Hgeneral : forall fact facts,
             exists chosen,
               In chosen (fact :: facts)
               /\ Forall (fun other => priority other <= priority chosen) (fact :: facts)
               /\ relevant_facts_to_string randbelow (fact :: facts) language
                    time_of_publication dictionary
                  = RelevantFact_to_string chosen language time_of_publication dictionary).
  { intros fact facts.
    change (relevant_facts_to_string randbelow (fact :: facts) language
              time_of_publication dictionary)
      with (and_then (of_result (extract_highest_priority_relevant_facts (fact :: facts)))
              (fun top =>
               and_then (of_result (index top (randbelow (List.length top))))
                 (fun chosen =>
                  RelevantFact_to_string chosen language time_of_publication dictionary))).
    set (all := fact :: facts).
    unfold extract_highest_priority_relevant_facts.
    destruct (max (map priority all)) as [m|e] eqn:Hmax; [|discriminate].
    destruct (filter_max_priority all m Hmax) as (Hne & Hall).
    cbn [bind of_result and_then].
    set (top := filter (fun f => priority f =? m) all) in *.
    assert (Hlen : (0 < List.length top)%nat).
    { destruct top; [congruence | simpl; lia]. }
    destruct (index_in_range top (randbelow (List.length top)) (Hdraw _ Hlen))
      as (chosen & Hchosen).
    rewrite Hchosen. cbn [of_result and_then]. exists chosen.
    apply index_in in Hchosen. apply filter_In in Hchosen.
    destruct Hchosen as (Hin & Hp). apply Z.eqb_eq in Hp.
    split; [exact Hin|]. split; [rewrite Hp; exact Hall | reflexivity]. }
  destruct relevant_facts as [|fact [|second rest]].
  - reflexivity.
  - destruct (Hgeneral fact []) as (chosen & [Heq|[]] & _ & Hresult).
    subst chosen. exact Hresult.
  - apply Hgeneral.
Qed.

Lemma relevant_facts_to_string_spec_witness :
  relevant_facts_to_string (fun _ => 0%nat)
    [HistoricalTotalRelevantFact (Day september_30th) 0 12] Language.FR
    (mk_datetime 2019 9 30 18 0 0 0) today_and_yesterday
  = RelevantFact_to_string (HistoricalTotalRelevantFact (Day september_30th) 0 12)
      Language.FR (mk_datetime 2019 9 30 18 0 0 0) today_and_yesterday.
Proof.
  apply (relevant_facts_to_string_spec (fun _ => 0%nat)
           [HistoricalTotalRelevantFact (Day september_30th) 0 12] Language.FR
           (mk_datetime 2019 9 30 18 0 0 0) today_and_yesterday).
  intros n Hn. exact Hn.
Defined.

(** Subtracting a day undoes adding one. *)
Lemma sub_add_one_day (d e : datetime) :
  valid d = true -> add_one_day d = Ok e -> sub_one_day e = Ok d.
Proof.
  intros Hv. unfold valid in Hv.
  repeat (apply andb_prop in Hv; destruct Hv as [Hv ?]).
  unfold add_one_day.
  destruct (day d <? days_in_month (year d) (month d)) eqn:Hd;
    [|destruct (month d <? 12) eqn:Hm];
    match goal with |- context [?y <=? 9999] => destruct (y <=? 9999) end;
    intros H'; inversion H'; subst; clear H'; unfold sub_one_day; simpl.
  - assert ((1 <? day d + 1) = true) as -> by lia.
    assert ((1 <=? year d) = true) as -> by lia.
    replace (day d + 1 - 1) with (day d) by lia. destruct d; reflexivity.
  - assert ((1 <? month d + 1) = true) as -> by lia.
    assert ((1 <=? year d) = true) as -> by lia.
    replace (month d + 1 - 1) with (month d) by lia.
    replace (days_in_month (year d) (month d)) with (day d) by lia.
    destruct d; reflexivity.
  - assert ((1 <=? year d + 1 - 1) = true) as -> by lia.
    replace (year d + 1 - 1) with (year d) by lia.
    assert (Hm12 : month d = 12) by lia.
    assert (Hd31 : day d = 31).
    { rewrite Hm12 in *. unfold days_in_month in *. simpl in *. lia. }
    destruct d; simpl in *. subst. reflexivity.
Qed.

Lemma same_date_sym_fields (a b : datetime) :
  same_date a b = true -> year a = year b /\ month a = month b /\ day a = day b.
Proof.
  unfold same_date. rewrite !andb_true_iff, !Z.eqb_eq. tauto.
Qed.

Lemma sub_one_day_date (p e q : datetime) :
  same_date p e = true -> sub_one_day e = Ok q ->
  exists q', sub_one_day p = Ok q' /\ same_date q' q = true.
Proof.
  intros Hsame. apply same_date_sym_fields in Hsame. destruct Hsame as (Hy & Hm & Hd).
  unfold sub_one_day. rewrite Hy, Hm, Hd.
  destruct (1 <? day e); [|destruct (1 <? month e)];
    match goal with |- context [1 <=? ?y] => destruct (1 <=? y) end;
    intros H; inversion H; subst; eexists; (split; [reflexivity|]);
    unfold same_date; simpl; rewrite !Z.eqb_refl; reflexivity.
Qed.

Lemma add_one_day_other_date (d e : datetime) :
  add_one_day d = Ok e -> same_date e d = false.
Proof.
  unfold add_one_day, same_date.
  destruct (day d <? days_in_month (year d) (month d));
    [|destruct (month d <? 12)];
    match goal with |- context [?y <=? 9999] => destruct (y <=? 9999) end;
    intros H; inversion H; subst; simpl.
  - assert ((day d + 1 =? day d) = false) as -> by lia. apply andb_false_r.
  - assert ((month d + 1 =? month d) = false) as -> by lia.
    rewrite andb_false_r. reflexivity.
  - assert ((year d + 1 =? year d) = false) as -> by lia. reflexivity.
Qed.

Lemma same_date_trans (a b c : datetime) :
  same_date a b = true -> same_date b c = true -> same_date a c = true.
Proof.
  unfold same_date. rewrite !andb_true_iff, !Z.eqb_eq. intuition congruence.
Qed.

Lemma same_date_left (a b c : datetime) :
  same_date a b = true -> same_date a c = same_date b c.
Proof.
  intros H. apply same_date_sym_fields in H. destruct H as (Hy & Hm & Hd).
  unfold same_date. rewrite Hy, Hm, Hd. reflexivity.
Qed.

(** X17. The label of a Day range holding a valid date: published at any
    time of that same date it is the TODAY sentence; published at any time of
    the next date it is the YESTERDAY sentence; and whenever [to_string]
    returns, it returns one of these two sentences. *)
Theorem DayTimeRange_to_string_spec (self : DayTimeRange) (language : Language.t)
  (day_of_publication : datetime) (dictionary : Sentences)
  (Hvalid : valid (day_start_date self) = true) :
  (same_date day_of_publication (day_start_date self) = true ->
   DayTimeRange_to_string self language day_of_publication dictionary
   = of_result (sentence dictionary DictionaryKey.TODAY language))
  /\ (forall next_day,
        add_one_day (day_start_date self) = Ok next_day ->
        same_date day_of_publication next_day = true ->
        DayTimeRange_to_string self language day_of_publication dictionary
        = of_result (sentence dictionary DictionaryKey.YESTERDAY language))
  /\ (forall label,
        DayTimeRange_to_string self language day_of_publication dictionary
        = Return label ->
        sentence dictionary DictionaryKey.TODAY language = Ok label
        \/ sentence dictionary DictionaryKey.YESTERDAY language = Ok label).
Proof.
  unfold DayTimeRange_to_string. split; [|split].
  - intros ->. reflexivity.
  - intros next_day Hnext Hsame.
    rewrite (same_date_left _ _ _ Hsame), (add_one_day_other_date _ _ Hnext).
    pose proof (sub_add_one_day _ _ Hvalid Hnext) as Hback.
    destruct (sub_one_day_date _ _ _ Hsame Hback) as (q & Hq & Hqs).
    rewrite Hq. simpl. rewrite Hqs. reflexivity.
  - intros label.
    destruct (same_date day_of_publication (day_start_date self)).
    + destruct (sentence dictionary DictionaryKey.TODAY language); simpl;
        intros H; inversion H; auto.
    + destruct (sub_one_day day_of_publication) as [q|e]; simpl; [|discriminate].
      destruct (same_date q (day_start_date self)); [|discriminate].
      destruct (sentence dictionary DictionaryKey.YESTERDAY language); simpl;
        intros H; inversion H; auto.
Qed.

Lemma DayTimeRange_to_string_spec_witness :
  DayTimeRange_to_string september_30th Language.FR (mk_datetime 2019 10 1 8 30 0 0)
    today_and_yesterday
  = Return "Hier".
Proof.
  apply (proj1 (proj2 (DayTimeRange_to_string_spec september_30th Language.FR
                         (mk_datetime 2019 10 1 8 30 0 0) today_and_yesterday eq_refl))
           (mk_datetime 2019 10 1 0 0 0 0) eq_refl eq_refl).
Defined.

Lemma count_greater_of_maximum (v : Z) (pop : list Z) :
  Forall (fun x => x <= v) pop -> count_greater v pop = 0%nat.
Proof.
  unfold count_greater. induction 1 as [|x pop Hx _ IH]; simpl; [reflexivity|].
  assert ((v <? x) = false) as -> by lia. exact IH.
Qed.

(** X18. The rank that [human_rank_in_list] returns is never 0, so
    [get_male_best] applied to it never takes its branch for rank 0: it reads
    the ordinal from SECOND, THIRD or the number followed by ITH, and puts it
    before the MALE_BEST sentence. A value that no element of the population
    exceeds gets rank 1, hence the SECOND sentence. *)
Theorem get_male_best_of_human_rank (v : Z) (pop : list Z) (language : Language.t)
  (dictionary : Sentences) :
  exists rank ties,
    human_rank_in_list v pop = Ok (rank, ties)
    /\ get_male_best rank language dictionary
       = (ordinal <- (if rank =? 1
                      then sentence dictionary DictionaryKey.SECOND language
                      else if rank =? 2
                           then sentence dictionary DictionaryKey.THIRD language
                           else ith <- sentence dictionary DictionaryKey.ITH language ;;
                                Ok (str rank ++ ith)%string) ;;
          best <- sentence dictionary DictionaryKey.MALE_BEST language ;;
          Ok (ordinal ++ " " ++ best)%string)
    /\ (Forall (fun x => x <= v) pop ->
        rank = 1
        /\ get_male_best rank language dictionary
           = (second <- sentence dictionary DictionaryKey.SECOND language ;;
              best <- sentence dictionary DictionaryKey.MALE_BEST language ;;
              Ok (second ++ " " ++ best)%string)).
Proof.
  do 2 eexists. split; [apply human_rank_in_list_value|].
  set (rank := 1 + Z.of_nat (count_greater v pop)).
  assert (Hrank : (rank =? 0) = false) by (apply Z.eqb_neq; unfold rank; lia).
  split.
  - unfold get_male_best, rank_to_ordinal. rewrite Hrank. reflexivity.
  - intros Hmax. unfold rank. rewrite (count_greater_of_maximum _ _ Hmax).
    split; reflexivity.
Qed.

(** ** Conversions between granularities *)

Lemma midnight_leb (d : datetime) : valid d = true -> leb (midnight d) d = true.
Proof.
  intros Hv. unfold valid in Hv.
  repeat (apply andb_prop in Hv; destruct Hv as [Hv ?]).
  unfold leb, compare, fields, midnight.
  cbn [lex_compare year month day hour minute second microsecond].
  rewrite !Z.compare_refl.
  destruct (0 ?= hour d) eqn:Hh; try reflexivity;
    [|apply Z.compare_gt_iff in Hh; lia].
  destruct (0 ?= minute d) eqn:Hm; try reflexivity;
    [|apply Z.compare_gt_iff in Hm; lia].
  destruct (0 ?= second d) eqn:Hs; try reflexivity;
    [|apply Z.compare_gt_iff in Hs; lia].
  destruct (0 ?= microsecond d) eqn:Hu; try reflexivity.
  apply Z.compare_gt_iff in Hu. lia.
Qed.

Lemma before_next_midnight (d e : datetime) :
  add_one_day (midnight d) = Ok e -> ltb d e = true.
Proof.
  unfold add_one_day, midnight. simpl.
  destruct (day d <? days_in_month (year d) (month d));
    [|destruct (month d <? 12)];
    match goal with |- context [?y <=? 9999] => destruct (y <=? 9999) end;
    intros H; inversion H; subst; clear H; decide_compare.
Qed.

(** X19. The coarser range derived from a range holding a valid instant
    contains the start of that range: the month and the year of a Day are
    built without error and contain the Day's start, and, before year 9999,
    the day of an Hour is built without error and contains the Hour's start.
    Each derivation creates exactly one object. *)
Theorem derived_ranges_contain_start (day : DayTimeRange) (hour : HourTimeRange)
  (n : nat)
  (Hday : valid (day_start_date day) = true)
  (Hhour : valid (hour_start_date hour) = true)
  (Hyear : year (hour_start_date hour) < 9999) :
  (exists m,
     DayTimeRange_month_time_range day n = Ok (m, S n)
     /\ MonthTimeRange_contains m (day_start_date day) = true)
  /\ (exists y,
        DayTimeRange_year_time_range day n = Ok (y, S n)
        /\ YearTimeRange_contains y (day_start_date day) = true)
  /\ (exists d,
        HourTimeRange_day_time_range hour n = Ok (d, S n)
        /\ DayTimeRange_contains d (hour_start_date hour) = true).
Proof.
  split; [|split].
  - rewrite (DayTimeRange_month_time_range_value _ _ Hday). eexists.
    split; [reflexivity|]. unfold MonthTimeRange_contains. simpl.
    rewrite !Z.eqb_refl. reflexivity.
  - rewrite (DayTimeRange_year_time_range_value _ _ Hday). eexists.
    split; [reflexivity|]. unfold YearTimeRange_contains. simpl. apply Z.eqb_refl.
  - destruct (HourTimeRange_day_time_range_value hour n Hhour Hyear)
      as (end_date & Hend & Hd).
    rewrite Hd. eexists. split; [reflexivity|].
    unfold DayTimeRange_contains. simpl.
    rewrite (midnight_leb _ Hhour), (before_next_midnight _ _ Hend). reflexivity.
Qed.

Lemma derived_ranges_contain_start_witness :
  exists d,
    HourTimeRange_day_time_range (september_hour 0 10) 5%nat = Ok (d, 6%nat)
    /\ DayTimeRange_contains d (hour_start_date (september_hour 0 10)) = true.
Proof.
  apply (derived_ranges_contain_start september_30th (september_hour 0 10) 5%nat
           eq_refl eq_refl).
  simpl. lia.
Defined.

(** ** The sentence dictionary *)

(** X20. [DayOfWeek.to_dictionary_key] never raises: the name of every day
    of the week is the value of a dictionary key, the key of the same name,
    and two different days get two different keys. So [day_of_week_to_name]
    can only raise the [KeyError] of a sentence missing from the dictionary. *)
Theorem DayOfWeek_to_dictionary_key_total :
  (forall d,
     exists k,
       DayOfWeek_to_dictionary_key d = Ok k
       /\ DictionaryKey.value k = DayOfWeek_name d
       /\ forall language dictionary,
            day_of_week_to_name d language dictionary = sentence dictionary k language)
  /\ (forall d d',
        DayOfWeek_to_dictionary_key d = DayOfWeek_to_dictionary_key d' -> d = d').
Proof.
  split.
  - intros d; destruct d; eexists; repeat split.
  - intros d d'; destruct d, d'; intros H; try reflexivity; discriminate.
Qed.

(** ** The mock history *)

Lemma sub_one_day_time (d e : datetime) :
  sub_one_day d = Ok e ->
  hour e = hour d /\ minute e = minute d /\ second e = second d.
Proof.
  unfold sub_one_day.
  destruct (1 <? day d); [|destruct (1 <? month d)];
    match goal with |- context [1 <=? ?y] => destruct (1 <=? y) end;
    intros H; inversion H; subst; simpl; auto.
Qed.

Lemma sub_days_time (k : nat) :
  forall d e,
    sub_days d k = Ok e ->
    hour e = hour d /\ minute e = minute d /\ second e = second d.
Proof.
  induction k as [|k IH]; intros d e; simpl.
  - intros H; inversion H; subst. auto.
  - destruct (sub_one_day d) as [d'|err] eqn:Hd; simpl; [|discriminate].
    intros H. apply IH in H. apply sub_one_day_time in Hd.
    destruct H as (? & ? & ?), Hd as (? & ? & ?). repeat split; congruence.
Qed.

Lemma sub_one_day_raises (d : datetime) (e : exn) :
  sub_one_day d = Raise e -> e = OverflowError.
Proof.
  unfold sub_one_day.
  destruct (1 <? day d); [|destruct (1 <? month d)];
    match goal with |- context [1 <=? ?y] => destruct (1 <=? y) end;
    intros H; inversion H; reflexivity.
Qed.

Lemma sub_days_raises (k : nat) :
  forall d e, sub_days d k = Raise e -> e = OverflowError.
Proof.
  induction k as [|k IH]; intros d e; simpl; [discriminate|].
  destruct (sub_one_day d) as [d'|err] eqn:Hd; simpl.
  - apply IH.
  - intros H; inversion H; subst. eapply sub_one_day_raises; eauto.
Qed.

(** X21. [generate_mock_count_history] builds its first Day from the present
    instant moved back by whole days, which keeps the time of day. So for one
    day or more it never returns a history unless the present hour, minute and
    second are all zero: it raises the [ValueError] of the Day check, or an
    [OverflowError] when moving back leaves the range of dates. *)
Theorem generate_mock_count_history_needs_midnight (now : datetime)
  (randint : nat -> Z) (nb_days : Z) (n : nat)
  (Hdays : 1 <= nb_days)
  (Htime : hour now <> 0 \/ minute now <> 0 \/ second now <> 0) :
  generate_mock_count_history now randint nb_days n = Raise (ValueError "is not a day")
  \/ generate_mock_count_history now randint nb_days n = Raise OverflowError.
Proof.
  unfold generate_mock_count_history.
  assert ((0 <=? nb_days) = true) as -> by lia.
  destruct (Z.to_nat nb_days) as [|k] eqn:Hk; [lia|].
  unfold bindM at 1. unfold lift at 1.
  destruct (sub_days now (S k)) as [start_date|e] eqn:Hstart.
  - left. apply sub_days_time in Hstart. destruct Hstart as (Hh & Hm & Hs).
    change (seq 0 (S k)) with (0%nat :: seq 1 k).
    unfold bindM at 1. rewrite comprehension_cons.
    unfold bindM at 1. unfold lift at 1. simpl add_days.
    unfold bindM at 1. unfold DayTimeRange_init, bindM, new_id, lift.
    unfold DayTimeRange_check. rewrite Hh, Hm, Hs.
    assert (Hbad : negb (hour now =? 0) || negb (minute now =? 0)
                   || negb (second now =? 0) = true).
    { destruct (hour now =? 0) eqn:E1, (minute now =? 0) eqn:E2,
        (second now =? 0) eqn:E3; try reflexivity. exfalso. lia. }
    rewrite Hbad. reflexivity.
  - right. apply sub_days_raises in Hstart. subst e. reflexivity.
Qed.

Lemma generate_mock_count_history_needs_midnight_witness :
  generate_mock_count_history (mk_datetime 2019 9 30 18 5 0 0) (fun _ => 42) 3 0%nat
  = Raise (ValueError "is not a day")
  \/ generate_mock_count_history (mk_datetime 2019 9 30 18 5 0 0) (fun _ => 42) 3 0%nat
     = Raise OverflowError.
Proof.
  apply (generate_mock_count_history_needs_midnight
           (mk_datetime 2019 9 30 18 5 0 0) (fun _ => 42) 3 0%nat).
  - lia.
  - left. simpl. lia.
Defined.

(** ** More on ranks and totals *)

Lemma count_greater_antitone (v w : Z) (pop : list Z) :
  v <= w -> (count_greater w pop <= count_greater v pop)%nat.
Proof.
  intros H. unfold count_greater.
  induction pop as [|x pop IH]; simpl; [lia|].
  destruct (w <? x) eqn:Hw; destruct (v <? x) eqn:Hv; simpl; lia.
Qed.

(** X22. In one population a greater value never gets a worse rank: if
    [v <= w], the rank [human_rank_in_list] gives [w] is at most the rank it
    gives [v]. *)
Theorem human_rank_in_list_antitone (v w : Z) (pop : list Z) (H : v <= w) :
  exists rank_v ties_v rank_w ties_w,
    human_rank_in_list v pop = Ok (rank_v, ties_v)
    /\ human_rank_in_list w pop = Ok (rank_w, ties_w)
    /\ rank_w <= rank_v.
Proof.
  do 4 eexists. split; [apply human_rank_in_list_value|].
  split; [apply human_rank_in_list_value|].
  pose proof (count_greater_antitone v w pop H). lia.
Qed.

Lemma human_rank_in_list_antitone_witness :
  exists rank_v ties_v rank_w ties_w,
    human_rank_in_list 3 [0; 5; 5; 3] = Ok (rank_v, ties_v)
    /\ human_rank_in_list 5 [0; 5; 5; 3] = Ok (rank_w, ties_w)
    /\ rank_w <= rank_v.
Proof.
  apply (human_rank_in_list_antitone 3 5 [0; 5; 5; 3]). lia.
Defined.

Lemma sum_nonneg_member (l : list Z) (x : Z) :
  Forall (fun c => 0 <= c) l -> In x l -> x <= sum l.
Proof.
  induction 1 as [|y l Hy Hl IH]; intros Hin; [destruct Hin|].
  rewrite sum_cons.
  assert (Hsum : 0 <= sum l).
  { clear -Hl. induction Hl as [|z l Hz _ IH]; [rewrite sum_nil; lia|].
    rewrite sum_cons. lia. }
  destruct Hin as [->|Hin]; [lia|]. specialize (IH Hin). lia.
Qed.

(** X23. In a history of non-negative counts, the month total of a target
    day that is a key of the history is at least the count of that day, and
    at most the total of all the counts. *)
Theorem extract_month_total_bounds (count_history : DailyCountHistory)
  (target : DayTimeRange) (count : Z)
  (Hcounts : Forall (fun c => 0 <= c) (values (day_to_count count_history)))
  (Hin : In (target, count) (day_to_count count_history)) :
  count <= extract_month_total count_history target
  <= sum (values (day_to_count count_history)).
Proof.
  unfold extract_month_total, items, values in *.
  set (keep := fun dc : DayTimeRange * Z =>
                 DayTimeRange_month (fst dc) =? DayTimeRange_month target).
  split.
  - apply sum_nonneg_member.
    + rewrite Forall_forall in *. intros c Hc. apply Hcounts.
      apply in_map_iff in Hc. destruct Hc as (dc & Hdc & Hf).
      apply filter_In in Hf. apply in_map_iff. exists dc. tauto.
    + apply in_map_iff. exists (target, count). split; [reflexivity|].
      apply filter_In. split; [exact Hin|]. unfold keep. simpl. apply Z.eqb_refl.
  - clear Hin. induction (day_to_count count_history) as [|[d c] l IH]; simpl.
    + lia.
    + inversion Hcounts as [|x xs Hc Hrest]; subst. simpl in Hc.
      specialize (IH Hrest).
      destruct (keep (d, c)); simpl; rewrite ?sum_cons; lia.
Qed.

Lemma extract_month_total_bounds_witness :
  exists h n',
    DailyCountHistory_init september_counts 4%nat = Ok (h, n')
    /\ 5 <= extract_month_total h (september_day 2 3)
       <= sum (values (day_to_count h)).
Proof.
  destruct (DailyCountHistory_init september_counts 4%nat) as [[h n']|e] eqn:Hinit;
    [|vm_compute in Hinit; discriminate].
  pose proof (DailyCountHistory_init_day_to_count _ _ _ _ Hinit) as Hd.
  exists h, n'. split; [reflexivity|].
  apply (extract_month_total_bounds h (september_day 2 3) 5).
  - rewrite Hd. simpl. repeat constructor; lia.
  - rewrite Hd. simpl. auto.
Defined.
